(** * fetch_pricing: the pricing scraper of ai-model-pricing

    A shallow embedding of [script/fetch_pricing.py] and of its older copy
    [scripts/fetch_pricing.py]: the OpenAI table extractor, the two
    Anthropic table extractors, the validator, the differ
    [compare_pricing] and the orchestrator [main].

    Data.  A Python dict is an insertion-ordered association list ([dict]):
    the order of the change list follows the iteration order of the dicts.
    The values that the code reads out of a price record with [.get] are
    the JSON scalars ([pyval]).  A snapshot maps model names to records, the
    [models] field maps providers to snapshots; this is the shape that the
    extractors build and that [save_pricing] writes.

    Numbers.  A Python [float] that is finite is kept as the decimal
    [mant * 10^exp10] that [repr] prints for it: the shortest decimal that
    reads back as the same binary64.  The floats of the program are only
    compared (with each other, with 0 and with 1000) and printed, never
    computed with, and on these decimals the comparisons give what they
    give on the floats: the decimal of a float lies strictly between the
    neighbours of the float, and 0 and 1000 are floats and their own
    decimals.  A float equals an int of the JSON file as in Python when
    both are below 2^53, where the decimal of an integral float is exact.
    [float(s)] rounds the decimal of a table cell to the nearest binary64,
    ties to even, to infinity from 2^1024 - 2^970 on and to zero from
    2^-1075 down ([Binary64]); a literal of at most 15 significant digits
    within the range of binary64 is its own float.

    Text.  A string is the sequence of its characters, each a code below
    256.  White space ([strip], [\s]) and digits ([\d]) are Python's on
    these codes; [lower], [upper] and [title] change the ASCII letters
    only, so they are Python's on text whose letters are ASCII.

    Outside.  The extractors take the page as its tables of cell texts
    (the HTTP requests and BeautifulSoup are not modelled) and [main] the
    two snapshots as the fetch functions return them; the file is its
    text, and [json.load] and [json.dump] are functions of the run.
    Console output is left out. *)

From Stdlib Require Import ZArith QArith List String Ascii Bool Lia.
From Stdlib Require Import DecimalString.
Import ListNotations.
Local Open Scope string_scope.
Local Open Scope Z_scope.

Set Implicit Arguments.

(* ------------------------------------------------------------------ *)
(** ** Text *)

Module Text.

Definition chars (s : string) : list ascii := list_ascii_of_string s.
Definition text (l : list ascii) : string := string_of_list_ascii l.

Definition code (c : ascii) : N := N_of_ascii c.

Definition is_upper (c : ascii) : bool := ((65 <=? code c) && (code c <=? 90))%N.
Definition is_lower (c : ascii) : bool := ((97 <=? code c) && (code c <=? 122))%N.
Definition is_digit (c : ascii) : bool := ((48 <=? code c) && (code c <=? 57))%N.

Definition lower_char (c : ascii) : ascii :=
  if is_upper c then ascii_of_N (code c + 32) else c.
Definition upper_char (c : ascii) : ascii :=
  if is_lower c then ascii_of_N (code c - 32) else c.

(** [str.lower()] and [str.upper()]. *)
Definition lower (s : string) : string := text (map lower_char (chars s)).
Definition upper (s : string) : string := text (map upper_char (chars s)).

(** [str.startswith(p)]. *)
Definition startswith (p s : string) : bool := String.prefix p s.

(** The characters [str.strip()] removes and [\s] matches, those for
    which [str.isspace()] holds: space, tab to carriage return (9..13),
    the separators 28..31, next line (133) and the no-break space (160). *)
Definition is_space (c : ascii) : bool :=
  ((code c =? 32) || ((9 <=? code c) && (code c <=? 13))
   || ((28 <=? code c) && (code c <=? 31))
   || (code c =? 133) || (code c =? 160))%N.

Fixpoint drop_while (p : ascii -> bool) (l : list ascii) : list ascii :=
  match l with
  | [] => []
  | c :: r => if p c then drop_while p r else l
  end.

Fixpoint take_while (p : ascii -> bool) (l : list ascii) : list ascii :=
  match l with
  | [] => []
  | c :: r => if p c then c :: take_while p r else []
  end.

(** [str.strip()]. *)
Definition strip (s : string) : string :=
  text (rev (drop_while is_space (rev (drop_while is_space (chars s))))).

(** [str(n)] for a Python int. *)
Definition of_Z (z : Z) : string := NilZero.string_of_int (Z.to_int z).

Definition zeros (n : nat) : string := text (repeat "0"%char n).

End Text.

(* ------------------------------------------------------------------ *)
(** ** Python values *)

(** A Python float: a finite decimal, an infinity or NaN ([json.load]
    reads [NaN] and [Infinity]). *)
Inductive pyfloat : Type :=
| FNum (mant exp10 : Z)
| FInf (negative : bool)
| FNan.

(** The scalars of a price record. *)
Inductive pyval : Type :=
| VNone
| VBool (b : bool)
| VInt (n : Z)
| VFloat (f : pyfloat)
| VStr (s : string).

(** The extended rational a number stands for. *)
Inductive number : Type :=
| Fin (q : Q)
| Inf (negative : bool)
| NaN.

Definition Q_of_decimal (m e : Z) : Q :=
  if 0 <=? e then inject_Z (m * 10 ^ e) else m # Z.to_pos (10 ^ (- e)).

Definition number_of_float (f : pyfloat) : number :=
  match f with
  | FNum m e => Fin (Q_of_decimal m e)
  | FInf s => Inf s
  | FNan => NaN
  end.

(** [isinstance(v, (int, float))] with the value; [bool] is a subclass of
    [int] in Python. *)
Definition as_number (v : pyval) : option number :=
  match v with
  | VBool b => Some (Fin (inject_Z (if b then 1 else 0)))
  | VInt n => Some (Fin (inject_Z n))
  | VFloat f => Some (number_of_float f)
  | VNone | VStr _ => None
  end.

Definition Qlt_bool (x y : Q) : bool := negb (Qle_bool y x).

Definition num_eqb (a b : number) : bool :=
  match a, b with
  | Fin x, Fin y => Qeq_bool x y
  | Inf s, Inf t => Bool.eqb s t
  | _, _ => false
  end.

Definition num_ltb (a b : number) : bool :=
  match a, b with
  | Fin x, Fin y => Qlt_bool x y
  | Inf true, Fin _ | Fin _, Inf false | Inf true, Inf false => true
  | _, _ => false
  end.

(** Python [a == b] on scalars. *)
Definition py_eq (a b : pyval) : bool :=
  match as_number a, as_number b with
  | Some x, Some y => num_eqb x y
  | Some _, None | None, Some _ => false
  | None, None =>
      match a, b with
      | VNone, VNone => true
      | VStr s, VStr t => String.eqb s t
      | _, _ => false
      end
  end.

(** Python [a != b]. *)
Definition py_ne (a b : pyval) : bool := negb (py_eq a b).

(** *** [repr] of a float *)

Module FloatRepr.
Import Text.

(** The significant digits of [m > 0] without trailing zeros, and the
    number of zeros removed. *)
Definition significant (m : Z) : list ascii * nat :=
  let ds := rev (chars (of_Z m)) in
  let kept := drop_while (fun c => Ascii.eqb c "0") ds in
  (rev kept, (List.length ds - List.length kept)%nat).

Definition exponent_text (e : Z) : string :=
  let a := of_Z (Z.abs e) in
  (if e <? 0 then "-" else "+") ++ (if Z.abs e <? 10 then "0" ++ a else a).

(** Python's [float_repr_style = 'short']: positional notation when the
    decimal point position [decpt] lies in (-4, 16], exponent notation
    otherwise. *)
Definition repr_positive (m e : Z) : string :=
  let (ds, z) := significant m in
  let n := Z.of_nat (List.length ds) in
  let decpt := n + e + Z.of_nat z in
  if (decpt <=? -4) || (16 <? decpt) then
    match ds with
    | [] => "0.0"
    | d :: rest =>
        String d (match rest with [] => "" | _ => "." ++ text rest end)
        ++ "e" ++ exponent_text (decpt - 1)
    end
  else if decpt <=? 0 then
    "0." ++ zeros (Z.to_nat (- decpt)) ++ text ds
  else if n <=? decpt then
    text ds ++ zeros (Z.to_nat (decpt - n)) ++ ".0"
  else
    text (firstn (Z.to_nat decpt) ds) ++ "." ++ text (skipn (Z.to_nat decpt) ds).

Definition repr (f : pyfloat) : string :=
  match f with
  | FNan => "nan"
  | FInf true => "-inf"
  | FInf false => "inf"
  | FNum m e =>
      if m =? 0 then "0.0"
      else if m <? 0 then "-" ++ repr_positive (- m) e
      else repr_positive m e
  end.

End FloatRepr.

(** [str(v)], what an f-string puts for [{v}]. *)
Definition py_str (v : pyval) : string :=
  match v with
  | VNone => "None"
  | VBool true => "True"
  | VBool false => "False"
  | VInt n => Text.of_Z n
  | VFloat f => FloatRepr.repr f
  | VStr s => s
  end.

(** *** [float(s)]: a decimal rounded to binary64 *)

Module Binary64.

(** A binary64 that is not negative: zero, [m * 2^e] with [0 < m < 2^53]
    and [-1074 <= e <= 971] (normal when [2^52 <= m], subnormal otherwise,
    and then [e = -1074]), or infinity. *)
Inductive t : Type :=
| Zero
| Finite (m e : Z)
| Infinity.

Definition eqb (a b : t) : bool :=
  match a, b with
  | Zero, Zero | Infinity, Infinity => true
  | Finite m e, Finite m' e' => (m =? m') && (e =? e')
  | _, _ => false
  end.

(** The integer nearest to [n / d], ties to even ([0 <= n], [0 < d]). *)
Definition round_half_even (n d : Z) : Z :=
  let q := n / d in
  match 2 * (n mod d) ?= d with
  | Lt => q
  | Gt => q + 1
  | Eq => if Z.even q then q else q + 1
  end.

(** [n / (d * base^x)] as a fraction of integers. *)
Definition scaled (base : Z) (n d x : Z) : Z * Z :=
  if 0 <=? x then (n, d * base ^ x) else (n * base ^ (- x), d).

(** The floor of the logarithm of [n / d] in [base], from an estimate that
    is right or one too large. *)
Definition floor_log (base : Z) (estimate : Z) (n d : Z) : Z :=
  let (n', d') := scaled base n d estimate in
  if d' <=? n' then estimate else estimate - 1.

(** The number of decimal digits of [n]. *)
Definition decimal_digits (n : Z) : Z := Z.of_nat (String.length (Text.of_Z n)).

(** [n / d] rounded to the nearest binary64, ties to even ([0 < d]): the
    quantum is [2^e] with [e] 52 below the binary exponent of the value,
    and -1074 at least. *)
Definition of_ratio (n d : Z) : t :=
  if n <=? 0 then Zero
  else
    let e := Z.max (floor_log 2 (Z.log2 n - Z.log2 d) n d - 52) (-1074) in
    let (n', d') := scaled 2 n d e in
    let m := round_half_even n' d' in
    let (m, e) := if m =? 2 ^ 53 then (2 ^ 52, e + 1) else (m, e) in
    if m =? 0 then Zero
    else if 971 <? e then Infinity
    else Finite m e.

(** The binary64 nearest to [m * 10^x]. *)
Definition of_decimal (m x : Z) : t :=
  let (n, d) := scaled 10 m 1 (- x) in of_ratio n d.

(** The shortest decimal that reads back as [f], the value of [f] being
    [n / d]: with the quantum [10^x], the multiples below and above the
    value are tried, and the nearer one is taken when both read back as
    [f]; else the quantum is divided by ten. *)
Fixpoint search (fuel : nat) (f : t) (n d x : Z) : option (Z * Z) :=
  match fuel with
  | O => None
  | S fuel' =>
      let (n', d') := scaled 10 n d x in
      let lo := n' / d' in
      let hi := if n' mod d' =? 0 then lo else lo + 1 in
      let lo_ok := eqb (of_decimal lo x) f in
      let hi_ok := eqb (of_decimal hi x) f in
      if lo_ok && hi_ok then Some (round_half_even n' d', x)
      else if lo_ok then Some (lo, x)
      else if hi_ok then Some (hi, x)
      else search fuel' f n d (x - 1)
  end.

(** The digits of [repr]: seventeen significant digits always read back,
    so the search ends; the last case, the exact decimal of [m * 2^e], is
    there to make the function total. *)
Definition shortest (m e : Z) : Z * Z :=
  let (n, d) := scaled 2 m 1 (- e) in
  match search 17 (Finite m e) n d
          (floor_log 10 (decimal_digits n - decimal_digits d) n d) with
  | Some digits => digits
  | None => if 0 <=? e then (n, 0) else (m * 5 ^ (- e), e)
  end.

(** [m * 10^x] without the zeros that end [m], as far as [x < 0]. *)
Fixpoint strip_zeros (fuel : nat) (m x : Z) : Z * Z :=
  match fuel with
  | O => (m, x)
  | S fuel' =>
      if (x <? 0) && (m mod 10 =? 0) then strip_zeros fuel' (m / 10) (x + 1)
      else (m, x)
  end.

(** The float as the decimal of its [repr]: an integer mantissa and an
    exponent that is zero, or negative with a mantissa that does not end
    in zero. *)
Definition to_float (f : t) : pyfloat :=
  match f with
  | Zero => FNum 0 0
  | Infinity => FInf false
  | Finite m e =>
      let (mant, x) := shortest m e in
      if 0 <=? x then FNum (mant * 10 ^ x) 0
      else let (mant, x) := strip_zeros (Z.to_nat (- x)) mant x in FNum mant x
  end.

(** [float] of the decimal [m * 10^x]. *)
Definition float_of_decimal (m x : Z) : pyfloat := to_float (of_decimal m x).

End Binary64.

(* ------------------------------------------------------------------ *)
(** ** Dicts *)

(** A Python dict with string keys, in insertion order. *)
Definition dict (V : Type) : Type := list (string * V).

Module Dict.
Section Ops.
Variable V : Type.

(** [d.get(k)], [d[k]] when [k in d]. *)
Fixpoint get (d : dict V) (k : string) : option V :=
  match d with
  | [] => None
  | (k', v) :: rest => if String.eqb k k' then Some v else get rest k
  end.

(** [k in d]. *)
Definition mem (k : string) (d : dict V) : bool :=
  match get d k with Some _ => true | None => false end.

(** [d.get(k, default)]. *)
Definition get_or (d : dict V) (k : string) (default : V) : V :=
  match get d k with Some v => v | None => default end.

(** Iterating a dict yields its keys. *)
Definition keys (d : dict V) : list string := map fst d.

(** [d[k] = v]: an existing key keeps its place, a new one goes last. *)
Fixpoint set (d : dict V) (k : string) (v : V) : dict V :=
  match d with
  | [] => [(k, v)]
  | (k', v') :: rest =>
      if String.eqb k k' then (k, v) :: rest else (k', v') :: set rest k v
  end.

(** [len(d)]. *)
Definition len (d : dict V) : Z := Z.of_nat (List.length d).

(** [bool(d)]: a dict is true when it has an entry. *)
Definition truthy (d : dict V) : bool :=
  match d with [] => false | _ :: _ => true end.

(** No key occurs twice: what makes an association list a dict. *)
Definition unique (d : dict V) : Prop := NoDup (keys d).

Fixpoint uniqueb (d : dict V) : bool :=
  match d with
  | [] => true
  | (k, _) :: rest => negb (mem k rest) && uniqueb rest
  end.
End Ops.
End Dict.

(** [for x in xs: body], the body acting on the loop's state. *)
Definition for_each (A S : Type) (xs : list A) (body : A -> S -> S) (s : S) : S :=
  fold_left (fun s x => body x s) xs s.

(** [changes.append(x)] when [c] holds. *)
Definition append_if (c : bool) (x : string) (changes : list string) : list string :=
  if c then changes ++ [x] else changes.

(* ------------------------------------------------------------------ *)
(** ** The data model *)

(** A price record [{"input": .., "output": .., "description": ..}]. *)
Definition PriceRecord : Type := dict pyval.

(** [record.get(key)]: [None] when the key is missing. *)
Definition field (r : PriceRecord) (key : string) : pyval := Dict.get_or r key VNone.

(** Model identifier -> price record. *)
Definition ProviderSnapshot : Type := dict PriceRecord.

(** The persisted document.  It is a dict with the three keys below; a key
    that is missing is [None] here, and the empty dict [{}] has none. *)
Record PricingDocument : Type := {
  last_updated : option string;
  sources : option (dict string);
  models : option (dict ProviderSnapshot)
}.

Definition empty_document : PricingDocument :=
  {| last_updated := None; sources := None; models := None |}.

(** [bool(doc)]. *)
Definition document_truthy (d : PricingDocument) : bool :=
  match last_updated d, sources d, models d with
  | None, None, None => false
  | _, _, _ => true
  end.

(** [if x:] on an [Optional[Dict]]: the value when it is true, nothing for
    [None] and for [{}]. *)
Definition if_true (A : Type) (t : A -> bool) (x : option A) : option A :=
  match x with
  | Some a => if t a then Some a else None
  | None => None
  end.

(** [bool(x)] for an [Optional[Dict]]. *)
Definition truthy (A : Type) (t : A -> bool) (x : option A) : bool :=
  match if_true t x with Some _ => true | None => false end.

(** [doc.get('models', {})]. *)
Definition get_models (d : PricingDocument) : dict ProviderSnapshot :=
  match models d with Some m => m | None => [] end.

(* ------------------------------------------------------------------ *)
(** ** The differ *)

(** The body of [for model_name, model_data in models.items()]. *)
Definition compare_model (provider : string) (old_provider_models : ProviderSnapshot)
    (item : string * PriceRecord) (changes : list string) : list string :=
  let (model_name, model_data) := item in
  match Dict.get old_provider_models model_name with
  | None => changes ++ ["New model: " ++ provider ++ "/" ++ model_name]
  | Some old_model =>
      let changes :=
        append_if (py_ne (field old_model "input") (field model_data "input"))
          ("Price change: " ++ provider ++ "/" ++ model_name ++ " input "
           ++ "$" ++ py_str (field old_model "input") ++ " → $"
           ++ py_str (field model_data "input")) changes in
      append_if (py_ne (field old_model "output") (field model_data "output"))
        ("Price change: " ++ provider ++ "/" ++ model_name ++ " output "
         ++ "$" ++ py_str (field old_model "output") ++ " → $"
         ++ py_str (field model_data "output")) changes
  end.

(** The body of [for provider, models in new_models.items()]. *)
Definition compare_provider (old_models : dict ProviderSnapshot)
    (item : string * ProviderSnapshot) (changes : list string) : list string :=
  let (provider, models) := item in
  match Dict.get old_models provider with
  | None => changes
  | Some old_provider_models =>
      let changes :=
        for_each models (compare_model provider old_provider_models) changes in
      for_each (Dict.keys old_provider_models)
        (fun model_name =>
           append_if (negb (Dict.mem model_name models))
             ("Removed model: " ++ provider ++ "/" ++ model_name))
        changes
  end.

(** The rules that follow the [if not old] test, on the two [models]
    mappings. *)
Definition compare_models (old_models new_models : dict ProviderSnapshot) : list string :=
  let changes := [] in
  let changes :=
    for_each (Dict.keys new_models)
      (fun provider =>
         append_if (negb (Dict.mem provider old_models)) ("New provider: " ++ provider))
      changes in
  let changes :=
    for_each (Dict.keys old_models)
      (fun provider =>
         append_if (negb (Dict.mem provider new_models)) ("Removed provider: " ++ provider))
      changes in
  for_each new_models (compare_provider old_models) changes.

(** [compare_pricing(old, new)] returns [(has_changes, list_of_changes)]. *)
Definition compare_pricing (old : option PricingDocument) (new : PricingDocument)
  : bool * list string :=
  match if_true document_truthy old with
  | None => (true, ["Initial pricing data created"])
  | Some old =>
      let old_models := get_models old in
      let new_models := get_models new in
      let changes := compare_models old_models new_models in
      (0 <? Z.of_nat (List.length changes), changes)
  end.

(* ------------------------------------------------------------------ *)
(** ** The validator (script/fetch_pricing.py) *)

(** [0 < price < 1000] on a number. *)
Definition in_price_range (x : number) : bool :=
  num_ltb (Fin 0) x && num_ltb x (Fin (inject_Z 1000)).

(** [isinstance(v, (int, float))]. *)
Definition is_numeric (v : pyval) : bool :=
  match as_number v with Some _ => true | None => false end.

(** [0 < v < 1000] for a value already known to be numeric. *)
Definition value_in_price_range (v : pyval) : bool :=
  match as_number v with Some x => in_price_range x | None => false end.

(** The test the validator makes on one record (lines 318-324). *)
Definition record_has_valid_pricing (model_data : PriceRecord) : bool :=
  let input_price := field model_data "input" in
  let output_price := field model_data "output" in
  if is_numeric input_price && is_numeric output_price then
    value_in_price_range input_price && value_in_price_range output_price
  else false.

(** [validate_pricing_data(pricing_dict, provider, existing_count)].
    Snapshots are dicts of dicts by type, so the two [isinstance(.., dict)]
    guards hold; [provider] and [existing_count] only feed the console
    messages.  [valid_models < len(pricing_dict) * 0.8] is evaluated on the
    rationals: for a length below 2^53 the binary64 product [len * 0.8]
    compares with an integer as [len * 8/10] does (the product of a
    multiple of five rounds to the exact integer, any other is at least
    0.2 away from every integer). *)
Definition validate_pricing_data (pricing_dict : ProviderSnapshot) (provider : string)
    (existing_count : Z) : bool :=
  if negb (Dict.truthy pricing_dict) then false
  else if Dict.len pricing_dict <? 3 then false
  else
    let valid_models :=
      for_each pricing_dict
        (fun item valid_models =>
           if record_has_valid_pricing (snd item) then valid_models + 1
           else valid_models)
        0 in
    if Qlt_bool (inject_Z valid_models) (inject_Z (Dict.len pricing_dict) * (8 # 10))
    then false
    else true.

(* ------------------------------------------------------------------ *)
(** ** The OpenAI extractor *)

Module Extract.
Import Text.

(** A character of the class [[\d.]]. *)
Definition is_price_char (c : ascii) : bool := is_digit c || Ascii.eqb c ".".

(** [re.search(r'\$?([\d.]+)', text)]: group 1 of the leftmost match,
    [None] when nothing matches.  At each start position the optional
    dollar sign is tried first, then the empty alternative. *)
Fixpoint search_price (s : list ascii) : option (list ascii) :=
  match s with
  | [] => None
  | c :: rest =>
      match (if Ascii.eqb c "$" then take_while is_price_char rest else []) with
      | (_ :: _) as group => Some group
      | [] =>
          match take_while is_price_char s with
          | (_ :: _) as group => Some group
          | [] => search_price rest
          end
      end
  end.

Definition digit_value (c : ascii) : Z := Z.of_N (code c) - 48.

Definition digits_value (ds : list ascii) : Z :=
  fold_left (fun acc c => acc * 10 + digit_value c) ds 0.

Definition strip_trailing_zeros (ds : list ascii) : list ascii :=
  rev (drop_while (fun c => Ascii.eqb c "0") (rev ds)).

(** [float(s)] on a string of digits and dots; [None] is [ValueError]:
    more than one dot, or no digit at all.  The decimal read is rounded
    to binary64. *)
Definition py_float (s : list ascii) : option pyfloat :=
  let int_part := take_while is_digit s in
  match drop_while is_digit s with
  | [] =>
      match int_part with
      | [] => None
      | _ => Some (Binary64.float_of_decimal (digits_value int_part) 0)
      end
  | dot :: frac =>
      if Ascii.eqb dot "." && forallb is_digit frac
         && negb (Nat.eqb (List.length int_part + List.length frac) 0)
      then
        let frac := strip_trailing_zeros frac in
        Some (Binary64.float_of_decimal (digits_value (int_part ++ frac))
                (- Z.of_nat (List.length frac)))
      else None
  end.

(** A parsed page: what [soup.find_all('table')], [table.find_all('tr')]
    and [cell.get_text(strip=True)] over [row.find_all(['td','th'])]
    return. *)
Definition Row : Type := list string.
Definition Table : Type := list Row.

(** The first cell that names a model, lower-cased (lines 133-138). *)
Fixpoint find_model_name (cell_texts : list string) : option string :=
  match cell_texts with
  | [] => None
  | text :: rest =>
      let text_lower := lower text in
      if startswith "gpt-" text_lower || startswith "o1" text_lower
      then Some text_lower
      else find_model_name rest
  end.

(** The price loop (lines 142-151): it runs over every cell of the row. *)
Definition collect_prices (cell_texts : list string) : list pyfloat :=
  for_each cell_texts
    (fun text (prices : list pyfloat) =>
       match search_price (chars text) with
       | Some group =>
           match py_float group with
           | Some price =>
               if in_price_range (number_of_float price) then (prices ++ [price])%list
               else prices
           | None => prices
           end
       | None => prices
       end)
    [].

(** The body of [for row in rows]. *)
Definition parse_row (cell_texts : Row) (pricing_dict : ProviderSnapshot)
  : ProviderSnapshot :=
  if 3 <=? Z.of_nat (List.length cell_texts) then
    match find_model_name cell_texts with
    | Some model_name =>
        match collect_prices cell_texts with
        | price0 :: price1 :: _ =>
            let desc := upper model_name in
            Dict.set pricing_dict model_name
              [("input", VFloat price0); ("output", VFloat price1);
               ("description", VStr desc)]
        | _ => pricing_dict
        end
    | None => pricing_dict
    end
  else pricing_dict.

(** [_parse_openai_pricing(soup)]; [fetch_openai_pricing] of
    scripts/fetch_pricing.py has the same loop inline. *)
Definition _parse_openai_pricing (tables : list Table) : option ProviderSnapshot :=
  let pricing_dict :=
    for_each tables (fun rows pricing_dict => for_each rows parse_row pricing_dict) [] in
  if Dict.truthy pricing_dict then Some pricing_dict else None.

End Extract.

(* ------------------------------------------------------------------ *)
(** ** The orchestrator *)

(** What a run meets outside the program: the command line, the two pages
    as the fetch functions return them, the console, the clock, and the
    JSON codec and the disk behind [PRICING_FILE].  The file is [None] when
    it does not exist and its text otherwise. *)
Record World : Type := {
  force : bool;
  fetch_openai_pricing : option ProviderSnapshot;
  fetch_anthropic_pricing : option ProviderSnapshot;
  (** [input(..)]: [None] when it raises [EOFError] or [KeyboardInterrupt]. *)
  input : option string;
  (** [datetime.now(timezone.utc).isoformat()]. *)
  now : string;
  (** [json.load]: [None] when it raises. *)
  json_load : string -> option PricingDocument;
  json_dump : PricingDocument -> string;
  (** Whether writing the file succeeds, and what a failed write leaves. *)
  write_succeeds : bool;
  file_after_failed_write : option string
}.

(** How the process ends: [sys.exit(main())], or an exception that nothing
    catches. *)
Inductive termination : Type :=
| Return (code : Z)
| Uncaught.

(** The exit status of the process; the interpreter ends with 1 on an
    [EOFError] that reaches the top level (and with a status that is not 0
    either on an interrupt). *)
Definition exit_status (t : termination) : Z :=
  match t with Return code => code | Uncaught => 1 end.

(** [load_existing_pricing()]. *)
Definition load_existing_pricing (w : World) (file : option string)
  : option PricingDocument :=
  match file with
  | Some content => json_load w content
  | None => None
  end.

(** [save_pricing(pricing_data)]: its result and the file afterwards. *)
Definition save_pricing (w : World) (pricing_data : PricingDocument)
  : bool * option string :=
  if write_succeeds w then (true, Some (json_dump w pricing_data))
  else (false, file_after_failed_write w).

(** [if save_pricing(new_pricing): return 0 else: return 1]. *)
Definition save_and_return (w : World) (new_pricing : PricingDocument)
  : termination * option string :=
  let (saved, file) := save_pricing w new_pricing in
  if saved then (Return 0, file) else (Return 1, file).

(** The merge of one provider (lines 470-474): the fetched snapshot, else
    the one of the existing document. *)
Definition merge_provider (key : string) (pricing : option ProviderSnapshot)
    (existing_pricing : option PricingDocument) (new_models : dict ProviderSnapshot)
  : dict ProviderSnapshot :=
  match if_true (@Dict.truthy _) pricing with
  | Some fetched => Dict.set new_models key fetched
  | None =>
      match if_true document_truthy existing_pricing with
      | Some existing =>
          match Dict.get (get_models existing) key with
          | Some kept => Dict.set new_models key kept
          | None => new_models
          end
      | None => new_models
      end
  end.

Definition new_document (w : World) (openai_url : string)
    (openai_pricing anthropic_pricing : option ProviderSnapshot)
    (existing_pricing : option PricingDocument) : PricingDocument :=
  {| last_updated := Some (now w);
     sources := Some [("openai", openai_url);
                      ("anthropic", "https://docs.anthropic.com/en/docs/about-claude/models")];
     models :=
       Some (merge_provider "anthropic" anthropic_pricing existing_pricing
               (merge_provider "openai" openai_pricing existing_pricing [])) |}.

(** [input(..).strip().lower() == 'y']. *)
Definition says_yes (response : string) : bool :=
  String.eqb (Text.lower (Text.strip response)) "y".

(** script/fetch_pricing.py *)
Module Script.

(** Lines 436-440: fetched data that fails validation is dropped. *)
Definition validated (label key : string) (existing_models : dict ProviderSnapshot)
    (pricing : option ProviderSnapshot) : option ProviderSnapshot :=
  match if_true (@Dict.truthy _) pricing with
  | Some fetched =>
      let existing_count := Dict.len (Dict.get_or existing_models key []) in
      if negb (validate_pricing_data fetched label existing_count) then None
      else pricing
  | None => pricing
  end.

(** The data of each provider as [main] uses it, after validation. *)
Definition usable (w : World) (file : option string)
  : option ProviderSnapshot * option ProviderSnapshot :=
  let existing_pricing := load_existing_pricing w file in
  let existing_models :=
    match if_true document_truthy existing_pricing with
    | Some existing => get_models existing
    | None => []
    end in
  (validated "OpenAI" "openai" existing_models (fetch_openai_pricing w),
   validated "Anthropic" "anthropic" existing_models (fetch_anthropic_pricing w)).

Definition main (w : World) (file : option string) : termination * option string :=
  let existing_pricing := load_existing_pricing w file in
  let (openai_pricing, anthropic_pricing) := usable w file in
  if negb (truthy (@Dict.truthy _) openai_pricing)
     && negb (truthy (@Dict.truthy _) anthropic_pricing)
  then
    if truthy document_truthy existing_pricing then (Return 0, file)
    else (Return 1, file)
  else
    let new_pricing :=
      new_document w "https://platform.openai.com/docs/pricing"
        openai_pricing anthropic_pricing existing_pricing in
    let (has_changes, changes) := compare_pricing existing_pricing new_pricing in
    if has_changes then
      let should_save := force w in
      let should_save :=
        if negb should_save then
          match input w with
          | Some response => says_yes response
          | None => false
          end
        else should_save in
      if should_save then save_and_return w new_pricing
      else (Return 0, file)
    else if force w then save_and_return w new_pricing
    else (Return 0, file).

End Script.

(** scripts/fetch_pricing.py *)
Module Scripts.

Definition main (w : World) (file : option string) : termination * option string :=
  let existing_pricing := load_existing_pricing w file in
  let openai_pricing := fetch_openai_pricing w in
  let anthropic_pricing := fetch_anthropic_pricing w in
  if negb (truthy (@Dict.truthy _) openai_pricing)
     && negb (truthy (@Dict.truthy _) anthropic_pricing)
  then
    if truthy document_truthy existing_pricing then (Return 0, file)
    else (Return 1, file)
  else
    let new_pricing :=
      new_document w "https://openai.com/api/pricing/"
        openai_pricing anthropic_pricing existing_pricing in
    let (has_changes, changes) := compare_pricing existing_pricing new_pricing in
    if has_changes then
      (* args.force or input(..).strip().lower() == 'y' or True *)
      if force w then save_and_return w new_pricing
      else
        match input w with
        | None => (Uncaught, file)
        | Some response =>
            if says_yes response || true then save_and_return w new_pricing
            else (Return 0, file)
        end
    else if force w then save_and_return w new_pricing
    else (Return 0, file).

End Scripts.

(* ------------------------------------------------------------------ *)
(** ** Valid documents (spec, data model) *)

(** A snapshot is a mapping (no key twice) of records whose two prices are
    numbers in (0, 1000). *)
Definition valid_snapshot (s : ProviderSnapshot) : bool :=
  Dict.uniqueb s && forallb (fun item => record_has_valid_pricing (snd item)) s.

(** A document has its three fields, and [models] is a mapping of valid
    snapshots. *)
Definition valid_document (d : PricingDocument) : bool :=
  match last_updated d, sources d, models d with
  | Some _, Some _, Some m =>
      Dict.uniqueb m && forallb (fun item => valid_snapshot (snd item)) m
  | _, _, _ => false
  end.

(** What [old.get('models', {})] would read, were [old] a dict. *)
Definition models_of (old : option PricingDocument) : dict ProviderSnapshot :=
  match old with Some d => get_models d | None => [] end.


(** [0 < v < 1000] for a numeric [v], read on the rationals. *)
Definition price_in_range (v : pyval) : Prop :=
  exists q, as_number v = Some (Fin q) /\ (0 < q)%Q /\ (q < inject_Z 1000)%Q.

(** Every record of the snapshot has its two prices in range. *)
Definition all_prices_in_range (s : ProviderSnapshot) : Prop :=
  forall model_name r, In (model_name, r) s ->
    price_in_range (field r "input") /\ price_in_range (field r "output").

(** The records that the validator counts. *)
Definition valid_records (s : ProviderSnapshot) : list (string * PriceRecord) :=
  filter (fun item => record_has_valid_pricing (snd item)) s.

(** [not openai_pricing and not anthropic_pricing]: no provider yielded
    usable data. *)
Definition no_usable_data (openai_pricing anthropic_pricing : option ProviderSnapshot)
  : bool :=
  negb (truthy (@Dict.truthy _) openai_pricing)
  && negb (truthy (@Dict.truthy _) anthropic_pricing).

(** The loader found a snapshot: the file exists, parses and is not [{}]. *)
Definition has_existing (w : World) (file : option string) : bool :=
  truthy document_truthy (load_existing_pricing w file).

(** Total failure in script/fetch_pricing.py (after validation) and in
    scripts/fetch_pricing.py (as fetched). *)
Definition script_no_data (w : World) (file : option string) : bool :=
  no_usable_data (fst (Script.usable w file)) (snd (Script.usable w file)).

Definition scripts_no_data (w : World) : bool :=
  no_usable_data (fetch_openai_pricing w) (fetch_anthropic_pricing w).

(* ------------------------------------------------------------------ *)
(** ** The Anthropic extractor of scripts/fetch_pricing.py *)

(** The loop of [fetch_anthropic_pricing] (lines 124-201) over the parsed
    tables; a table is the list of its rows, the first being the header,
    a row the list of the texts of its cells. *)
Module Anthropic.
Import Text.

Fixpoint is_prefix (p l : list ascii) : bool :=
  match p, l with
  | [], _ => true
  | _ :: _, [] => false
  | a :: p', b :: l' => Ascii.eqb a b && is_prefix p' l'
  end.

Fixpoint occurs (p l : list ascii) : bool :=
  is_prefix p l || match l with [] => false | _ :: l' => occurs p l' end.

(** [needle in s]. *)
Definition contains (needle s : string) : bool := occurs (chars needle) (chars s).

(** [re.sub(r'\s+', '-', s)]: every run of white space becomes one dash;
    [in_run] tells that the run has its dash already. *)
Fixpoint sub_spaces_from (in_run : bool) (l : list ascii) : list ascii :=
  match l with
  | [] => []
  | c :: r =>
      if is_space c then
        if in_run then sub_spaces_from true r else "-"%char :: sub_spaces_from true r
      else c :: sub_spaces_from false r
  end.

Definition sub_spaces (s : string) : string := text (sub_spaces_from false (chars s)).

(** [s.replace('-', ' ')]. *)
Definition dashes_to_spaces (s : string) : string :=
  text (map (fun c => if Ascii.eqb c "-" then " "%char else c) (chars s)).

(** [s.title()]: a letter after a letter is lower-cased, any other letter
    upper-cased. *)
Fixpoint title_from (previous_is_cased : bool) (l : list ascii) : list ascii :=
  match l with
  | [] => []
  | c :: r =>
      if is_upper c || is_lower c then
        (if previous_is_cased then lower_char c else upper_char c) :: title_from true r
      else c :: title_from false r
  end.

Definition title (s : string) : string := text (title_from false (chars s)).

(** [next((i for i, h in enumerate(headers) if p(h)), None)]. *)
Fixpoint find_index (p : string -> bool) (headers : list string) (i : nat) : option nat :=
  match headers with
  | [] => None
  | h :: rest => if p h then Some i else find_index p rest (S i)
  end.

Definition model_column (headers : list string) : nat :=
  match find_index (fun h => contains "model" h || contains "name" h) headers 0 with
  | Some i => i
  | None => 0%nat
  end.

Definition input_column (headers : list string) : option nat :=
  find_index (contains "input") headers 0.

Definition output_column (headers : list string) : option nat :=
  find_index (contains "output") headers 0.

(** [group != '.']. *)
Definition is_dot (group : list ascii) : bool :=
  match group with
  | [c] => Ascii.eqb c "."
  | _ => false
  end.

(** Lines 155-159 and 161-165: the price in a column the header names.
    The outer [None] is the [ValueError] of [float]; a column at index 0 is
    false in [if input_col and ..] and so is not read. *)
Definition column_price (col : option nat) (cells : list string)
  : option (option pyfloat) :=
  match col with
  | Some (S _ as c) =>
      match nth_error cells c with
      | Some cell_text =>
          match Extract.search_price (chars cell_text) with
          | Some group =>
              if negb (is_dot group) then
                match Extract.py_float group with
                | Some price => Some (Some price)
                | None => None
                end
              else Some None
          | None => Some None
          end
      | None => Some None
      end
  | _ => Some None
  end.

(** Lines 169-178: the prices of the fallback, from every cell. *)
Definition fallback_prices (cells : list string) : list pyfloat :=
  for_each cells
    (fun cell_text (prices : list pyfloat) =>
       match Extract.search_price (chars cell_text) with
       | Some group =>
           if negb (is_dot group) then
             match Extract.py_float group with
             | Some price =>
                 if in_price_range (number_of_float price) then (prices ++ [price])%list
                 else prices
             | None => prices
             end
           else prices
       | None => prices
       end)
    [].

(** [bool(x)] of a float. *)
Definition float_truthy (f : pyfloat) : bool :=
  match f with
  | FNum m _ => negb (m =? 0)
  | FInf _ | FNan => true
  end.

(** The two prices of a row (lines 152-182); [None] when [float] raises. *)
Definition row_prices (input_col output_col : option nat) (cells : list string)
  : option (option pyfloat * option pyfloat) :=
  match column_price input_col cells with
  | None => None
  | Some input_price =>
      match column_price output_col cells with
      | None => None
      | Some output_price =>
          match input_price, output_price with
          | Some _, Some _ => Some (input_price, output_price)
          | _, _ =>
              match fallback_prices cells with
              | price0 :: price1 :: _ => Some (Some price0, Some price1)
              | _ => Some (input_price, output_price)
              end
          end
      end
  end.

(** The body of [for row in rows[1:]]; an exception skips the row. *)
Definition parse_row (model_col : nat) (input_col output_col : option nat)
    (cells : list string) (pricing_dict : ProviderSnapshot) : ProviderSnapshot :=
  match nth_error cells model_col with
  | Some cell_text =>
      let model_text := lower cell_text in
      if contains "claude" model_text then
        let model_name := sub_spaces model_text in
        match row_prices input_col output_col cells with
        | Some (Some input_price, Some output_price) =>
            if float_truthy input_price && float_truthy output_price then
              let description := title (dashes_to_spaces model_text) in
              Dict.set pricing_dict model_name
                [("input", VFloat input_price); ("output", VFloat output_price);
                 ("description", VStr description)]
            else pricing_dict
        | _ => pricing_dict
        end
      else pricing_dict
  | None => pricing_dict
  end.

(** The body of [for table in tables]. *)
Definition parse_table (rows : Extract.Table) (pricing_dict : ProviderSnapshot)
  : ProviderSnapshot :=
  match rows with
  | [] => pricing_dict
  | header_row :: body =>
      let headers := map lower header_row in
      let model_col := model_column headers in
      let input_col := input_column headers in
      let output_col := output_column headers in
      for_each body (parse_row model_col input_col output_col) pricing_dict
  end.

(** What [fetch_anthropic_pricing] returns for the tables of the page. *)
Definition parse_anthropic_pricing (tables : list Extract.Table) : option ProviderSnapshot :=
  let pricing_dict := for_each tables parse_table [] in
  if Dict.truthy pricing_dict then Some pricing_dict else None.

End Anthropic.

(* ------------------------------------------------------------------ *)
(** ** The Anthropic extractor of script/fetch_pricing.py *)

(** [fetch_anthropic_pricing] (lines 186-271) over the parsed tables: the
    second table of the page, its rows 0 (model names), 1 (API ids) and 5
    (prices), column by column. *)
Module AnthropicModels.
Import Text.

(** The rest of the pattern after the number:
    [\s*/\s*(?:input|output)\s*MTok]. *)
Definition unit_follows (l : list ascii) : bool :=
  match drop_while is_space l with
  | slash :: l1 =>
      Ascii.eqb slash "/"
      && (let l2 := drop_while is_space l1 in
          (Anthropic.is_prefix (chars "input") l2
           && Anthropic.is_prefix (chars "MTok") (drop_while is_space (skipn 5 l2)))
          || (Anthropic.is_prefix (chars "output") l2
              && Anthropic.is_prefix (chars "MTok") (drop_while is_space (skipn 6 l2))))
  | [] => false
  end.

(** [re.findall(r'\$?([\d.]+)\s*/\s*(?:input|output)\s*MTok', text)]:
    the runs of digits and dots that the unit follows, from left to
    right.  [run] is the run read so far; a match consumes no digit after
    its number, so the scan goes on character by character. *)
Fixpoint findall_from (run l : list ascii) : list (list ascii) :=
  match l with
  | [] => []
  | c :: r =>
      if Extract.is_price_char c then findall_from (run ++ [c]) r
      else
        match run with
        | [] => findall_from [] r
        | _ :: _ => if unit_follows l then run :: findall_from [] r else findall_from [] r
        end
  end.

Definition findall_prices (pricing_text : string) : list (list ascii) :=
  findall_from [] (chars pricing_text).

(** [l] without the suffix [suffix] when it ends with it, at the end of the
    text or before its last newline, as [$] matches. *)
Definition without_suffix (is_suffix : list ascii -> bool) (n : nat) (l : list ascii)
  : option (list ascii) :=
  let r := rev l in
  if is_suffix (firstn n r) then Some (rev (skipn n r))
  else
    match r with
    | newline :: r' =>
        if Ascii.eqb newline "010" && is_suffix (firstn n r')
        then Some (rev (newline :: skipn n r'))
        else None
    | [] => None
    end.

(** [re.sub(r'Copied!$', '', s)]. *)
Definition sub_copied (s : string) : string :=
  match without_suffix (fun r => Anthropic.is_prefix (rev (chars "Copied!")) r
                               && Nat.eqb (List.length r) 7) 7 (chars s) with
  | Some l => text l
  | None => s
  end.

(** Eight digits and a dash before them, read backwards. *)
Definition is_date_suffix (r : list ascii) : bool :=
  match rev r with
  | dash :: digits =>
      Ascii.eqb dash "-" && Nat.eqb (List.length digits) 8 && forallb is_digit digits
  | [] => false
  end.

(** [re.sub(r'-\d{8}$', '', s)]. *)
Definition sub_date (s : string) : string :=
  match without_suffix is_date_suffix 9 (chars s) with
  | Some l => text l
  | None => s
  end.

(** [s.replace(' ', '-')]. *)
Definition spaces_to_dashes (s : string) : string :=
  text (map (fun c => if Ascii.eqb c " " then "-"%char else c) (chars s)).

(** [bool(s)] of a string. *)
Definition nonempty (s : string) : bool :=
  match s with EmptyString => false | String _ _ => true end.

Definition record (input_price output_price : pyfloat) (description : string)
  : PriceRecord :=
  [("input", VFloat input_price); ("output", VFloat output_price);
   ("description", VStr description)].

(** The body of [for i in range(1, len(header_cells))]; an exception
    ([float] on a malformed number) skips the column. *)
Definition parse_column (header_cells api_id_cells pricing_cells : list string)
    (i : nat) (pricing_dict : ProviderSnapshot) : ProviderSnapshot :=
  match nth_error header_cells i with
  | None => pricing_dict
  | Some model_name =>
      if negb (nonempty model_name) || negb (Anthropic.contains "claude" (lower model_name))
      then pricing_dict
      else
        let api_id :=
          match nth_error api_id_cells i with
          | Some api_id_text => Some (strip (sub_copied api_id_text))
          | None => None
          end in
        match nth_error pricing_cells i with
        | None => pricing_dict
        | Some pricing_text =>
            match findall_prices pricing_text with
            | match0 :: match1 :: _ =>
                match Extract.py_float match0, Extract.py_float match1 with
                | Some input_price, Some output_price =>
                    let model_key :=
                      match api_id with
                      | Some id => if nonempty id then id
                                   else spaces_to_dashes (lower model_name)
                      | None => spaces_to_dashes (lower model_name)
                      end in
                    let pricing_dict :=
                      Dict.set pricing_dict model_key
                        (record input_price output_price model_name) in
                    match api_id with
                    | Some id =>
                        if nonempty id && Anthropic.contains "-20" id then
                          let base_name := sub_date id in
                          if negb (String.eqb base_name id) then
                            Dict.set pricing_dict base_name
                              (record input_price output_price (model_name ++ " (latest)"))
                          else pricing_dict
                        else pricing_dict
                    | None => pricing_dict
                    end
                | _, _ => pricing_dict
                end
            | _ => pricing_dict
            end
        end
  end.

(** What [fetch_anthropic_pricing] returns for the tables of the page. *)
Definition parse_anthropic_pricing (tables : list Extract.Table) : option ProviderSnapshot :=
  match tables with
  | _ :: pricing_table :: _ =>
      let rows := pricing_table in
      if (List.length rows <? 6)%nat then None
      else
        let header_cells := nth 0 rows [] in
        let api_id_cells := nth 1 rows [] in
        let pricing_cells := nth 5 rows [] in
        let pricing_dict :=
          for_each (seq 1 (List.length header_cells - 1))
            (parse_column header_cells api_id_cells pricing_cells) [] in
        if Dict.truthy pricing_dict then Some pricing_dict else None
  | _ => None
  end.

End AnthropicModels.

(* ------------------------------------------------------------------ *)
(** ** Notions for the properties of the extractor, the differ and the runs *)

(** A key the extractor accepts: lower case, and starting as a model name. *)
Definition is_model_key (k : string) : Prop :=
  (Text.startswith "gpt-" k || Text.startswith "o1" k) = true /\ Text.lower k = k.

(** The records the extractor builds: two floats in (0, 1000) and the
    upper-cased key. *)
Definition is_extracted_record (k : string) (r : PriceRecord) : Prop :=
  exists price0 price1,
    r = [("input", VFloat price0); ("output", VFloat price1);
         ("description", VStr (Text.upper k))]
    /\ in_price_range (number_of_float price0) = true
    /\ in_price_range (number_of_float price1) = true.

(** What the row loop keeps: a dict whose entries are extracted records
    under model keys. *)
Definition extracted (d : ProviderSnapshot) : Prop :=
  Dict.unique d
  /\ forall k r, In (k, r) d -> is_model_key k /\ is_extracted_record k r.

(** The entry a row contributes: a row of at least three cells, one of them
    naming a model, with at least two price tokens in range. *)
Definition row_entry (cell_texts : Extract.Row) : option (string * PriceRecord) :=
  if 3 <=? Z.of_nat (List.length cell_texts) then
    match Extract.find_model_name cell_texts, Extract.collect_prices cell_texts with
    | Some model_name, price0 :: price1 :: _ =>
        Some (model_name,
              [("input", VFloat price0); ("output", VFloat price1);
               ("description", VStr (Text.upper model_name))])
    | _, _ => None
    end
  else None.

(** A cell that names a model: its text starts with gpt- or o1, in any
    case. *)
Definition names_model (cell : string) : bool :=
  Text.startswith "gpt-" (Text.lower cell) || Text.startswith "o1" (Text.lower cell).

(** The price that a cell gives: the float of the first run of digits and
    dots that the pattern finds in it, when [float] reads the run and the
    float lies in (0, 1000). *)
Definition cell_price (cell : string) : option pyfloat :=
  match Extract.search_price (Text.chars cell) with
  | Some group =>
      match Extract.py_float group with
      | Some price => if in_price_range (number_of_float price) then Some price else None
      | None => None
      end
  | None => None
  end.

Definition priced (cell : string) : bool :=
  match cell_price cell with Some _ => true | None => false end.

(** The changes of one model of the new snapshot. *)
Definition model_changes (provider : string) (old_provider_models : ProviderSnapshot)
    (item : string * PriceRecord) : list string :=
  compare_model provider old_provider_models item [].

(** The changes within one provider of the new mapping. *)
Definition provider_changes (old_models : dict ProviderSnapshot)
    (item : string * ProviderSnapshot) : list string :=
  compare_provider old_models item [].

(** The snapshot that the merge takes for one provider: the fetched one
    when there is one, else the one of the existing document. *)
Definition merged (key : string) (pricing : option ProviderSnapshot)
    (existing_pricing : option PricingDocument) : option ProviderSnapshot :=
  match if_true (@Dict.truthy _) pricing with
  | Some fetched => Some fetched
  | None =>
      match if_true document_truthy existing_pricing with
      | Some existing => Dict.get (get_models existing) key
      | None => None
      end
  end.

(** The document that each script builds from the data it uses. *)
Definition script_new_pricing (w : World) (file : option string) : PricingDocument :=
  new_document w "https://platform.openai.com/docs/pricing"
    (fst (Script.usable w file)) (snd (Script.usable w file))
    (load_existing_pricing w file).

Definition scripts_new_pricing (w : World) (file : option string) : PricingDocument :=
  new_document w "https://openai.com/api/pricing/"
    (fetch_openai_pricing w) (fetch_anthropic_pricing w)
    (load_existing_pricing w file).

(** A fetched snapshot as [main] of script/fetch_pricing.py takes it:
    dropped when the validator rejects it. *)
Definition accepted (label : string) (pricing : option ProviderSnapshot)
  : option ProviderSnapshot :=
  match pricing with
  | Some fetched => if validate_pricing_data fetched label 0 then Some fetched else None
  | None => None
  end.

(** The mapping that the merge builds from what it takes for openai and
    for anthropic. *)
Definition merged_models (openai anthropic : option ProviderSnapshot)
  : dict ProviderSnapshot :=
  let with_openai :=
    match openai with
    | Some s => [("openai", s)]
    | None => []
    end in
  match anthropic with
  | Some s => Dict.set with_openai "anthropic" s
  | None => with_openai
  end.

(** The items of a dict in the order of their keys, as
    [json.dump(.., sort_keys=True)] writes them and [json.load] reads them
    back. *)
Fixpoint insert_by_key (V : Type) (item : string * V) (d : dict V) : dict V :=
  match d with
  | [] => [item]
  | item' :: rest =>
      if String.leb (fst item) (fst item') then item :: d
      else item' :: insert_by_key item rest
  end.

Definition sort_by_key (V : Type) (d : dict V) : dict V :=
  fold_right (@insert_by_key V) [] d.

Definition sort_snapshot (s : ProviderSnapshot) : ProviderSnapshot :=
  sort_by_key (map (fun item => (fst item, sort_by_key (snd item))) s).

Definition sort_models (m : dict ProviderSnapshot) : dict ProviderSnapshot :=
  sort_by_key (map (fun item => (fst item, sort_snapshot (snd item))) m).

(** What [json.load] reads from the file that [save_pricing] wrote for
    [d]: the same values, with the keys of every dict in order. *)
Definition sort_keys (d : PricingDocument) : PricingDocument :=
  {| last_updated := last_updated d;
     sources := option_map (@sort_by_key string) (sources d);
     models := option_map sort_models (models d) |}.

(** A price that is a float above zero: a finite one, or the infinity
    that [float] gives for a number beyond the range of binary64. *)
Definition price_positive (v : pyval) : Prop :=
  v = VFloat (FInf false) \/ exists m e, v = VFloat (FNum m e) /\ 0 < m.

(** The entry that a row of an Anthropic table contributes, for the columns
    that the header gives. *)
Definition anthropic_row_entry (model_col : nat) (input_col output_col : option nat)
    (cells : list string) : option (string * PriceRecord) :=
  match nth_error cells model_col with
  | Some cell_text =>
      let model_text := Text.lower cell_text in
      if Anthropic.contains "claude" model_text then
        match Anthropic.row_prices input_col output_col cells with
        | Some (Some input_price, Some output_price) =>
            if Anthropic.float_truthy input_price && Anthropic.float_truthy output_price
            then Some (Anthropic.sub_spaces model_text,
                       [("input", VFloat input_price); ("output", VFloat output_price);
                        ("description",
                         VStr (Anthropic.title (Anthropic.dashes_to_spaces model_text)))])
            else None
        | _ => None
        end
      else None
  | None => None
  end.

(** The entries of the Anthropic extractor: the key is the lower-cased text
    of a cell that names claude, with dashes for its white space; the
    prices are positive; the description is the title-cased text. *)
Definition is_anthropic_entry (k : string) (r : PriceRecord) : Prop :=
  exists cell_text input_price output_price,
    Anthropic.contains "claude" (Text.lower cell_text) = true
    /\ k = Anthropic.sub_spaces (Text.lower cell_text)
    /\ r = [("input", VFloat input_price); ("output", VFloat output_price);
            ("description",
             VStr (Anthropic.title (Anthropic.dashes_to_spaces (Text.lower cell_text))))]
    /\ price_positive (VFloat input_price) /\ price_positive (VFloat output_price).

Definition anthropic_extracted (d : ProviderSnapshot) : Prop :=
  Dict.unique d /\ forall k r, In (k, r) d -> is_anthropic_entry k r.

(** A price that is a float and not negative: zero, a finite float above
    zero, or the infinity that [float] gives for a number beyond the range
    of binary64. *)
Definition price_nonneg (v : pyval) : Prop :=
  v = VFloat (FInf false) \/ exists m e, v = VFloat (FNum m e) /\ 0 <= m.

(** The API id of a column of the Anthropic models table, when the id row
    has a cell for it that is not empty once cleaned. *)
Definition column_api_id (api_id_cells : list string) (i : nat) : option string :=
  match nth_error api_id_cells i with
  | Some api_id_text =>
      let id := Text.strip (AnthropicModels.sub_copied api_id_text) in
      if AnthropicModels.nonempty id then Some id else None
  | None => None
  end.

(** What a column of the Anthropic models table writes, in order: nothing,
    the entry of the model, or that entry and its dateless alias. *)
Definition column_entries (header_cells api_id_cells pricing_cells : list string)
    (i : nat) : list (string * PriceRecord) :=
  match nth_error header_cells i, nth_error pricing_cells i with
  | Some model_name, Some pricing_text =>
      if AnthropicModels.nonempty model_name
         && Anthropic.contains "claude" (Text.lower model_name)
      then
        match AnthropicModels.findall_prices pricing_text with
        | match0 :: match1 :: _ =>
            match Extract.py_float match0, Extract.py_float match1 with
            | Some input_price, Some output_price =>
                match column_api_id api_id_cells i with
                | Some id =>
                    (id, AnthropicModels.record input_price output_price model_name)
                    :: (if Anthropic.contains "-20" id
                           && negb (String.eqb (AnthropicModels.sub_date id) id)
                        then [(AnthropicModels.sub_date id,
                               AnthropicModels.record input_price output_price
                                 (model_name ++ " (latest)"))]
                        else [])
                | None =>
                    [(AnthropicModels.spaces_to_dashes (Text.lower model_name),
                      AnthropicModels.record input_price output_price model_name)]
                end
            | _, _ => []
            end
        | _ => []
        end
      else []
  | _, _ => []
  end.

(** [d[k] = v] for each entry, in order. *)
Definition set_all (entries : list (string * PriceRecord)) (d : ProviderSnapshot)
  : ProviderSnapshot :=
  for_each entries (fun entry d => Dict.set d (fst entry) (snd entry)) d.

(** The entries of the Anthropic extractor of script/: the description is
    the text of a header cell that contains claude, or that text followed
    by " (latest)" for an alias; the prices are not negative. *)
Definition is_models_entry (r : PriceRecord) : Prop :=
  exists model_name input_price output_price,
    Anthropic.contains "claude" (Text.lower model_name) = true
    /\ (r = AnthropicModels.record input_price output_price model_name
        \/ r = AnthropicModels.record input_price output_price (model_name ++ " (latest)"))
    /\ price_nonneg (VFloat input_price) /\ price_nonneg (VFloat output_price).

(* ------------------------------------------------------------------ *)
(** ** Documents, snapshots and runs of the examples *)

Module Scenario.

Definition record (i o : pyval) : PriceRecord := [("input", i); ("output", o)].

Definition document (stamp : string) (ms : dict ProviderSnapshot) : PricingDocument :=
  {| last_updated := Some stamp;
     sources := Some [("openai", "https://platform.openai.com/docs/pricing")];
     models := Some ms |}.

Definition old_doc : PricingDocument :=
  document "2025-01-01T00:00:00+00:00"
    [("openai", [("gpt-4", record (VInt 10) (VInt 30))])].

Definition new_doc : PricingDocument :=
  document "2025-01-01T00:00:00+00:00"
    [("openai", [("gpt-4", record (VInt 10) (VInt 25))])].

End Scenario.


Module Rejected.

Definition priced (i o : Z) : PriceRecord :=
  [("input", VFloat (FNum i 0)); ("output", VFloat (FNum o 0));
   ("description", VStr "MODEL")].

(** Six models; the last one carries an input price of 5000. *)
Definition snapshot : ProviderSnapshot :=
  [("gpt-4", priced 30 60); ("gpt-4-turbo", priced 10 30);
   ("gpt-4o", priced 5 15); ("gpt-4o-mini", priced 1 2);
   ("gpt-3.5-turbo", priced 1 2); ("o1", priced 5000 60)].

End Rejected.


Module Runs.

(** A codec for the examples: one entry per model, as text. *)
Definition render_model (provider : string) (item : string * PriceRecord) : string :=
  provider ++ "/" ++ fst item ++ "=" ++ py_str (field (snd item) "input")
  ++ "/" ++ py_str (field (snd item) "output") ++ ";".

Definition render (d : PricingDocument) : string :=
  String.concat ""
    (flat_map (fun p => map (render_model (fst p)) (snd p)) (get_models d)).

Definition old_text : string := "openai/gpt-4=10/30;".

Definition load (content : string) : option PricingDocument :=
  if String.eqb content old_text then Some Scenario.old_doc else None.

Definition fetched : ProviderSnapshot :=
  [("gpt-4", [("input", VFloat (FNum 10 0)); ("output", VFloat (FNum 25 0));
              ("description", VStr "GPT-4")])].

(** A run that finds a price change and whose user answers no. *)
Definition declined : World :=
  {| force := false;
     fetch_openai_pricing := Some fetched;
     fetch_anthropic_pricing := None;
     input := Some "n";
     now := "2025-06-01T00:00:00+00:00";
     json_load := load;
     json_dump := render;
     write_succeeds := true;
     file_after_failed_write := None |}.

Definition three_models : ProviderSnapshot :=
  [("gpt-4", Rejected.priced 30 60); ("gpt-4o", Rejected.priced 5 15);
   ("o1", Rejected.priced 15 60)].

(** A forced run with good data whose write fails. *)
Definition disk_full : World :=
  {| force := true;
     fetch_openai_pricing := Some three_models;
     fetch_anthropic_pricing := None;
     input := None;
     now := "2025-06-01T00:00:00+00:00";
     json_load := load;
     json_dump := render;
     write_succeeds := false;
     file_after_failed_write := Some "" |}.

(** A run that finds changes and whose prompt meets the end of input. *)
Definition unanswered : World :=
  {| force := false;
     fetch_openai_pricing := Some three_models;
     fetch_anthropic_pricing := None;
     input := None;
     now := "2025-06-01T00:00:00+00:00";
     json_load := load;
     json_dump := render;
     write_succeeds := true;
     file_after_failed_write := None |}.

Definition claude_models : ProviderSnapshot :=
  [("claude-sonnet-4", Rejected.priced 3 15); ("claude-opus-4", Rejected.priced 15 75);
   ("claude-haiku-3", Rejected.priced 1 5)].

(** A forced run that creates the file from both pages. *)
Definition first_run : World :=
  {| force := true;
     fetch_openai_pricing := Some three_models;
     fetch_anthropic_pricing := Some claude_models;
     input := None;
     now := "2025-06-01T00:00:00+00:00";
     json_load := load;
     json_dump := render;
     write_succeeds := true;
     file_after_failed_write := None |}.

(** The document that [first_run] writes, the text of the file, and a
    later run over the same pages that reads the file back, its keys in
    order. *)
Definition first_document : PricingDocument :=
  new_document first_run "https://platform.openai.com/docs/pricing"
    (Some three_models) (Some claude_models) None.

Definition first_text : string := render first_document.

Definition later_run : World :=
  {| force := false;
     fetch_openai_pricing := Some three_models;
     fetch_anthropic_pricing := Some claude_models;
     input := None;
     now := "2025-07-01T00:00:00+00:00";
     json_load :=
       (fun content =>
          if String.eqb content first_text then Some (sort_keys first_document)
          else None);
     json_dump := render;
     write_succeeds := true;
     file_after_failed_write := None |}.

(** Both fetches fail; the file holds the old snapshot. *)
Definition offline : World :=
  {| force := false;
     fetch_openai_pricing := None;
     fetch_anthropic_pricing := None;
     input := None;
     now := "2025-06-01T00:00:00+00:00";
     json_load := load;
     json_dump := render;
     write_succeeds := true;
     file_after_failed_write := None |}.

End Runs.

(* ------------------------------------------------------------------ *)
(** ** The model on small inputs *)

Example py_str_int : py_str (VInt 30) = "30".
Proof. reflexivity. Qed.

Example py_str_float : py_str (VFloat (FNum 30 0)) = "30.0".
Proof. reflexivity. Qed.

Example py_str_float_cents : py_str (VFloat (FNum 15 (-2))) = "0.15".
Proof. reflexivity. Qed.

Example py_str_float_small : py_str (VFloat (FNum 15 (-6))) = "1.5e-05".
Proof. reflexivity. Qed.

Example py_str_float_mixed : py_str (VFloat (FNum 12500 (-3))) = "12.5".
Proof. reflexivity. Qed.

Example compare_scenario_ints :
  compare_pricing (Some Scenario.old_doc) Scenario.new_doc
  = (true, ["Price change: openai/gpt-4 output $30 → $25"]).
Proof. reflexivity. Qed.

Example search_price_dollar :
  Extract.search_price (Text.chars "from $10.00 / 1M") = Some (Text.chars "10.00").
Proof. reflexivity. Qed.

Example search_price_model_cell :
  Extract.search_price (Text.chars "GPT-4") = Some (Text.chars "4").
Proof. reflexivity. Qed.

Example py_float_two_dots : Extract.py_float (Text.chars "1.2.3") = None.
Proof. reflexivity. Qed.

Example py_float_cents : Extract.py_float (Text.chars "10.00") = Some (FNum 10 0).
Proof. reflexivity. Qed.

Example py_float_fraction : Extract.py_float (Text.chars "0.150") = Some (FNum 15 (-2)).
Proof. reflexivity. Qed.

(** [float] rounds to binary64: a long literal just below 1000 is 1000.0,
    one beyond the largest float is infinity, one below the smallest is
    0.0, and 2^53 + 1 is a tie that goes to the even neighbour. *)
Example py_float_rounds_up :
  Extract.py_float (Text.chars "999.99999999999999999") = Some (FNum 1000 0).
Proof. vm_compute. reflexivity. Qed.

Example py_float_seventeen_digits :
  Extract.py_float (Text.chars "0.30000000000000004") = Some (FNum 30000000000000004 (-17))
  /\ Extract.py_float (Text.chars "0.1000000000000000055511151231257827")
     = Some (FNum 1 (-1))
  /\ Extract.py_float (Text.chars "9007199254740993") = Some (FNum 9007199254740992 0).
Proof. vm_compute. repeat split; reflexivity. Qed.

Example py_float_overflow :
  Extract.py_float (Text.chars ("1" ++ Text.zeros 309)) = Some (FInf false).
Proof. vm_compute. reflexivity. Qed.

Example py_float_underflow :
  Extract.py_float (Text.chars ("0." ++ Text.zeros 400 ++ "1")) = Some (FNum 0 0)
  /\ Extract.py_float (Text.chars ("0." ++ Text.zeros 323 ++ "5")) = Some (FNum 5 (-324)).
Proof. vm_compute. repeat split; reflexivity. Qed.

(** A row whose only second price rounds to 1000.0 yields nothing. *)
Example parse_openai_pricing_rounded_out_of_range :
  Extract._parse_openai_pricing [[["gpt-x"; "999.99999999999999999"; "$5"]]] = None.
Proof. vm_compute. reflexivity. Qed.

Example parse_row_o1 :
  Extract.parse_row ["o1-preview"; "$15.00"; "$60.00"] []
  = [("o1-preview", [("input", VFloat (FNum 1 0)); ("output", VFloat (FNum 15 0));
                     ("description", VStr "O1-PREVIEW")])].
Proof. vm_compute. reflexivity. Qed.

Example parse_row_model_cell_last :
  Extract.parse_row ["$10.00"; "$30.00"; "GPT-4"] []
  = [("gpt-4", [("input", VFloat (FNum 10 0)); ("output", VFloat (FNum 30 0));
                ("description", VStr "GPT-4")])].
Proof. vm_compute. reflexivity. Qed.

Example parse_row_two_cells : Extract.parse_row ["GPT-4"; "$10.00"] [] = [].
Proof. reflexivity. Qed.

Example says_yes_padded : says_yes "  Y " = true.
Proof. reflexivity. Qed.

Example compare_scenario_floats :
  compare_pricing
    (Some (Scenario.document "t" [("openai", [("gpt-4",
       Scenario.record (VFloat (FNum 10 0)) (VFloat (FNum 30 0)))])]))
    (Scenario.document "t" [("openai", [("gpt-4",
       Scenario.record (VFloat (FNum 10 0)) (VFloat (FNum 25 0)))])])
  = (true, ["Price change: openai/gpt-4 output $30.0 → $25.0"]).
Proof. reflexivity. Qed.

Example compare_new_provider :
  compare_pricing
    (Some (Scenario.document "t" [("openai", [])]))
    (Scenario.document "t" [("openai", []); ("anthropic", [])])
  = (true, ["New provider: anthropic"]).
Proof. reflexivity. Qed.

Example collect_prices_row :
  Extract.collect_prices ["GPT-4"; "$10.00"; "$30.00"] = [FNum 4 0; FNum 10 0; FNum 30 0].
Proof. vm_compute. reflexivity. Qed.

(* ------------------------------------------------------------------ *)
(** ** Facts about loops and dicts *)

Section Loops.
Variables A S : Type.

Lemma for_each_cons (x : A) (xs : list A) (body : A -> S -> S) (s : S) :
  for_each (x :: xs) body s = for_each xs body (body x s).
Proof. reflexivity. Qed.

(** A loop whose body changes nothing on the items it meets changes
    nothing. *)
Lemma for_each_idle (xs : list A) (body : A -> S -> S) :
  (forall x s, In x xs -> body x s = s) ->
  forall s, for_each xs body s = s.
Proof.
  induction xs as [|x xs IH]; intros Hidle s.
  - reflexivity.
  - rewrite for_each_cons, Hidle by (left; reflexivity).
    apply IH. intros y t Hy. apply Hidle. right. exact Hy.
Qed.
End Loops.

Section DictFacts.
Variable V : Type.
Implicit Types (d : dict V) (k : string) (v : V).

Lemma mem_keys d k : In k (Dict.keys d) -> Dict.mem k d = true.
Proof.
  unfold Dict.mem. induction d as [|[k' v'] d IH]; simpl; intros Hin.
  - contradiction.
  - destruct (String.eqb k k') eqn:E; [reflexivity|].
    destruct Hin as [->|Hin]; [rewrite String.eqb_refl in E; discriminate|].
    apply IH, Hin.
Qed.

Lemma mem_false_not_key d k : Dict.mem k d = false -> ~ In k (Dict.keys d).
Proof. intros Hm Hin. rewrite (mem_keys _ _ Hin) in Hm. discriminate. Qed.

Lemma uniqueb_unique d : Dict.uniqueb d = true -> Dict.unique d.
Proof.
  unfold Dict.unique. induction d as [|[k v] d IH]; simpl; intros H.
  - constructor.
  - apply andb_true_iff in H as [Hk Hd]. apply negb_true_iff in Hk.
    constructor; [apply mem_false_not_key, Hk | apply IH, Hd].
Qed.

(** In a dict, an item is what its key looks up. *)
Lemma get_item d k v : Dict.unique d -> In (k, v) d -> Dict.get d k = Some v.
Proof.
  unfold Dict.unique. induction d as [|[k' v'] d IH]; simpl; intros Hu Hin.
  - contradiction.
  - inversion Hu as [|? ? Hnot Hu']; subst.
    destruct Hin as [Heq|Hin].
    + inversion Heq; subst. rewrite String.eqb_refl. reflexivity.
    + destruct (String.eqb k k') eqn:E.
      * apply String.eqb_eq in E; subst. exfalso. apply Hnot.
        change k' with (fst (k', v)). apply in_map, Hin.
      * apply IH; assumption.
Qed.

Lemma uniqueb_tail k v d : Dict.uniqueb ((k, v) :: d) = true -> Dict.uniqueb d = true.
Proof. simpl. intros H. apply andb_true_iff in H. apply H. Qed.
End DictFacts.

(* ------------------------------------------------------------------ *)
(** ** Facts about values *)

Lemma in_price_range_finite (x : number) :
  in_price_range x = true -> exists q, x = Fin q.
Proof.
  unfold in_price_range. destruct x as [q|[|]|]; simpl; intros H;
    try discriminate. exists q. reflexivity.
Qed.

(** A price in range equals itself: it is not NaN. *)
Lemma py_ne_price (v : pyval) : value_in_price_range v = true -> py_ne v v = false.
Proof.
  unfold value_in_price_range, py_ne, py_eq. destruct (as_number v) as [x|]; intros H.
  - destruct (in_price_range_finite _ H) as [q ->]. simpl.
    rewrite Qeq_bool_refl. reflexivity.
  - discriminate.
Qed.

Lemma record_valid_prices (r : PriceRecord) :
  record_has_valid_pricing r = true ->
  value_in_price_range (field r "input") = true
  /\ value_in_price_range (field r "output") = true.
Proof.
  unfold record_has_valid_pricing.
  destruct (is_numeric (field r "input") && is_numeric (field r "output"));
    [intros H; apply andb_true_iff in H; exact H | discriminate].
Qed.

(* ------------------------------------------------------------------ *)
(** ** Properties of the extractor *)

(** C1 at the failing input.  On a page whose only table has the one row
    GPT-4, $10.00, $30.00 the extractor keys the record by the lower-cased
    cell and describes it by its upper-casing, but the price loop also
    reads the model cell: the 4 of GPT-4 becomes the input price and 10
    the output price. *)
Theorem parse_openai_pricing_reads_model_cell :
  Extract._parse_openai_pricing [[["GPT-4"; "$10.00"; "$30.00"]]]
  = Some [("gpt-4", [("input", VFloat (FNum 4 0)); ("output", VFloat (FNum 10 0));
                     ("description", VStr "GPT-4")])].
Proof. vm_compute. reflexivity. Qed.

(* ------------------------------------------------------------------ *)
(** ** The differ on equal mappings *)

Lemma append_if_false (x : string) (changes : list string) :
  append_if false x changes = changes.
Proof. reflexivity. Qed.

Lemma compare_model_same (provider : string) (s : ProviderSnapshot)
    (item : string * PriceRecord) (changes : list string) :
  Dict.unique s -> In item s -> record_has_valid_pricing (snd item) = true ->
  compare_model provider s item changes = changes.
Proof.
  destruct item as [model_name model_data]. simpl. intros Hu Hin Hv.
  rewrite (get_item _ _ Hu Hin).
  destruct (record_valid_prices _ Hv) as [Hi Ho].
  rewrite (py_ne_price _ Hi), (py_ne_price _ Ho). reflexivity.
Qed.

Lemma no_key_removed (V : Type) (d : dict V) (msg : string -> string)
    (changes : list string) :
  for_each (Dict.keys d) (fun k => append_if (negb (Dict.mem k d)) (msg k)) changes
  = changes.
Proof.
  apply for_each_idle. intros k s Hin. rewrite (mem_keys _ _ Hin). reflexivity.
Qed.

Lemma compare_provider_same (m : dict ProviderSnapshot)
    (item : string * ProviderSnapshot) (changes : list string) :
  Dict.unique m -> In item m -> valid_snapshot (snd item) = true ->
  compare_provider m item changes = changes.
Proof.
  destruct item as [provider s]. simpl. intros Hu Hin Hv.
  apply andb_true_iff in Hv as [Hus Hrs]. apply uniqueb_unique in Hus.
  rewrite (get_item _ _ Hu Hin), no_key_removed.
  apply for_each_idle. intros item t Hitem.
  apply compare_model_same; [exact Hus | exact Hitem |].
  rewrite forallb_forall in Hrs. apply Hrs, Hitem.
Qed.

(** A mapping of valid snapshots does not differ from itself. *)
Lemma compare_models_same (m : dict ProviderSnapshot) :
  Dict.uniqueb m = true ->
  forallb (fun item => valid_snapshot (snd item)) m = true ->
  compare_models m m = [].
Proof.
  intros Hu Hv. apply uniqueb_unique in Hu. unfold compare_models.
  rewrite !no_key_removed. apply for_each_idle. intros item t Hitem.
  apply compare_provider_same; [exact Hu | exact Hitem |].
  rewrite forallb_forall in Hv. apply Hv, Hitem.
Qed.

Lemma valid_document_fields (d : PricingDocument) :
  valid_document d = true ->
  document_truthy d = true
  /\ Dict.uniqueb (get_models d) = true
  /\ forallb (fun item => valid_snapshot (snd item)) (get_models d) = true.
Proof.
  unfold valid_document, document_truthy, get_models.
  destruct (last_updated d), (sources d), (models d); try discriminate.
  intros H. apply andb_true_iff in H. tauto.
Qed.

(** The only document that is false is [{}]. *)
Lemma document_falsy_empty (d : PricingDocument) :
  document_truthy d = false -> d = empty_document.
Proof.
  destruct d as [[?|] [?|] [?|]]; unfold document_truthy; simpl;
    intros H; try discriminate. reflexivity.
Qed.

(** [compare_pricing] as a function of the truth value of [old] and of the
    two mappings. *)
Lemma compare_pricing_unfold (old : option PricingDocument) (new : PricingDocument) :
  compare_pricing old new
  = if truthy document_truthy old then
      (0 <? Z.of_nat (List.length (compare_models (models_of old) (get_models new))),
       compare_models (models_of old) (get_models new))
    else (true, ["Initial pricing data created"]).
Proof.
  unfold compare_pricing, truthy, if_true, models_of.
  destruct old as [d|]; [destruct (document_truthy d)|]; reflexivity.
Qed.

(* ------------------------------------------------------------------ *)
(** ** Properties of the differ *)

(** C5.  Comparing a valid document with itself reports no change:
    [changed] is false and the change list is empty. *)
Theorem compare_pricing_same_document (X : PricingDocument) :
  valid_document X = true -> compare_pricing (Some X) X = (false, []).
Proof.
  intros Hv. destruct (valid_document_fields _ Hv) as (Ht & Hu & Hs).
  rewrite compare_pricing_unfold. unfold truthy, if_true. rewrite Ht. simpl.
  rewrite (compare_models_same _ Hu Hs). reflexivity.
Qed.

(** C5 on the old document of the scenario. *)
Lemma compare_pricing_same_document_witness :
  valid_document Scenario.old_doc = true
  /\ compare_pricing (Some Scenario.old_doc) Scenario.old_doc = (false, []).
Proof.
  split; [reflexivity | apply (compare_pricing_same_document Scenario.old_doc); reflexivity].
Defined.

(** C6.  With no old document the differ returns [changed = true] and the
    one change "Initial pricing data created", whatever the new document
    holds: no other rule adds to the list. *)
Theorem compare_pricing_without_old (n : PricingDocument) :
  compare_pricing None n = (true, ["Initial pricing data created"]).
Proof. reflexivity. Qed.

(** C7.  Old: openai/gpt-4 at input 10, output 30; new: the same model at
    input 10, output 25, nothing else differing.  The differ returns
    [changed = true] and exactly the one change that names the output
    price, whatever the time stamps and the sources of the two documents. *)
Theorem compare_pricing_output_price_change
    (stamp stamp' : option string) (urls urls' : option (dict string)) :
  compare_pricing
    (Some {| last_updated := stamp; sources := urls;
             models := Some [("openai", [("gpt-4", Scenario.record (VInt 10) (VInt 30))])] |})
    {| last_updated := stamp'; sources := urls';
       models := Some [("openai", [("gpt-4", Scenario.record (VInt 10) (VInt 25))])] |}
  = (true, ["Price change: openai/gpt-4 output $30 → $25"]).
Proof. destruct stamp, urls; reflexivity. Qed.




(** C10.  An old document that is present but empty ([{}], not [None]) is
    handled as the missing one: [changed = true] and the single change
    "Initial pricing data created", with no "New provider" entry for the
    providers of the new document. *)
Theorem compare_pricing_empty_old (n : PricingDocument) :
  compare_pricing (Some empty_document) n = (true, ["Initial pricing data created"])
  /\ compare_pricing (Some empty_document) n = compare_pricing None n.
Proof. split; reflexivity. Qed.

(* ------------------------------------------------------------------ *)
(** ** Properties of the validator *)

Lemma Qlt_bool_iff (x y : Q) : Qlt_bool x y = true <-> (x < y)%Q.
Proof.
  unfold Qlt_bool. rewrite negb_true_iff. split.
  - intros H. apply Qnot_le_lt. intros Hle. apply Qle_bool_iff in Hle. congruence.
  - intros H. destruct (Qle_bool y x) eqn:E; [|reflexivity].
    apply Qle_bool_iff in E. exfalso. exact (Qlt_not_le _ _ H E).
Qed.

Lemma value_in_price_range_iff (v : pyval) :
  value_in_price_range v = true <-> price_in_range v.
Proof.
  unfold value_in_price_range, price_in_range. split.
  - destruct (as_number v) as [x|]; [|discriminate]. intros H.
    destruct (in_price_range_finite _ H) as [q ->]. exists q.
    unfold in_price_range in H. simpl in H. apply andb_true_iff in H as [H0 H1].
    apply Qlt_bool_iff in H0, H1. auto.
  - intros (q & -> & H0 & H1). unfold in_price_range. simpl.
    apply andb_true_iff. split; apply Qlt_bool_iff; assumption.
Qed.

Lemma record_has_valid_pricing_iff (r : PriceRecord) :
  record_has_valid_pricing r = true
  <-> price_in_range (field r "input") /\ price_in_range (field r "output").
Proof.
  rewrite <- !value_in_price_range_iff. unfold record_has_valid_pricing. split.
  - destruct (is_numeric (field r "input") && is_numeric (field r "output"));
      [apply andb_true_iff | discriminate].
  - intros [Hi Ho]. unfold is_numeric. unfold value_in_price_range in Hi, Ho |- *.
    destruct (as_number (field r "input")); [|discriminate].
    destruct (as_number (field r "output")); [|discriminate].
    simpl. rewrite Hi, Ho. reflexivity.
Qed.

(** The counting loop of the validator counts the valid records. *)
Lemma valid_models_count (s : ProviderSnapshot) (start : Z) :
  for_each s
    (fun item valid_models =>
       if record_has_valid_pricing (snd item) then valid_models + 1 else valid_models)
    start
  = start + Z.of_nat (List.length (valid_records s)).
Proof.
  revert start. induction s as [|item s IH]; intros start.
  - simpl. lia.
  - rewrite for_each_cons, IH. unfold valid_records. simpl.
    destruct (record_has_valid_pricing (snd item)); simpl List.length; lia.
Qed.

Lemma below_four_fifths (valid total : Z) :
  Qlt_bool (inject_Z valid) (inject_Z total * (8 # 10)) = false <->
  4 * total <= 5 * valid.
Proof.
  unfold Qlt_bool. rewrite negb_false_iff, Qle_bool_iff.
  unfold Qle, Qmult, inject_Z, Qnum, Qden.
  change (Z.pos (1 * 10)) with 10. lia.
Qed.

(** What the validator accepts, in closed form. *)
Lemma validate_pricing_data_spec (s : ProviderSnapshot) (provider : string)
    (existing_count : Z) :
  validate_pricing_data s provider existing_count = true <->
  3 <= Dict.len s /\ 4 * Dict.len s <= 5 * Z.of_nat (List.length (valid_records s)).
Proof.
  unfold validate_pricing_data. rewrite valid_models_count. simpl.
  destruct s as [|item s]; simpl Dict.truthy; cbv iota.
  - simpl. unfold Dict.len. simpl. split; [discriminate | lia].
  - simpl negb. cbv iota.
    destruct (Dict.len (item :: s) <? 3) eqn:E3.
    + apply Z.ltb_lt in E3. split; [discriminate | lia].
    + apply Z.ltb_ge in E3.
      destruct (Qlt_bool _ _) eqn:Eq.
      * split; [discriminate|]. intros [_ H]. apply below_four_fifths in H. congruence.
      * apply below_four_fifths in Eq. split; auto.
Qed.

(** C2, as stated, fails: the validator accepts a snapshot of six records
    of which one has the input price 5000. *)
Lemma validate_accepts_price_out_of_range :
  validate_pricing_data Rejected.snapshot "OpenAI" 0 = true
  /\ In ("o1", Rejected.priced 5000 60) Rejected.snapshot
  /\ value_in_price_range (field (Rejected.priced 5000 60) "input") = false
  /\ ~ all_prices_in_range Rejected.snapshot.
Proof.
  split; [vm_compute; reflexivity|].
  assert (Hin : In ("o1", Rejected.priced 5000 60) Rejected.snapshot).
  { unfold Rejected.snapshot. simpl. tauto. }
  assert (Hv : value_in_price_range (field (Rejected.priced 5000 60) "input") = false).
  { vm_compute. reflexivity. }
  split; [exact Hin|]. split; [exact Hv|].
  intros Hall. destruct (Hall _ _ Hin) as [Hi _].
  apply value_in_price_range_iff in Hi. congruence.
Qed.

(** C2, amended.  A snapshot that the validator accepts has at least three
    records, and at least four fifths of them have both prices numeric and
    in (0, 1000); when it has fewer than five records, all of them do. *)
Theorem validate_pricing_data_accepts (s : ProviderSnapshot) (provider : string)
    (existing_count : Z) :
  validate_pricing_data s provider existing_count = true ->
  3 <= Dict.len s
  /\ 4 * Dict.len s <= 5 * Z.of_nat (List.length (valid_records s))
  /\ (forall item, In item (valid_records s) ->
        In item s
        /\ price_in_range (field (snd item) "input")
        /\ price_in_range (field (snd item) "output"))
  /\ (Dict.len s < 5 -> all_prices_in_range s).
Proof.
  intros Hok. apply validate_pricing_data_spec in Hok as [H3 H45].
  split; [exact H3|]. split; [exact H45|]. split.
  - intros item Hin. apply filter_In in Hin as [Hin Hv].
    apply record_has_valid_pricing_iff in Hv. tauto.
  - intros Hsmall model_name r Hin.
    assert (Hle : (List.length (valid_records s) <= List.length s)%nat)
      by apply filter_length_le.
    assert (Hall : forallb (fun item => record_has_valid_pricing (snd item)) s = true).
    { apply filter_length_forallb. fold (valid_records s).
      unfold Dict.len in *. lia. }
    rewrite forallb_forall in Hall.
    apply record_has_valid_pricing_iff. exact (Hall _ Hin).
Qed.

(** C2, amended, on a snapshot of three models. *)
Lemma validate_pricing_data_accepts_witness :
  validate_pricing_data Runs.three_models "OpenAI" 0 = true
  /\ 4 * Dict.len Runs.three_models
     <= 5 * Z.of_nat (List.length (valid_records Runs.three_models))
  /\ all_prices_in_range Runs.three_models.
Proof.
  assert (Hok : validate_pricing_data Runs.three_models "OpenAI" 0 = true)
    by (vm_compute; reflexivity).
  destruct (validate_pricing_data_accepts Runs.three_models "OpenAI" 0 Hok)
    as (_ & Hfifths & _ & Hsmall).
  split; [exact Hok|]. split; [exact Hfifths|].
  apply Hsmall. vm_compute. reflexivity.
Defined.

(* ------------------------------------------------------------------ *)
(** ** Properties of the orchestrator *)

Lemma save_and_return_status (w : World) (d : PricingDocument) :
  exit_status (fst (save_and_return w d)) = if write_succeeds w then 0 else 1.
Proof. unfold save_and_return, save_pricing. destruct (write_succeeds w); reflexivity. Qed.

(** script/fetch_pricing.py keeps the gate: without the force flag and
    without a yes, no run writes the file. *)
Lemma script_main_asks_before_saving (w : World) (file : option string) :
  force w = false ->
  (forall response, input w = Some response -> says_yes response = false) ->
  snd (Script.main w file) = file.
Proof.
  intros Hforce Hno. unfold Script.main.
  destruct (Script.usable w file) as [openai_pricing anthropic_pricing].
  destruct (negb _ && negb _).
  - destruct (truthy document_truthy _); reflexivity.
  - destruct (compare_pricing _ _) as [has_changes changes].
    rewrite Hforce. simpl.
    destruct has_changes; [|reflexivity].
    destruct (input w) as [response|] eqn:Ein; [|reflexivity].
    rewrite (Hno response eq_refl). reflexivity.
Qed.

(** scripts/fetch_pricing.py does not: once the prompt is answered, with
    whatever text, a run that found changes saves. *)
Lemma scripts_main_ignores_answer (w : World) (file : option string)
    (response : string) :
  let existing_pricing := load_existing_pricing w file in
  let new_pricing :=
    new_document w "https://openai.com/api/pricing/"
      (fetch_openai_pricing w) (fetch_anthropic_pricing w) existing_pricing in
  force w = false -> input w = Some response ->
  scripts_no_data w = false ->
  fst (compare_pricing existing_pricing new_pricing) = true ->
  Scripts.main w file = save_and_return w new_pricing.
Proof.
  intros existing_pricing new_pricing Hforce Hinput Hdata Hchanged.
  unfold Scripts.main. unfold scripts_no_data, no_usable_data in Hdata.
  rewrite Hdata. fold existing_pricing. fold new_pricing.
  destruct (compare_pricing existing_pricing new_pricing) as [has_changes changes].
  simpl in Hchanged. subst has_changes.
  rewrite Hforce, Hinput, orb_true_r. reflexivity.
Qed.

(** C3 at the failing input: in scripts/fetch_pricing.py a run that finds a
    price change, is not forced and is answered "n" replaces the file. *)
Theorem scripts_main_saves_when_declined :
  let file := Some Runs.old_text in
  let new_pricing :=
    new_document Runs.declined "https://openai.com/api/pricing/"
      (Some Runs.fetched) None (load_existing_pricing Runs.declined file) in
  compare_pricing (load_existing_pricing Runs.declined file) new_pricing
  = (true, ["Price change: openai/gpt-4 output $30 → $25.0"])
  /\ force Runs.declined = false
  /\ input Runs.declined = Some "n"
  /\ says_yes "n" = false
  /\ Scripts.main Runs.declined file = (Return 0, Some "openai/gpt-4=10.0/25.0;")
  /\ Script.main Runs.declined file = (Return 0, file).
Proof. vm_compute. repeat split; reflexivity. Qed.

(** C4, as stated, fails: a forced run with usable data whose write fails
    exits with status 1. *)
Lemma script_main_write_failure_status :
  exit_status (fst (Script.main Runs.disk_full None)) = 1
  /\ exit_status (fst (Scripts.main Runs.disk_full None)) = 1
  /\ script_no_data Runs.disk_full None = false
  /\ scripts_no_data Runs.disk_full = false.
Proof. vm_compute. repeat split; reflexivity. Qed.

(** In scripts/fetch_pricing.py a run that is not forced and finds a
    change ends with an uncaught exception when its prompt meets the end
    of input, with data at hand and a disk that can be written; the file
    is left as it was.  script/fetch_pricing.py catches the exception and
    returns 0. *)
Example scripts_main_unanswered_prompt :
  Scripts.main Runs.unanswered (Some Runs.old_text) = (Uncaught, Some Runs.old_text)
  /\ exit_status (fst (Scripts.main Runs.unanswered (Some Runs.old_text))) = 1
  /\ scripts_no_data Runs.unanswered = false
  /\ write_succeeds Runs.unanswered = true
  /\ script_no_data Runs.unanswered (Some Runs.old_text) = false
  /\ Script.main Runs.unanswered (Some Runs.old_text) = (Return 0, Some Runs.old_text).
Proof. vm_compute. repeat split; reflexivity. Qed.

(** C4, amended.  The exit status is 1 when no provider yielded usable
    data and no existing snapshot was loaded, and 0 when no provider
    yielded usable data and a snapshot was loaded.  It is non-zero only
    when there is neither usable data nor a loaded snapshot, or when the
    write of the file fails, or, in scripts/fetch_pricing.py, when a run
    that is not forced gets no answer at its prompt: [input] raises there
    and nothing catches it.  So it is 0 whenever the disk can be written,
    the prompt is answered and there is data or an existing snapshot,
    changes or not. *)
Theorem exit_status_nonzero_only (w : World) (file : option string) :
  (script_no_data w file = true -> has_existing w file = false ->
     exit_status (fst (Script.main w file)) = 1)
  /\ (script_no_data w file = true -> has_existing w file = true ->
        exit_status (fst (Script.main w file)) = 0)
  /\ (exit_status (fst (Script.main w file)) <> 0 ->
        (script_no_data w file = true /\ has_existing w file = false)
        \/ write_succeeds w = false)
  /\ (scripts_no_data w = true -> has_existing w file = false ->
        exit_status (fst (Scripts.main w file)) = 1)
  /\ (scripts_no_data w = true -> has_existing w file = true ->
        exit_status (fst (Scripts.main w file)) = 0)
  /\ (exit_status (fst (Scripts.main w file)) <> 0 ->
        (scripts_no_data w = true /\ has_existing w file = false)
        \/ write_succeeds w = false
        \/ (force w = false /\ input w = None)).
Proof.
  unfold script_no_data, scripts_no_data, has_existing, no_usable_data,
    Script.main, Scripts.main.
  destruct (Script.usable w file) as [openai_pricing anthropic_pricing]. simpl fst. simpl snd.
  repeat split.
  - intros -> ->. reflexivity.
  - intros -> ->. reflexivity.
  - destruct (negb _ && negb _).
    + destruct (truthy document_truthy _); simpl; [congruence | auto].
    + destruct (compare_pricing _ _) as [has_changes changes].
      destruct has_changes, (force w); simpl;
        try destruct (input w) as [response|]; try destruct (says_yes response);
        rewrite ?save_and_return_status; simpl;
        destruct (write_succeeds w); simpl; auto; congruence.
  - intros -> ->. reflexivity.
  - intros -> ->. reflexivity.
  - destruct (negb _ && negb _).
    + destruct (truthy document_truthy _); simpl; [congruence | auto].
    + destruct (compare_pricing _ _) as [has_changes changes].
      destruct has_changes, (force w); simpl;
        try (destruct (input w) as [response|]; [|auto]);
        try destruct (says_yes response); simpl;
        rewrite ?save_and_return_status; simpl;
        destruct (write_succeeds w); simpl; auto; congruence.
Qed.

(** C4, amended, on a run without network, on a run whose write fails and
    on a run of scripts/fetch_pricing.py whose prompt gets no answer. *)
Lemma exit_status_nonzero_only_witness :
  exit_status (fst (Script.main Runs.offline None)) = 1
  /\ exit_status (fst (Script.main Runs.offline (Some Runs.old_text))) = 0
  /\ ((scripts_no_data Runs.disk_full = true /\ has_existing Runs.disk_full None = false)
      \/ write_succeeds Runs.disk_full = false
      \/ (force Runs.disk_full = false /\ input Runs.disk_full = None))
  /\ ((scripts_no_data Runs.unanswered = true
       /\ has_existing Runs.unanswered (Some Runs.old_text) = false)
      \/ write_succeeds Runs.unanswered = false
      \/ (force Runs.unanswered = false /\ input Runs.unanswered = None)).
Proof.
  split; [|split; [|split]].
  - apply (exit_status_nonzero_only Runs.offline None); reflexivity.
  - apply (exit_status_nonzero_only Runs.offline (Some Runs.old_text)); reflexivity.
  - apply (exit_status_nonzero_only Runs.disk_full None).
    vm_compute. discriminate.
  - apply (exit_status_nonzero_only Runs.unanswered (Some Runs.old_text)).
    vm_compute. discriminate.
Defined.

(** Without usable data both mains stop before the merge: they return 0
    when a snapshot was loaded and 1 otherwise, and leave the file alone. *)
Lemma main_without_data (w : World) (file : option string) :
  (script_no_data w file = true ->
     Script.main w file = (Return (if has_existing w file then 0 else 1), file))
  /\ (scripts_no_data w = true ->
        Scripts.main w file = (Return (if has_existing w file then 0 else 1), file)).
Proof.
  unfold script_no_data, scripts_no_data, has_existing, no_usable_data,
    Script.main, Scripts.main.
  destruct (Script.usable w file) as [openai_pricing anthropic_pricing]. simpl fst. simpl snd.
  split; intros ->; destruct (truthy document_truthy _); reflexivity.
Qed.

(** C8.  When no provider yields usable data and a prior snapshot file
    exists (the file is there, [json.load] reads it and the document is not
    empty), the run returns 0 and the file holds the text it held before:
    no write takes place, in either script. *)
Theorem main_keeps_existing_file (w : World) (content : string)
    (existing : PricingDocument) :
  json_load w content = Some existing ->
  document_truthy existing = true ->
  (script_no_data w (Some content) = true ->
     Script.main w (Some content) = (Return 0, Some content))
  /\ (scripts_no_data w = true ->
        Scripts.main w (Some content) = (Return 0, Some content)).
Proof.
  intros Hload Htrue.
  assert (Hexisting : has_existing w (Some content) = true).
  { unfold has_existing, truthy, if_true. simpl. rewrite Hload, Htrue. reflexivity. }
  destruct (main_without_data w (Some content)) as [Hscript Hscripts].
  rewrite Hexisting in Hscript, Hscripts. split; assumption.
Qed.

(** C8 on the run [Runs.offline] over the old file. *)
Lemma main_keeps_existing_file_witness :
  Script.main Runs.offline (Some Runs.old_text) = (Return 0, Some Runs.old_text)
  /\ Scripts.main Runs.offline (Some Runs.old_text) = (Return 0, Some Runs.old_text).
Proof.
  destruct (main_keeps_existing_file Runs.offline Runs.old_text
              (existing := Scenario.old_doc) eq_refl eq_refl)
    as [Hscript Hscripts].
  split; [apply Hscript | apply Hscripts]; reflexivity.
Defined.


(* ------------------------------------------------------------------ *)
(** ** More about dicts and loops *)

Section LoopInvariants.
Variables A S : Type.

(** What holds before a loop and is kept by its body holds after it. *)
Lemma for_each_invariant (P : S -> Prop) (xs : list A) (body : A -> S -> S) :
  (forall x s, In x xs -> P s -> P (body x s)) ->
  forall s, P s -> P (for_each xs body s).
Proof.
  induction xs as [|x xs IH]; intros Hbody s Hs.
  - exact Hs.
  - rewrite for_each_cons. apply IH.
    + intros y t Hy. apply Hbody. right. exact Hy.
    + apply Hbody; [left; reflexivity | exact Hs].
Qed.
End LoopInvariants.

Section DictSet.
Variable V : Type.
Implicit Types (d : dict V) (k : string) (v : V).

Lemma get_set d k k' v :
  Dict.get (Dict.set d k v) k' = if String.eqb k' k then Some v else Dict.get d k'.
Proof.
  induction d as [|[k0 v0] d IH]; simpl.
  - reflexivity.
  - destruct (String.eqb k k0) eqn:E; simpl.
    + apply String.eqb_eq in E; subst k0.
      destruct (String.eqb k' k); reflexivity.
    + rewrite IH. destruct (String.eqb k' k0) eqn:E0; [|reflexivity].
      apply String.eqb_eq in E0; subst k0.
      destruct (String.eqb k' k) eqn:E1; [|reflexivity].
      apply String.eqb_eq in E1; subst k'. rewrite String.eqb_refl in E. discriminate.
Qed.

Lemma keys_set d k v :
  Dict.keys (Dict.set d k v)
  = if Dict.mem k d then Dict.keys d else (Dict.keys d ++ [k])%list.
Proof.
  unfold Dict.mem. induction d as [|[k0 v0] d IH]; simpl.
  - reflexivity.
  - destruct (String.eqb k k0) eqn:E; simpl.
    + apply String.eqb_eq in E; subst k0. reflexivity.
    + rewrite IH. destruct (Dict.get d k); reflexivity.
Qed.

Lemma unique_set d k v : Dict.unique d -> Dict.unique (Dict.set d k v).
Proof.
  unfold Dict.unique. intros Hu. rewrite keys_set.
  destruct (Dict.mem k d) eqn:E; [exact Hu|].
  apply NoDup_app; [exact Hu | constructor; [intros [] | constructor] |].
  intros x Hx [Hk|[]]. subst x. apply (mem_false_not_key _ _ E), Hx.
Qed.

Lemma in_set d k v (item : string * V) :
  In item (Dict.set d k v) -> item = (k, v) \/ In item d.
Proof.
  induction d as [|[k0 v0] d IH]; simpl.
  - intros [H|[]]. left. symmetry. exact H.
  - destruct (String.eqb k k0); simpl.
    + intros [H|H]; [left; symmetry; exact H | right; right; exact H].
    + intros [H|H]; [right; left; exact H|].
      destruct (IH H); [left | right; right]; assumption.
Qed.

Lemma set_not_empty d k v : Dict.set d k v <> [].
Proof.
  destruct d as [|[k0 v0] d]; simpl; [discriminate|].
  destruct (String.eqb k k0); discriminate.
Qed.
End DictSet.

(* ------------------------------------------------------------------ *)
(** ** What the OpenAI extractor returns *)

Lemma lower_char_idempotent (c : ascii) :
  Text.lower_char (Text.lower_char c) = Text.lower_char c.
Proof. destruct c as [[] [] [] [] [] [] [] []]; reflexivity. Qed.

Lemma chars_text (l : list ascii) : Text.chars (Text.text l) = l.
Proof. apply list_ascii_of_string_of_list_ascii. Qed.

Lemma lower_idempotent (s : string) : Text.lower (Text.lower s) = Text.lower s.
Proof.
  unfold Text.lower. rewrite chars_text, map_map. f_equal.
  apply map_ext. intros c. apply lower_char_idempotent.
Qed.

Lemma find_model_name_key (cell_texts : list string) (model_name : string) :
  Extract.find_model_name cell_texts = Some model_name ->
  is_model_key model_name /\ exists text, In text cell_texts /\ model_name = Text.lower text.
Proof.
  induction cell_texts as [|text rest IH]; simpl; [discriminate|].
  destruct (Text.startswith "gpt-" (Text.lower text)
            || Text.startswith "o1" (Text.lower text)) eqn:E.
  - intros H. inversion H; subst. split.
    + split; [exact E | apply lower_idempotent].
    + exists text. split; [left|]; reflexivity.
  - intros H. destruct (IH H) as [Hk (t & Ht & Heq)]. split; [exact Hk|].
    exists t. split; [right|]; assumption.
Qed.

Lemma collect_prices_in_range (cell_texts : list string) :
  Forall (fun price => in_price_range (number_of_float price) = true)
    (Extract.collect_prices cell_texts).
Proof.
  unfold Extract.collect_prices. apply for_each_invariant; [|constructor].
  intros text prices _ Hprices.
  destruct (Extract.search_price (Text.chars text)) as [group|]; [|exact Hprices].
  destruct (Extract.py_float group) as [price|]; [|exact Hprices].
  destruct (in_price_range (number_of_float price)) eqn:E; [|exact Hprices].
  apply Forall_app. split; [exact Hprices | constructor; [exact E | constructor]].
Qed.

Lemma parse_row_extracted (cell_texts : Extract.Row) (d : ProviderSnapshot) :
  extracted d -> extracted (Extract.parse_row cell_texts d).
Proof.
  intros [Hu Hall]. unfold Extract.parse_row.
  destruct (3 <=? Z.of_nat (List.length cell_texts)); [|split; assumption].
  destruct (Extract.find_model_name cell_texts) as [model_name|] eqn:Ename;
    [|split; assumption].
  pose proof (collect_prices_in_range cell_texts) as Hprices.
  destruct (Extract.collect_prices cell_texts) as [|price0 [|price1 rest]];
    try (split; assumption).
  inversion Hprices as [|? ? H0 Hrest]; subst.
  inversion Hrest as [|? ? H1 _]; subst.
  split; [apply unique_set, Hu|].
  intros k r Hin. apply in_set in Hin as [Heq|Hin]; [|apply Hall, Hin].
  inversion Heq; subst. split.
  - apply (find_model_name_key _ Ename).
  - exists price0, price1. auto.
Qed.

Lemma parse_tables_extracted (tables : list Extract.Table) :
  extracted
    (for_each tables (fun rows pricing_dict => for_each rows Extract.parse_row pricing_dict) []).
Proof.
  apply for_each_invariant.
  - intros rows d _ Hd. apply for_each_invariant; [|exact Hd].
    intros row d' _. apply parse_row_extracted.
  - split; [constructor | intros k r []].
Qed.

Lemma extracted_record_valid (k : string) (r : PriceRecord) :
  is_extracted_record k r -> record_has_valid_pricing r = true.
Proof.
  intros (price0 & price1 & -> & H0 & H1).
  unfold record_has_valid_pricing, field, Dict.get_or, is_numeric,
    value_in_price_range. simpl. rewrite H0, H1. reflexivity.
Qed.

(** X1.  Whatever the page, a snapshot that the OpenAI extractor returns is
    not empty and has no key twice; every key is lower case and starts
    with gpt- or o1; every record carries a numeric input and output
    strictly between 0 and 1000 and the upper-cased key as description. *)
Theorem parse_openai_pricing_result (tables : list Extract.Table)
    (pricing_dict : ProviderSnapshot) :
  Extract._parse_openai_pricing tables = Some pricing_dict ->
  pricing_dict <> []
  /\ Dict.unique pricing_dict
  /\ forall model_name r, In (model_name, r) pricing_dict ->
       is_model_key model_name
       /\ field r "description" = VStr (Text.upper model_name)
       /\ price_in_range (field r "input")
       /\ price_in_range (field r "output").
Proof.
  unfold Extract._parse_openai_pricing.
  pose proof (parse_tables_extracted tables) as [Hu Hall].
  revert Hu Hall.
  generalize (for_each tables
                (fun rows d => for_each rows Extract.parse_row d) ([] : ProviderSnapshot)).
  intros [|item d] Hu Hall; simpl; [discriminate|].
  intros H. inversion H; subst. split; [discriminate|]. split; [exact Hu|].
  intros k r Hin. destruct (Hall k r Hin) as [Hk Hr]. split; [exact Hk|].
  pose proof (extracted_record_valid Hr) as Hv.
  apply record_has_valid_pricing_iff in Hv.
  destruct Hr as (price0 & price1 & -> & _). split; [reflexivity | exact Hv].
Qed.

(** X1 on the page of the scenario. *)
Lemma parse_openai_pricing_result_witness :
  let pricing_dict : ProviderSnapshot :=
    [("gpt-4", [("input", VFloat (FNum 4 0)); ("output", VFloat (FNum 10 0));
                ("description", VStr "GPT-4")])] in
  Extract._parse_openai_pricing [[["GPT-4"; "$10.00"; "$30.00"]]] = Some pricing_dict
  /\ Dict.unique pricing_dict
  /\ is_model_key "gpt-4".
Proof.
  intros pricing_dict.
  assert (Hparse : Extract._parse_openai_pricing [[["GPT-4"; "$10.00"; "$30.00"]]]
                   = Some pricing_dict) by (vm_compute; reflexivity).
  destruct (parse_openai_pricing_result _ Hparse) as (_ & Hu & Hall).
  split; [exact Hparse|]. split; [exact Hu|].
  apply (Hall "gpt-4" [("input", VFloat (FNum 4 0)); ("output", VFloat (FNum 10 0));
                       ("description", VStr "GPT-4")]).
  left. reflexivity.
Defined.

Lemma parse_row_entry (cell_texts : Extract.Row) (d : ProviderSnapshot) :
  Extract.parse_row cell_texts d
  = match row_entry cell_texts with
    | Some (model_name, r) => Dict.set d model_name r
    | None => d
    end.
Proof.
  unfold Extract.parse_row, row_entry.
  destruct (3 <=? Z.of_nat (List.length cell_texts)); [|reflexivity].
  destruct (Extract.find_model_name cell_texts); [|reflexivity].
  destruct (Extract.collect_prices cell_texts) as [|price0 [|price1 rest]]; reflexivity.
Qed.

Lemma parse_rows_empty (rows : Extract.Table) (d : ProviderSnapshot) :
  for_each rows Extract.parse_row d = []
  <-> d = [] /\ forall row, In row rows -> row_entry row = None.
Proof.
  revert d. induction rows as [|row rows IH]; intros d.
  - simpl. split; [intros ->; split; [reflexivity | intros ? []] | tauto].
  - rewrite for_each_cons, IH, parse_row_entry. split.
    + intros [Hd Hrows]. destruct (row_entry row) as [[model_name r]|] eqn:E.
      * exfalso. exact (set_not_empty _ _ _ Hd).
      * split; [exact Hd|]. intros row' [<-|Hin]; [exact E | apply Hrows, Hin].
    + intros [-> Hrows]. rewrite (Hrows row) by (left; reflexivity).
      split; [reflexivity|]. intros row' Hin. apply Hrows. right. exact Hin.
Qed.

Lemma parse_tables_empty (tables : list Extract.Table) (d : ProviderSnapshot) :
  for_each tables (fun rows pricing_dict => for_each rows Extract.parse_row pricing_dict) d
  = []
  <-> d = [] /\ forall rows row, In rows tables -> In row rows -> row_entry row = None.
Proof.
  revert d. induction tables as [|rows tables IH]; intros d.
  - simpl. split; [intros ->; split; [reflexivity | intros ? ? []] | tauto].
  - rewrite for_each_cons, IH, parse_rows_empty. split.
    + intros [[-> Hrows] Htables]. split; [reflexivity|].
      intros rows' row [<-|Hin] Hrow; [apply Hrows, Hrow | exact (Htables _ _ Hin Hrow)].
    + intros [-> Hall]. split; [split; [reflexivity|]|].
      * intros row Hrow. apply (Hall rows row); [left; reflexivity | exact Hrow].
      * intros rows' row Hin Hrow. apply (Hall rows' row); [right|]; assumption.
Qed.

Lemma find_model_name_none (cell_texts : Extract.Row) :
  Extract.find_model_name cell_texts = None
  <-> forall cell, In cell cell_texts -> names_model cell = false.
Proof.
  unfold names_model. induction cell_texts as [|text rest IH]; simpl.
  - split; [intros _ ? [] | reflexivity].
  - destruct (Text.startswith "gpt-" (Text.lower text)
              || Text.startswith "o1" (Text.lower text)) eqn:E.
    + split; [discriminate|]. intros H. rewrite (H text) in E by (left; reflexivity).
      discriminate.
    + rewrite IH. split.
      * intros H cell [<-|Hin]; [exact E | apply H, Hin].
      * intros H cell Hin. apply H. right. exact Hin.
Qed.

(** The price loop keeps, in the order of the cells, the price of each
    cell that has one. *)
Lemma collect_prices_cells (cell_texts : Extract.Row) :
  Extract.collect_prices cell_texts
  = flat_map (fun cell => match cell_price cell with Some price => [price] | None => [] end)
      cell_texts.
Proof.
  unfold Extract.collect_prices.
  assert (H : forall prices : list pyfloat,
             for_each cell_texts
               (fun text (prices : list pyfloat) =>
                  match Extract.search_price (Text.chars text) with
                  | Some group =>
                      match Extract.py_float group with
                      | Some price =>
                          if in_price_range (number_of_float price)
                          then (prices ++ [price])%list else prices
                      | None => prices
                      end
                  | None => prices
                  end) prices
             = (prices
                ++ flat_map (fun cell => match cell_price cell with
                                         | Some price => [price]
                                         | None => []
                                         end) cell_texts)%list).
  { induction cell_texts as [|text rest IH]; intros prices.
    - simpl. rewrite app_nil_r. reflexivity.
    - rewrite for_each_cons, IH. simpl. unfold cell_price.
      destruct (Extract.search_price (Text.chars text)) as [group|]; [|reflexivity].
      destruct (Extract.py_float group) as [price|]; [|reflexivity].
      destruct (in_price_range (number_of_float price)); [|reflexivity].
      rewrite <- app_assoc. reflexivity. }
  apply (H []).
Qed.

Lemma collect_prices_length (cell_texts : Extract.Row) :
  List.length (Extract.collect_prices cell_texts) = List.length (filter priced cell_texts).
Proof.
  rewrite collect_prices_cells. unfold priced.
  induction cell_texts as [|text rest IH]; simpl; [reflexivity|].
  destruct (cell_price text); simpl; rewrite IH; reflexivity.
Qed.

(** A row gives no entry when it has fewer than three cells, when none of
    them names a model, or when fewer than two of them have a price. *)
Lemma row_entry_none (cell_texts : Extract.Row) :
  row_entry cell_texts = None
  <-> (List.length cell_texts < 3)%nat
      \/ (forall cell, In cell cell_texts -> names_model cell = false)
      \/ (List.length (filter priced cell_texts) < 2)%nat.
Proof.
  unfold row_entry. rewrite <- find_model_name_none, <- collect_prices_length.
  destruct (3 <=? Z.of_nat (List.length cell_texts)) eqn:E3.
  - apply Z.leb_le in E3.
    destruct (Extract.find_model_name cell_texts) as [model_name|].
    + destruct (Extract.collect_prices cell_texts) as [|price0 [|price1 rest]]; simpl.
      * split; [intros _; right; right; lia | reflexivity].
      * split; [intros _; right; right; lia | reflexivity].
      * split; [discriminate|]. intros [H|[H|H]]; [lia | discriminate | lia].
    + split; [intros _; right; left; reflexivity | reflexivity].
  - apply Z.leb_gt in E3. split; [intros _; left; lia | reflexivity].
Qed.

(** X2.  The OpenAI extractor reports no data exactly when no row of any
    table qualifies: a page without tables, or one in which every row has
    fewer than three cells, or no cell that starts with gpt- or o1 in any
    case, or fewer than two cells whose first run of digits and dots is
    read by [float] as a number in (0, 1000). *)
Theorem parse_openai_pricing_no_data (tables : list Extract.Table) :
  Extract._parse_openai_pricing tables = None
  <-> forall rows row, In rows tables -> In row rows ->
        (List.length row < 3)%nat
        \/ (forall cell, In cell row -> names_model cell = false)
        \/ (List.length (filter priced row) < 2)%nat.
Proof.
  unfold Extract._parse_openai_pricing.
  pose proof (parse_tables_empty tables []) as Hempty. revert Hempty.
  generalize (for_each tables
                (fun rows d => for_each rows Extract.parse_row d) ([] : ProviderSnapshot)).
  intros [|item d] Hempty; simpl.
  - split; [|reflexivity]. intros _ rows row Hrows Hrow.
    apply row_entry_none. exact (proj2 (proj1 Hempty eq_refl) rows row Hrows Hrow).
  - split; [discriminate|]. intros Hall.
    assert (H : item :: d = []).
    { apply Hempty. split; [reflexivity|]. intros rows row Hrows Hrow.
      apply row_entry_none. exact (Hall rows row Hrows Hrow). }
    discriminate.
Qed.

(** X3.  The last row decides: when a table ends with a row that qualifies,
    the record under its model name is the one of that row, whatever the
    rows before it held for that model. *)
Theorem parse_rows_last_row_wins (rows : Extract.Table) (row : Extract.Row)
    (d : ProviderSnapshot) (model_name : string) (r : PriceRecord) :
  row_entry row = Some (model_name, r) ->
  Dict.get (for_each (rows ++ [row]) Extract.parse_row d) model_name = Some r.
Proof.
  intros Hrow. unfold for_each. rewrite fold_left_app. simpl.
  rewrite parse_row_entry, Hrow, get_set, String.eqb_refl. reflexivity.
Qed.

(** X3 on a table that lists gpt-4 twice. *)
Lemma parse_rows_last_row_wins_witness :
  Dict.get
    (for_each ([["GPT-4"; "$10.00"; "$30.00"]] ++ [["gpt-4"; "$0.50"; "$1.50"]])
       Extract.parse_row [])
    "gpt-4"
  = Some [("input", VFloat (FNum 4 0)); ("output", VFloat (FNum 5 (-1)));
          ("description", VStr "GPT-4")].
Proof.
  apply (@parse_rows_last_row_wins [["GPT-4"; "$10.00"; "$30.00"]]
           ["gpt-4"; "$0.50"; "$1.50"] [] "gpt-4").
  vm_compute. reflexivity.
Defined.

(* ------------------------------------------------------------------ *)
(** ** The change list, rule by rule *)

Lemma for_each_append_if (A : Type) (c : A -> bool) (msg : A -> string)
    (xs : list A) (changes : list string) :
  for_each xs (fun x => append_if (c x) (msg x)) changes
  = (changes ++ map msg (filter c xs))%list.
Proof.
  revert changes. induction xs as [|x xs IH]; intros changes.
  - simpl. rewrite app_nil_r. reflexivity.
  - rewrite for_each_cons, IH. unfold append_if. simpl.
    destruct (c x); [rewrite <- app_assoc|]; reflexivity.
Qed.

Lemma for_each_appends (A : Type) (out : A -> list string)
    (body : A -> list string -> list string) (xs : list A) :
  (forall x changes, body x changes = (changes ++ out x)%list) ->
  forall changes, for_each xs body changes = (changes ++ flat_map out xs)%list.
Proof.
  intros Hbody. induction xs as [|x xs IH]; intros changes.
  - simpl. rewrite app_nil_r. reflexivity.
  - rewrite for_each_cons, IH, Hbody. simpl. rewrite <- app_assoc. reflexivity.
Qed.

Lemma compare_model_appends (provider : string) (old_provider_models : ProviderSnapshot)
    (item : string * PriceRecord) (changes : list string) :
  compare_model provider old_provider_models item changes
  = (changes ++ model_changes provider old_provider_models item)%list.
Proof.
  unfold model_changes, compare_model. destruct item as [model_name model_data].
  destruct (Dict.get old_provider_models model_name) as [old_model|]; [|reflexivity].
  unfold append_if.
  destruct (py_ne (field old_model "input") (field model_data "input"));
    destruct (py_ne (field old_model "output") (field model_data "output"));
    simpl; rewrite <- ?app_assoc, ?app_nil_r; reflexivity.
Qed.

Lemma compare_provider_appends (old_models : dict ProviderSnapshot)
    (item : string * ProviderSnapshot) (changes : list string) :
  compare_provider old_models item changes
  = (changes ++ provider_changes old_models item)%list.
Proof.
  unfold provider_changes, compare_provider. destruct item as [provider models].
  destruct (Dict.get old_models provider) as [old_provider_models|];
    [|rewrite app_nil_r; reflexivity].
  rewrite !for_each_append_if.
  rewrite !(for_each_appends (model_changes provider old_provider_models))
    by (intros; apply compare_model_appends).
  simpl. rewrite <- app_assoc. reflexivity.
Qed.

Lemma compare_models_parts (old_models new_models : dict ProviderSnapshot) :
  compare_models old_models new_models
  = (map (fun provider => ("New provider: " ++ provider)%string)
       (filter (fun provider => negb (Dict.mem provider old_models)) (Dict.keys new_models))
     ++ map (fun provider => ("Removed provider: " ++ provider)%string)
          (filter (fun provider => negb (Dict.mem provider new_models)) (Dict.keys old_models))
     ++ flat_map (provider_changes old_models) new_models)%list.
Proof.
  unfold compare_models. rewrite !for_each_append_if.
  rewrite (for_each_appends (provider_changes old_models))
    by (intros; apply compare_provider_appends).
  simpl. rewrite <- app_assoc. reflexivity.
Qed.

(** X4.  The change list is made of three parts in this order: one "New
    provider" line for each provider of the new mapping that the old one
    lacks, one "Removed provider" line for each provider of the old mapping
    that the new one lacks, then the changes inside the providers both
    have, provider by provider in the order of the new mapping. *)
Theorem compare_models_in_rule_order (old_models new_models : dict ProviderSnapshot) :
  compare_models old_models new_models
  = (map (fun provider => ("New provider: " ++ provider)%string)
       (filter (fun provider => negb (Dict.mem provider old_models)) (Dict.keys new_models))
     ++ map (fun provider => ("Removed provider: " ++ provider)%string)
          (filter (fun provider => negb (Dict.mem provider new_models)) (Dict.keys old_models))
     ++ flat_map (provider_changes old_models) new_models)%list.
Proof. exact (@compare_models_parts old_models new_models). Qed.

Lemma provider_changes_parts (old_models : dict ProviderSnapshot)
    (provider : string) (models : ProviderSnapshot) :
  provider_changes old_models (provider, models)
  = match Dict.get old_models provider with
    | None => []
    | Some old_provider_models =>
        (flat_map (model_changes provider old_provider_models) models
         ++ map (fun model_name =>
                   ("Removed model: " ++ provider ++ "/" ++ model_name)%string)
              (filter (fun model_name => negb (Dict.mem model_name models))
                 (Dict.keys old_provider_models)))%list
    end.
Proof.
  unfold provider_changes, compare_provider.
  destruct (Dict.get old_models provider) as [old_provider_models|]; [|reflexivity].
  rewrite for_each_append_if.
  rewrite (for_each_appends (model_changes provider old_provider_models))
    by (intros; apply compare_model_appends).
  reflexivity.
Qed.

(** X5.  Inside a provider that both mappings have, the lines come in this
    order: for each model of the new snapshot, in its order, either "New
    model" or the price changes (input before output); then one "Removed
    model" line for each model of the old snapshot that the new one lacks.
    A provider that the old mapping lacks contributes no model lines. *)
Theorem provider_changes_in_rule_order (old_models : dict ProviderSnapshot)
    (provider : string) (models : ProviderSnapshot) :
  provider_changes old_models (provider, models)
  = match Dict.get old_models provider with
    | None => []
    | Some old_provider_models =>
        (flat_map (model_changes provider old_provider_models) models
         ++ map (fun model_name =>
                   ("Removed model: " ++ provider ++ "/" ++ model_name)%string)
              (filter (fun model_name => negb (Dict.mem model_name models))
                 (Dict.keys old_provider_models)))%list
    end.
Proof. exact (@provider_changes_parts old_models provider models). Qed.

Lemma compare_pricing_flag_length (old : option PricingDocument) (new : PricingDocument) :
  fst (compare_pricing old new) = true <-> snd (compare_pricing old new) <> [].
Proof.
  rewrite compare_pricing_unfold. destruct (truthy document_truthy old); simpl.
  - destruct (compare_models (models_of old) (get_models new)); simpl.
    + split; [discriminate | intros H; contradiction H; reflexivity].
    + split; [discriminate | reflexivity].
  - split; [discriminate | reflexivity].
Qed.

(** X6.  The flag that [compare_pricing] returns is true exactly when its
    change list is not empty, with or without an old document. *)
Theorem compare_pricing_flag (old : option PricingDocument) (new : PricingDocument) :
  fst (compare_pricing old new) = true <-> snd (compare_pricing old new) <> [].
Proof. exact (@compare_pricing_flag_length old new). Qed.

Section MoreDictFacts.
Variable V : Type.
Implicit Types (d : dict V) (k : string) (v : V).

Lemma mem_true_key d k : Dict.mem k d = true -> In k (Dict.keys d).
Proof.
  unfold Dict.mem. induction d as [|[k' v'] d IH]; simpl; [discriminate|].
  destruct (String.eqb k k') eqn:E.
  - apply String.eqb_eq in E. intros _. left. symmetry. exact E.
  - intros H. right. apply IH, H.
Qed.

Lemma item_key d k v : In (k, v) d -> In k (Dict.keys d).
Proof. intros H. change k with (fst (k, v)). apply in_map, H. Qed.

Lemma get_some_mem d k v : Dict.get d k = Some v -> Dict.mem k d = true.
Proof. unfold Dict.mem. intros ->. reflexivity. Qed.

Lemma get_none_mem d k : Dict.get d k = None -> Dict.mem k d = false.
Proof. unfold Dict.mem. intros ->. reflexivity. Qed.
End MoreDictFacts.

Lemma compare_pricing_present (old new : PricingDocument) :
  document_truthy old = true ->
  snd (compare_pricing (Some old) new) = compare_models (get_models old) (get_models new).
Proof.
  intros H. rewrite compare_pricing_unfold. unfold truthy, if_true. rewrite H. reflexivity.
Qed.

(** X7.  Against an old document that is not empty, every provider that
    only the new document has is reported as new, and every provider that
    only the old document has is reported as removed. *)
Theorem compare_pricing_reports_providers (old new : PricingDocument) (provider : string) :
  document_truthy old = true ->
  (In provider (Dict.keys (get_models new)) ->
   Dict.mem provider (get_models old) = false ->
   In ("New provider: " ++ provider) (snd (compare_pricing (Some old) new)))
  /\ (In provider (Dict.keys (get_models old)) ->
      Dict.mem provider (get_models new) = false ->
      In ("Removed provider: " ++ provider) (snd (compare_pricing (Some old) new))).
Proof.
  intros Hold. rewrite (@compare_pricing_present old new Hold), compare_models_parts.
  split; intros Hkey Hmem.
  - apply in_or_app. left.
    apply (in_map (fun p => "New provider: " ++ p)), filter_In.
    rewrite Hmem. auto.
  - apply in_or_app. right. apply in_or_app. left.
    apply (in_map (fun p => "Removed provider: " ++ p)), filter_In.
    rewrite Hmem. auto.
Qed.

(** X7 on an old document with openai only and a new one with anthropic
    only. *)
Lemma compare_pricing_reports_providers_witness :
  In "New provider: anthropic"
    (snd (compare_pricing (Some (Scenario.document "t" [("openai", [])]))
            (Scenario.document "t" [("anthropic", [])])))
  /\ In "Removed provider: openai"
       (snd (compare_pricing (Some (Scenario.document "t" [("openai", [])]))
               (Scenario.document "t" [("anthropic", [])]))).
Proof.
  split.
  - apply (@compare_pricing_reports_providers
             (Scenario.document "t" [("openai", [])])
             (Scenario.document "t" [("anthropic", [])]) "anthropic" eq_refl);
      [left|]; reflexivity.
  - apply (@compare_pricing_reports_providers
             (Scenario.document "t" [("openai", [])])
             (Scenario.document "t" [("anthropic", [])]) "openai" eq_refl);
      [left|]; reflexivity.
Defined.

Lemma provider_changes_included (old_models new_models : dict ProviderSnapshot)
    (item : string * ProviderSnapshot) (line : string) :
  In item new_models -> In line (provider_changes old_models item) ->
  In line (compare_models old_models new_models).
Proof.
  intros Hitem Hline. rewrite compare_models_parts.
  apply in_or_app. right. apply in_or_app. right.
  apply in_flat_map. exists item. auto.
Qed.

(** X8.  For a provider that both documents have: a model that only the
    new snapshot has is reported as new, a model that only the old snapshot
    has as removed, and a model of both whose input (output) prices are
    unequal gets a price-change line that names the old and the new
    price. *)
Theorem compare_pricing_reports_models (old new : PricingDocument) (provider : string)
    (old_provider_models models : ProviderSnapshot) :
  document_truthy old = true ->
  Dict.get (get_models old) provider = Some old_provider_models ->
  In (provider, models) (get_models new) ->
  let changes := snd (compare_pricing (Some old) new) in
  (forall model_name model_data,
      In (model_name, model_data) models ->
      Dict.get old_provider_models model_name = None ->
      In ("New model: " ++ provider ++ "/" ++ model_name) changes)
  /\ (forall model_name,
        In model_name (Dict.keys old_provider_models) ->
        Dict.mem model_name models = false ->
        In ("Removed model: " ++ provider ++ "/" ++ model_name) changes)
  /\ (forall model_name model_data old_model key,
        In (model_name, model_data) models ->
        Dict.get old_provider_models model_name = Some old_model ->
        key = "input" \/ key = "output" ->
        py_ne (field old_model key) (field model_data key) = true ->
        In ("Price change: " ++ provider ++ "/" ++ model_name ++ " " ++ key ++ " "
            ++ "$" ++ py_str (field old_model key) ++ " → $"
            ++ py_str (field model_data key)) changes).
Proof.
  intros Hold Hget Hin changes. subst changes.
  pose proof (fun line => @provider_changes_included (get_models old) (get_models new)
                            (provider, models) line Hin) as Hpart.
  rewrite (@compare_pricing_present old new Hold).
  rewrite provider_changes_parts, Hget in Hpart.
  split; [|split].
  - intros model_name model_data Hmodel Hnone. apply Hpart, in_or_app. left.
    apply in_flat_map. exists (model_name, model_data). split; [exact Hmodel|].
    unfold model_changes, compare_model. rewrite Hnone. left. reflexivity.
  - intros model_name Hkey Hmem. apply Hpart, in_or_app. right.
    apply (in_map (fun m => "Removed model: " ++ provider ++ "/" ++ m)), filter_In.
    rewrite Hmem. auto.
  - intros model_name model_data old_model key Hmodel Hsome Hkey Hne.
    apply Hpart, in_or_app. left.
    apply in_flat_map. exists (model_name, model_data). split; [exact Hmodel|].
    unfold model_changes, compare_model. rewrite Hsome.
    destruct Hkey as [-> | ->]; unfold append_if at 1 || unfold append_if.
    + rewrite Hne. unfold append_if.
      destruct (py_ne (field old_model "output") (field model_data "output"));
        simpl; auto.
    + rewrite Hne. destruct (py_ne (field old_model "input") (field model_data "input"));
        simpl; auto.
Qed.

(** X8 on the documents of the scenario: the output price of gpt-4. *)
Lemma compare_pricing_reports_models_witness :
  In "Price change: openai/gpt-4 output $30 → $25"
    (snd (compare_pricing (Some Scenario.old_doc) Scenario.new_doc)).
Proof.
  apply (proj2 (proj2
    (@compare_pricing_reports_models Scenario.old_doc Scenario.new_doc "openai"
       [("gpt-4", Scenario.record (VInt 10) (VInt 30))]
       [("gpt-4", Scenario.record (VInt 10) (VInt 25))]
       eq_refl eq_refl (or_introl eq_refl)))
    "gpt-4" (Scenario.record (VInt 10) (VInt 25)) (Scenario.record (VInt 10) (VInt 30))
    "output" (or_introl eq_refl) eq_refl (or_intror eq_refl) eq_refl).
Defined.

Lemma filter_nil_all (A : Type) (c : A -> bool) (xs : list A) :
  filter c xs = [] -> forall x, In x xs -> c x = false.
Proof.
  intros Hnil x Hx. destruct (c x) eqn:E; [|reflexivity].
  assert (H : In x (filter c xs)) by (apply filter_In; auto).
  rewrite Hnil in H. contradiction.
Qed.

(** X9.  When an old document that is not empty and a new one compare as
    unchanged, they have the same providers; each provider has the same
    models on both sides; and each model has equal input prices and equal
    output prices on both sides. *)
Theorem compare_pricing_unchanged (old new : PricingDocument) :
  document_truthy old = true ->
  fst (compare_pricing (Some old) new) = false ->
  (forall provider,
      Dict.mem provider (get_models old) = Dict.mem provider (get_models new))
  /\ (forall provider old_provider_models models,
        Dict.get (get_models old) provider = Some old_provider_models ->
        In (provider, models) (get_models new) ->
        (forall model_name,
            Dict.mem model_name old_provider_models = Dict.mem model_name models)
        /\ (forall model_name model_data,
              In (model_name, model_data) models ->
              exists old_model,
                Dict.get old_provider_models model_name = Some old_model
                /\ py_eq (field old_model "input") (field model_data "input") = true
                /\ py_eq (field old_model "output") (field model_data "output") = true)).
Proof.
  intros Hold Hflag.
  assert (Hnil : compare_models (get_models old) (get_models new) = []).
  { rewrite <- (@compare_pricing_present old new Hold).
    destruct (snd (compare_pricing (Some old) new)) eqn:E; [reflexivity|].
    assert (H : fst (compare_pricing (Some old) new) = true)
      by (apply compare_pricing_flag_length; rewrite E; discriminate).
    congruence. }
  rewrite compare_models_parts in Hnil.
  apply app_eq_nil in Hnil as [Hnew Hrest]. apply app_eq_nil in Hrest as [Hremoved Hin].
  apply map_eq_nil in Hnew, Hremoved.
  assert (Hmem : forall (U W : Type) (a : dict U) (b : dict W),
             filter (fun k => negb (Dict.mem k b)) (Dict.keys a) = [] ->
             filter (fun k => negb (Dict.mem k a)) (Dict.keys b) = [] ->
             forall k, Dict.mem k a = Dict.mem k b).
  { intros U W a b Hab Hba k.
    destruct (Dict.mem k a) eqn:Ea, (Dict.mem k b) eqn:Eb; try reflexivity.
    - apply mem_true_key in Ea. apply (filter_nil_all _ _ Hab) in Ea.
      rewrite Eb in Ea. discriminate.
    - apply mem_true_key in Eb. apply (filter_nil_all _ _ Hba) in Eb.
      rewrite Ea in Eb. discriminate. }
  split; [apply Hmem; assumption|].
  intros provider old_provider_models models Hget Hitem.
  assert (Hprov : provider_changes (get_models old) (provider, models) = []).
  { destruct (provider_changes (get_models old) (provider, models)) as [|line rest] eqn:E;
      [reflexivity|].
    assert (H : In line (flat_map (provider_changes (get_models old)) (get_models new))).
    { apply in_flat_map. exists (provider, models). rewrite E. split; [exact Hitem | left; reflexivity]. }
    rewrite Hin in H. contradiction. }
  rewrite provider_changes_parts, Hget in Hprov.
  apply app_eq_nil in Hprov as [Hmodels Hgone]. apply map_eq_nil in Hgone.
  assert (Heach : forall model_name model_data,
             In (model_name, model_data) models ->
             model_changes provider old_provider_models (model_name, model_data) = []).
  { intros model_name model_data Hmodel.
    destruct (model_changes provider old_provider_models (model_name, model_data))
      as [|line rest] eqn:E; [reflexivity|].
    assert (H : In line (flat_map (model_changes provider old_provider_models) models)).
    { apply in_flat_map. exists (model_name, model_data). rewrite E.
      split; [exact Hmodel | left; reflexivity]. }
    rewrite Hmodels in H. contradiction. }
  assert (Hfound : forall model_name model_data,
             In (model_name, model_data) models ->
             exists old_model,
               Dict.get old_provider_models model_name = Some old_model
               /\ py_eq (field old_model "input") (field model_data "input") = true
               /\ py_eq (field old_model "output") (field model_data "output") = true).
  { intros model_name model_data Hmodel. pose proof (Heach _ _ Hmodel) as Hno.
    unfold model_changes, compare_model in Hno.
    destruct (Dict.get old_provider_models model_name) as [old_model|]; [|discriminate].
    exists old_model. split; [reflexivity|]. unfold append_if, py_ne in Hno.
    destruct (py_eq (field old_model "input") (field model_data "input"));
      destruct (py_eq (field old_model "output") (field model_data "output"));
      simpl in Hno; try discriminate. auto. }
  split; [|exact Hfound].
  intros model_name.
  destruct (Dict.mem model_name old_provider_models) eqn:Eo,
    (Dict.mem model_name models) eqn:En; try reflexivity.
  - apply mem_true_key in Eo. apply (filter_nil_all _ _ Hgone) in Eo.
    rewrite En in Eo. discriminate.
  - apply mem_true_key in En. apply in_map_iff in En as ([k data] & Hk & Hitem').
    simpl in Hk. subst k. destruct (Hfound _ _ Hitem') as (old_model & Hsome & _).
    apply get_some_mem in Hsome. congruence.
Qed.

(** X9 on the old document of the scenario against itself. *)
Lemma compare_pricing_unchanged_witness :
  exists old_model,
    Dict.get [("gpt-4", Scenario.record (VInt 10) (VInt 30))] "gpt-4" = Some old_model
    /\ py_eq (field old_model "input") (field (Scenario.record (VInt 10) (VInt 30)) "input")
       = true
    /\ py_eq (field old_model "output") (field (Scenario.record (VInt 10) (VInt 30)) "output")
       = true.
Proof.
  apply (proj2 (proj2 (@compare_pricing_unchanged Scenario.old_doc Scenario.old_doc
                         eq_refl eq_refl)
                  "openai" [("gpt-4", Scenario.record (VInt 10) (VInt 30))]
                  [("gpt-4", Scenario.record (VInt 10) (VInt 30))]
                  eq_refl (or_introl eq_refl))
           "gpt-4" (Scenario.record (VInt 10) (VInt 30)) (or_introl eq_refl)).
Defined.

(* ------------------------------------------------------------------ *)
(** ** The merge and the runs *)

Lemma merge_provider_set (key : string) (pricing : option ProviderSnapshot)
    (existing_pricing : option PricingDocument) (new_models : dict ProviderSnapshot) :
  merge_provider key pricing existing_pricing new_models
  = match merged key pricing existing_pricing with
    | Some s => Dict.set new_models key s
    | None => new_models
    end.
Proof.
  unfold merge_provider, merged.
  destruct (if_true (@Dict.truthy _) pricing); [reflexivity|].
  destruct (if_true document_truthy existing_pricing); reflexivity.
Qed.

Lemma new_document_parts (w : World) (openai_url : string)
    (openai_pricing anthropic_pricing : option ProviderSnapshot)
    (existing_pricing : option PricingDocument) :
  let new_pricing :=
    new_document w openai_url openai_pricing anthropic_pricing existing_pricing in
  (forall provider,
      Dict.get (get_models new_pricing) provider
      = if String.eqb provider "openai" then merged "openai" openai_pricing existing_pricing
        else if String.eqb provider "anthropic"
             then merged "anthropic" anthropic_pricing existing_pricing
             else None)
  /\ Dict.unique (get_models new_pricing)
  /\ (exists rest, Dict.keys (get_models new_pricing) = rest
                   /\ (rest = [] \/ rest = ["openai"] \/ rest = ["anthropic"]
                       \/ rest = ["openai"; "anthropic"]))
  /\ last_updated new_pricing = Some (now w)
  /\ sources new_pricing
     = Some [("openai", openai_url);
             ("anthropic", "https://docs.anthropic.com/en/docs/about-claude/models")]
  /\ (forall file,
        sources (script_new_pricing w file)
        = Some [("openai", "https://platform.openai.com/docs/pricing");
                ("anthropic", "https://docs.anthropic.com/en/docs/about-claude/models")])
  /\ (forall file,
        sources (scripts_new_pricing w file)
        = Some [("openai", "https://openai.com/api/pricing/");
                ("anthropic", "https://docs.anthropic.com/en/docs/about-claude/models")]).
Proof.
  intros new_pricing. subst new_pricing. unfold new_document, get_models. simpl.
  rewrite !merge_provider_set.
  destruct (merged "openai" openai_pricing existing_pricing) as [o|],
    (merged "anthropic" anthropic_pricing existing_pricing) as [a|]; simpl.
  all: split; [intros provider; simpl;
               destruct (String.eqb provider "openai") eqn:Eo;
               [apply String.eqb_eq in Eo; subst provider; reflexivity|];
               simpl; try rewrite Eo;
               destruct (String.eqb provider "anthropic"); reflexivity|].
  all: split; [unfold Dict.unique; simpl;
               repeat (constructor; [simpl; intuition discriminate|]); constructor|].
  all: split; [eexists; split; [reflexivity|]; simpl; auto|].
  all: repeat (split; [reflexivity|]).
  all: split; intros file; reflexivity.
Qed.

(** X10.  The document that a run builds holds, for openai and for
    anthropic, the fetched snapshot when the fetch gave one, else the
    snapshot that the existing document has for that provider, else
    nothing; it holds no other provider, and openai comes before
    anthropic.  Its time stamp is the clock's, and its sources are the
    OpenAI page of the script (platform.openai.com/docs/pricing in
    script/, openai.com/api/pricing/ in scripts/) and the Anthropic models
    page, in this order. *)
Theorem new_document_merge (w : World) (openai_url : string)
    (openai_pricing anthropic_pricing : option ProviderSnapshot)
    (existing_pricing : option PricingDocument) :
  let new_pricing :=
    new_document w openai_url openai_pricing anthropic_pricing existing_pricing in
  (forall provider,
      Dict.get (get_models new_pricing) provider
      = if String.eqb provider "openai" then merged "openai" openai_pricing existing_pricing
        else if String.eqb provider "anthropic"
             then merged "anthropic" anthropic_pricing existing_pricing
             else None)
  /\ Dict.unique (get_models new_pricing)
  /\ (exists rest, Dict.keys (get_models new_pricing) = rest
                   /\ (rest = [] \/ rest = ["openai"] \/ rest = ["anthropic"]
                       \/ rest = ["openai"; "anthropic"]))
  /\ last_updated new_pricing = Some (now w)
  /\ sources new_pricing
     = Some [("openai", openai_url);
             ("anthropic", "https://docs.anthropic.com/en/docs/about-claude/models")]
  /\ (forall file,
        sources (script_new_pricing w file)
        = Some [("openai", "https://platform.openai.com/docs/pricing");
                ("anthropic", "https://docs.anthropic.com/en/docs/about-claude/models")])
  /\ (forall file,
        sources (scripts_new_pricing w file)
        = Some [("openai", "https://openai.com/api/pricing/");
                ("anthropic", "https://docs.anthropic.com/en/docs/about-claude/models")]).
Proof. exact (@new_document_parts w openai_url openai_pricing anthropic_pricing existing_pricing). Qed.

Lemma script_main_with_data (w : World) (file : option string) :
  script_no_data w file = false ->
  Script.main w file
  = let new_pricing := script_new_pricing w file in
    if fst (compare_pricing (load_existing_pricing w file) new_pricing) then
      if force w || match input w with Some response => says_yes response | None => false end
      then save_and_return w new_pricing else (Return 0, file)
    else if force w then save_and_return w new_pricing else (Return 0, file).
Proof.
  unfold script_no_data, no_usable_data, script_new_pricing, Script.main.
  destruct (Script.usable w file) as [openai_pricing anthropic_pricing]. simpl fst. simpl snd.
  intros ->. cbv zeta.
  destruct (compare_pricing _ _) as [has_changes changes]. simpl fst.
  destruct has_changes, (force w); reflexivity.
Qed.

Lemma scripts_main_with_data (w : World) (file : option string) :
  scripts_no_data w = false ->
  Scripts.main w file
  = let new_pricing := scripts_new_pricing w file in
    if fst (compare_pricing (load_existing_pricing w file) new_pricing) then
      if force w then save_and_return w new_pricing
      else match input w with
           | Some _ => save_and_return w new_pricing
           | None => (Uncaught, file)
           end
    else if force w then save_and_return w new_pricing else (Return 0, file).
Proof.
  unfold scripts_no_data, no_usable_data, scripts_new_pricing, Scripts.main.
  intros ->. cbv zeta.
  destruct (compare_pricing _ _) as [has_changes changes]. simpl fst.
  destruct has_changes, (force w); try reflexivity.
  destruct (input w); [rewrite orb_true_r|]; reflexivity.
Qed.

(** X11.  With the force flag, a run that has usable data from at least one
    provider writes the merged document, changes or not, without reading
    the console; it returns 0 when the write succeeds and 1 when it
    fails.  This holds for both scripts. *)
Theorem main_forced_saves (w : World) (file : option string) :
  force w = true ->
  (script_no_data w file = false ->
     Script.main w file = save_and_return w (script_new_pricing w file))
  /\ (scripts_no_data w = false ->
        Scripts.main w file = save_and_return w (scripts_new_pricing w file)).
Proof.
  intros Hforce. split; intros Hdata.
  - rewrite (@script_main_with_data w file Hdata). cbv zeta. rewrite Hforce. simpl.
    destruct (fst _); reflexivity.
  - rewrite (@scripts_main_with_data w file Hdata). cbv zeta. rewrite Hforce.
    destruct (fst _); reflexivity.
Qed.

(** X11 on the forced run whose write fails. *)
Lemma main_forced_saves_witness :
  Script.main Runs.disk_full None = (Return 1, Some "")
  /\ Scripts.main Runs.disk_full None = (Return 1, Some "").
Proof.
  destruct (@main_forced_saves Runs.disk_full None eq_refl) as [Hscript Hscripts].
  split; [rewrite Hscript | rewrite Hscripts]; reflexivity.
Defined.

Lemma main_without_changes (w : World) (file : option string) :
  force w = false ->
  (script_no_data w file = false ->
   fst (compare_pricing (load_existing_pricing w file) (script_new_pricing w file)) = false ->
   Script.main w file = (Return 0, file))
  /\ (scripts_no_data w = false ->
      fst (compare_pricing (load_existing_pricing w file) (scripts_new_pricing w file)) = false ->
      Scripts.main w file = (Return 0, file)).
Proof.
  intros Hforce. split; intros Hdata Hsame.
  - rewrite (@script_main_with_data w file Hdata). cbv zeta. rewrite Hsame, Hforce. reflexivity.
  - rewrite (@scripts_main_with_data w file Hdata). cbv zeta. rewrite Hsame, Hforce. reflexivity.
Qed.

(** X12.  Without the force flag, a run whose comparison finds no change
    returns 0 and leaves the file as it was, in both scripts. *)
Theorem main_unchanged_no_write (w : World) (file : option string) :
  force w = false ->
  (script_no_data w file = false ->
   fst (compare_pricing (load_existing_pricing w file) (script_new_pricing w file)) = false ->
   Script.main w file = (Return 0, file))
  /\ (scripts_no_data w = false ->
      fst (compare_pricing (load_existing_pricing w file) (scripts_new_pricing w file)) = false ->
      Scripts.main w file = (Return 0, file)).
Proof. exact (@main_without_changes w file). Qed.

(** X13.  Whatever happens, the file after a run is the file as it was, or
    the dump of the merged document after a write that succeeded, or what
    a failed write left; nothing else is ever written.  This holds for
    both scripts. *)
Theorem main_file_after (w : World) (file : option string) :
  let written (new_pricing : PricingDocument) (after : option string) :=
    after = file
    \/ (write_succeeds w = true /\ after = Some (json_dump w new_pricing))
    \/ (write_succeeds w = false /\ after = file_after_failed_write w) in
  written (script_new_pricing w file) (snd (Script.main w file))
  /\ written (scripts_new_pricing w file) (snd (Scripts.main w file)).
Proof.
  cbv zeta.
  assert (Hsave : forall d,
             (write_succeeds w = true /\ snd (save_and_return w d) = Some (json_dump w d))
             \/ (write_succeeds w = false
                 /\ snd (save_and_return w d) = file_after_failed_write w)).
  { intros d. unfold save_and_return, save_pricing.
    destruct (write_succeeds w); simpl; auto. }
  split.
  - destruct (script_no_data w file) eqn:Hdata.
    + rewrite (proj1 (main_without_data w file) Hdata). left. reflexivity.
    + rewrite (@script_main_with_data w file Hdata). cbv zeta.
      destruct (fst _), (force w); simpl; auto.
      destruct (input w) as [response|]; [destruct (says_yes response)|]; auto.
  - destruct (scripts_no_data w) eqn:Hdata.
    + rewrite (proj2 (main_without_data w file) Hdata). left. reflexivity.
    + rewrite (@scripts_main_with_data w file Hdata). cbv zeta.
      destruct (fst _), (force w); simpl; auto.
      destruct (input w); auto.
Qed.

(** X14.  script/fetch_pricing.py writes only with consent: when the file
    after a run differs from the file before it, the run was forced or
    the console gave an answer that reads "y" once stripped and
    lower-cased; a missing answer (end of input, interrupt) counts as
    no. *)
Theorem script_main_write_needs_consent (w : World) (file : option string) :
  snd (Script.main w file) <> file ->
  force w = true
  \/ exists response, input w = Some response /\ says_yes response = true.
Proof.
  intros Hwritten. destruct (force w) eqn:Hforce; [left; reflexivity|]. right.
  destruct (input w) as [response|] eqn:Hinput.
  - destruct (says_yes response) eqn:Hyes; [exists response; auto|].
    exfalso. apply Hwritten. apply script_main_asks_before_saving; [exact Hforce|].
    intros r Hr. congruence.
  - exfalso. apply Hwritten. apply script_main_asks_before_saving; [exact Hforce|].
    intros r Hr. congruence.
Qed.

(** X14 on the run of the price change, answered " Y". *)
Lemma script_main_write_needs_consent_witness :
  let w := {| force := false;
              fetch_openai_pricing := Some Runs.three_models;
              fetch_anthropic_pricing := None;
              input := Some " Y"; now := "2025-06-01T00:00:00+00:00";
              json_load := Runs.load; json_dump := Runs.render;
              write_succeeds := true; file_after_failed_write := None |} in
  force w = true \/ exists response, input w = Some response /\ says_yes response = true.
Proof.
  intros w. apply (@script_main_write_needs_consent w (Some Runs.old_text)).
  vm_compute. discriminate.
Defined.

(** X12 on a run that fetches what the file already holds. *)
Lemma main_unchanged_no_write_witness :
  let w := {| force := false;
              fetch_openai_pricing := Some [("gpt-4", Scenario.record (VInt 10) (VInt 30))];
              fetch_anthropic_pricing := None;
              input := None; now := "2025-06-01T00:00:00+00:00";
              json_load := Runs.load; json_dump := Runs.render;
              write_succeeds := true; file_after_failed_write := None |} in
  Scripts.main w (Some Runs.old_text) = (Return 0, Some Runs.old_text).
Proof.
  intros w.
  apply (proj2 (@main_unchanged_no_write w (Some Runs.old_text) eq_refl));
    vm_compute; reflexivity.
Defined.

(** The validator's answer does not depend on the label nor on the count
    of existing models: these only feed its messages. *)
Lemma validate_pricing_data_label (s : ProviderSnapshot) (provider provider' : string)
    (existing_count existing_count' : Z) :
  validate_pricing_data s provider existing_count
  = validate_pricing_data s provider' existing_count'.
Proof.
  destruct (validate_pricing_data s provider existing_count) eqn:E,
    (validate_pricing_data s provider' existing_count') eqn:E'; try reflexivity.
  - apply validate_pricing_data_spec in E.
    apply (validate_pricing_data_spec s provider' existing_count') in E. congruence.
  - apply validate_pricing_data_spec in E'.
    apply (validate_pricing_data_spec s provider existing_count) in E'. congruence.
Qed.

Lemma merged_validated (label key key' : string) (existing_models : dict ProviderSnapshot)
    (pricing : option ProviderSnapshot) (existing_pricing : option PricingDocument) :
  merged key' (Script.validated label key existing_models pricing) existing_pricing
  = merged key' (accepted label pricing) existing_pricing.
Proof.
  unfold merged, Script.validated, accepted, if_true.
  destruct pricing as [[|item s]|]; simpl; try reflexivity.
  rewrite (validate_pricing_data_label (item :: s) label label
             (Dict.len (Dict.get_or existing_models key [])) 0).
  destruct (validate_pricing_data (item :: s) label 0); reflexivity.
Qed.

Lemma script_new_pricing_merged (w : World) (file : option string) :
  Dict.get (get_models (script_new_pricing w file)) "openai"
  = merged "openai" (accepted "OpenAI" (fetch_openai_pricing w))
      (load_existing_pricing w file)
  /\ Dict.get (get_models (script_new_pricing w file)) "anthropic"
     = merged "anthropic" (accepted "Anthropic" (fetch_anthropic_pricing w))
         (load_existing_pricing w file).
Proof.
  unfold script_new_pricing.
  destruct (new_document_parts w "https://platform.openai.com/docs/pricing"
              (fst (Script.usable w file)) (snd (Script.usable w file))
              (load_existing_pricing w file)) as [Hget _].
  rewrite (Hget "openai"), (Hget "anthropic"). simpl.
  unfold Script.usable. simpl. rewrite !merged_validated. split; reflexivity.
Qed.

(** X15.  In script/fetch_pricing.py data that the validator rejects never
    reaches the document: for each provider the document holds the fetched
    snapshot only if the validator accepts it, and otherwise what the
    existing document has for that provider, whatever the number of models
    that document had. *)
Theorem script_new_pricing_validated (w : World) (file : option string) :
  Dict.get (get_models (script_new_pricing w file)) "openai"
  = merged "openai" (accepted "OpenAI" (fetch_openai_pricing w))
      (load_existing_pricing w file)
  /\ Dict.get (get_models (script_new_pricing w file)) "anthropic"
     = merged "anthropic" (accepted "Anthropic" (fetch_anthropic_pricing w))
         (load_existing_pricing w file).
Proof. exact (@script_new_pricing_merged w file). Qed.

Lemma new_document_models (w : World) (url : string)
    (openai_pricing anthropic_pricing : option ProviderSnapshot)
    (existing_pricing : option PricingDocument) :
  get_models (new_document w url openai_pricing anthropic_pricing existing_pricing)
  = let with_openai :=
      match merged "openai" openai_pricing existing_pricing with
      | Some s => [("openai", s)]
      | None => []
      end in
    match merged "anthropic" anthropic_pricing existing_pricing with
    | Some s => Dict.set with_openai "anthropic" s
    | None => with_openai
    end.
Proof.
  unfold new_document, get_models. simpl. rewrite !merge_provider_set.
  destruct (merged "openai" openai_pricing existing_pricing); reflexivity.
Qed.

Section SortedDicts.
Variable V : Type.
Implicit Types (d : dict V) (k : string) (v : V).

Lemma leb_false_neq (k k' : string) : String.leb k k' = false -> k <> k'.
Proof.
  intros H ->. destruct (String.leb_total k' k') as [E|E]; rewrite E in H; discriminate.
Qed.

Lemma get_insert_by_key d k k' v :
  Dict.get (insert_by_key (k, v) d) k'
  = if String.eqb k' k then Some v else Dict.get d k'.
Proof.
  induction d as [|[k1 v1] d IH]; simpl; [reflexivity|].
  destruct (String.leb k k1) eqn:E; simpl; [reflexivity|].
  rewrite IH. apply leb_false_neq in E.
  destruct (String.eqb k' k1) eqn:E1; [|reflexivity].
  destruct (String.eqb k' k) eqn:E2; [|reflexivity].
  apply String.eqb_eq in E1, E2. congruence.
Qed.

(** Sorting the items by key changes no lookup. *)
Lemma get_sort_by_key d k : Dict.get (sort_by_key d) k = Dict.get d k.
Proof.
  induction d as [|[k0 v0] d IH]; simpl; [reflexivity|].
  rewrite get_insert_by_key, IH. reflexivity.
Qed.

Lemma in_insert_by_key d (item item' : string * V) :
  In item' (insert_by_key item d) <-> item' = item \/ In item' d.
Proof.
  induction d as [|item1 d IH]; simpl.
  - intuition.
  - destruct (String.leb (fst item) (fst item1)); simpl; [intuition|].
    rewrite IH. intuition.
Qed.

Lemma in_sort_by_key d (item : string * V) : In item (sort_by_key d) <-> In item d.
Proof.
  induction d as [|item0 d IH]; simpl; [tauto|].
  rewrite in_insert_by_key, IH. intuition.
Qed.

Lemma get_some_in d k v : Dict.get d k = Some v -> In (k, v) d.
Proof.
  induction d as [|[k0 v0] d IH]; simpl; [discriminate|].
  destruct (String.eqb k k0) eqn:E.
  - apply String.eqb_eq in E. intros H. inversion H; subst. left. reflexivity.
  - intros H. right. apply IH, H.
Qed.

Lemma get_map_values (W : Type) (f : V -> W) d k :
  Dict.get (map (fun item => (fst item, f (snd item))) d) k = option_map f (Dict.get d k).
Proof.
  induction d as [|[k0 v0] d IH]; simpl; [reflexivity|].
  destruct (String.eqb k k0); [reflexivity | exact IH].
Qed.
End SortedDicts.

Lemma field_sort_by_key (r : PriceRecord) (key : string) :
  field (sort_by_key r) key = field r key.
Proof. unfold field, Dict.get_or. rewrite get_sort_by_key. reflexivity. Qed.

Lemma get_sort_snapshot (s : ProviderSnapshot) (k : string) :
  Dict.get (sort_snapshot s) k = option_map (@sort_by_key pyval) (Dict.get s k).
Proof. unfold sort_snapshot. rewrite get_sort_by_key. apply get_map_values. Qed.

Lemma get_sort_models (m : dict ProviderSnapshot) (p : string) :
  Dict.get (sort_models m) p = option_map sort_snapshot (Dict.get m p).
Proof. unfold sort_models. rewrite get_sort_by_key. apply get_map_values. Qed.

Lemma in_sort_snapshot (s : ProviderSnapshot) (k : string) (r' : PriceRecord) :
  In (k, r') (sort_snapshot s) -> exists r, In (k, r) s /\ r' = sort_by_key r.
Proof.
  unfold sort_snapshot. rewrite in_sort_by_key, in_map_iff.
  intros ([k0 r] & Heq & Hin). inversion Heq; subst. exists r. auto.
Qed.

Lemma key_mem (V : Type) (d : dict V) (k : string) :
  Dict.mem k d = true -> exists v, Dict.get d k = Some v.
Proof. unfold Dict.mem. destruct (Dict.get d k) as [v|]; [eauto | discriminate]. Qed.

(** A provider whose old snapshot is the sorted one of a valid snapshot,
    and whose new snapshot is that snapshot, sorted or not, has no
    change. *)
Lemma compare_provider_sorted (old_models : dict ProviderSnapshot) (provider : string)
    (s s' : ProviderSnapshot) (changes : list string) :
  valid_snapshot s = true ->
  Dict.get old_models provider = Some (sort_snapshot s) ->
  s' = s \/ s' = sort_snapshot s ->
  compare_provider old_models (provider, s') changes = changes.
Proof.
  intros Hv Hget Hs'. simpl. rewrite Hget.
  apply andb_true_iff in Hv as [Hu Hrs]. apply uniqueb_unique in Hu.
  rewrite forallb_forall in Hrs.
  assert (Hitems : forall k r', In (k, r') s' ->
             exists r, In (k, r) s /\ (r' = r \/ r' = sort_by_key r)).
  { intros k r' Hin. destruct Hs' as [-> | ->].
    - exists r'. auto.
    - destruct (in_sort_snapshot _ _ _ Hin) as (r & Hr & ->). exists r. auto. }
  assert (Hmem : forall k, Dict.mem k s = true -> Dict.mem k s' = true).
  { intros k Hk. destruct Hs' as [-> | ->]; [exact Hk|].
    destruct (key_mem _ _ Hk) as [r Hr].
    apply (@get_some_mem _ _ _ (sort_by_key r)). rewrite get_sort_snapshot, Hr. reflexivity. }
  rewrite for_each_idle.
  - apply for_each_idle. intros [k r'] t Hin.
    destruct (Hitems k r' Hin) as (r & Hr & Hr'). simpl.
    rewrite get_sort_snapshot, (get_item _ _ Hu Hr). simpl.
    rewrite !field_sort_by_key.
    destruct (record_valid_prices _ (Hrs _ Hr)) as [Hi Ho]. simpl in Hi, Ho.
    assert (Hfields : field r' "input" = field r "input"
                      /\ field r' "output" = field r "output").
    { destruct Hr' as [-> | ->]; [auto|]. rewrite !field_sort_by_key. auto. }
    destruct Hfields as [-> ->].
    rewrite (py_ne_price _ Hi), (py_ne_price _ Ho). reflexivity.
  - intros k t Hin. rewrite Hmem; [reflexivity|].
    apply in_map_iff in Hin as ([k0 r0] & <- & Hin). simpl.
    destruct (in_sort_snapshot _ _ _ Hin) as (r & Hr & _).
    apply mem_keys. apply (in_map fst) in Hr. exact Hr.
Qed.

(** The mapping read back with its keys in order does not differ from a
    mapping with the same providers and, for each, the same snapshot,
    sorted or not. *)
Lemma compare_models_sorted (m m' : dict ProviderSnapshot) :
  forallb (fun item => valid_snapshot (snd item)) m = true ->
  (forall p, In p (Dict.keys m) -> Dict.mem p m' = true) ->
  (forall p s', In (p, s') m' ->
     exists s, Dict.get m p = Some s /\ (s' = s \/ s' = sort_snapshot s)) ->
  compare_models (sort_models m) m' = [].
Proof.
  intros Hv Hkeys Hitems. rewrite forallb_forall in Hv. unfold compare_models.
  rewrite for_each_idle.
  - rewrite for_each_idle.
    + apply for_each_idle. intros p t Hin.
      apply in_map_iff in Hin as ([p0 s'] & <- & Hin). simpl.
      destruct (Hitems p0 s' Hin) as (s & Hs & _).
      rewrite (@get_some_mem _ _ _ (sort_snapshot s)); [reflexivity|].
      rewrite get_sort_models, Hs. reflexivity.
    + intros p t Hin. rewrite Hkeys; [reflexivity|].
      apply in_map_iff in Hin as ([p0 s0] & <- & Hin). simpl.
      unfold sort_models in Hin. rewrite in_sort_by_key, in_map_iff in Hin.
      destruct Hin as ([p1 s1] & Heq & Hin). inversion Heq; subst.
      apply (in_map fst) in Hin. exact Hin.
  - intros [p s'] t Hin.
    destruct (Hitems p s' Hin) as (s & Hs & Hs').
    apply (@compare_provider_sorted (sort_models m) p s s' t).
    + apply (Hv (p, s)). apply get_some_in, Hs.
    + rewrite get_sort_models, Hs. reflexivity.
    + exact Hs'.
Qed.

Lemma get_merged_models (openai anthropic : option ProviderSnapshot) :
  Dict.get (merged_models openai anthropic) "openai" = openai
  /\ Dict.get (merged_models openai anthropic) "anthropic" = anthropic.
Proof. destruct openai, anthropic; split; reflexivity. Qed.

Lemma sort_keys_fields (d : PricingDocument) :
  document_truthy (sort_keys d) = document_truthy d
  /\ get_models (sort_keys d) = sort_models (get_models d).
Proof. destruct d as [[?|] [?|] [?|]]; split; reflexivity. Qed.

(** What the merge takes for a provider when the existing document is the
    one that an earlier merge built, read back with its keys in order:
    what the earlier merge took, sorted when it comes from the file. *)
Lemma merged_reloaded (key : string) (pricing : option ProviderSnapshot)
    (existing_pricing : option PricingDocument) (d : PricingDocument) :
  document_truthy d = true ->
  Dict.get (get_models d) key = merged key pricing existing_pricing ->
  merged key pricing (Some (sort_keys d)) = merged key pricing existing_pricing
  \/ merged key pricing (Some (sort_keys d))
     = option_map sort_snapshot (merged key pricing existing_pricing).
Proof.
  intros Htrue Hget. destruct (sort_keys_fields d) as [Ht Hm].
  unfold merged at 1 3. unfold if_true at 2 4. rewrite Ht, Htrue, Hm, get_sort_models, Hget.
  unfold merged. destruct (if_true (@Dict.truthy _) pricing); [left | right]; reflexivity.
Qed.

Lemma merged_models_related (openai anthropic openai' anthropic' : option ProviderSnapshot) :
  openai' = openai \/ openai' = option_map sort_snapshot openai ->
  anthropic' = anthropic \/ anthropic' = option_map sort_snapshot anthropic ->
  (forall p, In p (Dict.keys (merged_models openai anthropic)) ->
     Dict.mem p (merged_models openai' anthropic') = true)
  /\ (forall p s', In (p, s') (merged_models openai' anthropic') ->
        exists s, Dict.get (merged_models openai anthropic) p = Some s
                  /\ (s' = s \/ s' = sort_snapshot s)).
Proof.
  intros Ho Ha.
  destruct openai as [o|], anthropic as [a|]; destruct Ho as [-> | ->], Ha as [-> | ->];
    unfold merged_models; simpl;
    (split;
     [intros p Hkey; repeat (destruct Hkey as [Heq|Hkey]; [subst p; reflexivity|]);
      destruct Hkey
     |intros p s' Hitem;
      repeat (destruct Hitem as [Heq|Hitem];
              [inversion Heq; subst; eexists; split; [reflexivity | auto]|]);
      destruct Hitem]).
Qed.

(** A run over the file that an earlier run wrote, with the same data for
    each provider, finds no change. *)
Lemma compare_pricing_reloaded (d new_pricing : PricingDocument)
    (openai anthropic : option ProviderSnapshot) (existing_pricing : option PricingDocument) :
  valid_document d = true ->
  get_models d
  = merged_models (merged "openai" openai existing_pricing)
      (merged "anthropic" anthropic existing_pricing) ->
  get_models new_pricing
  = merged_models (merged "openai" openai (Some (sort_keys d)))
      (merged "anthropic" anthropic (Some (sort_keys d))) ->
  compare_pricing (Some (sort_keys d)) new_pricing = (false, []).
Proof.
  intros Hvalid Hd Hnew. destruct (valid_document_fields _ Hvalid) as (Htrue & _ & Hs).
  destruct (sort_keys_fields d) as [Ht Hm].
  rewrite compare_pricing_unfold. unfold truthy, if_true, models_of.
  rewrite Ht, Htrue, Hm, Hnew.
  destruct (get_merged_models (merged "openai" openai existing_pricing)
              (merged "anthropic" anthropic existing_pricing)) as [Hgo Hga].
  rewrite <- Hd in Hgo, Hga.
  destruct (merged_models_related
              (@merged_reloaded "openai" openai existing_pricing d Htrue Hgo)
              (@merged_reloaded "anthropic" anthropic existing_pricing d Htrue Hga))
    as [Hkeys Hitems].
  rewrite <- Hd in Hkeys, Hitems.
  rewrite (@compare_models_sorted _ _ Hs Hkeys Hitems). reflexivity.
Qed.

(** X16.  A second run changes nothing.  Take the document that a run
    builds and the text that it writes; if the document is valid and the
    next run reads the text back as [json.load] reads what
    [json.dump(.., sort_keys=True)] wrote, that is the same document with
    the keys of every dict in order, and if the next run is not forced and
    fetches the same two pages, then it returns 0 and leaves the file as
    the first run wrote it, whatever the clock says.  This holds for both
    scripts. *)
Theorem main_second_run_idle (w w' : World) (file : option string) :
  fetch_openai_pricing w' = fetch_openai_pricing w ->
  fetch_anthropic_pricing w' = fetch_anthropic_pricing w ->
  force w' = false ->
  (let new_pricing := script_new_pricing w file in
   let text := json_dump w new_pricing in
   json_load w' text = Some (sort_keys new_pricing) ->
   valid_document new_pricing = true ->
   Script.main w' (Some text) = (Return 0, Some text))
  /\ (let new_pricing := scripts_new_pricing w file in
      let text := json_dump w new_pricing in
      json_load w' text = Some (sort_keys new_pricing) ->
      valid_document new_pricing = true ->
      Scripts.main w' (Some text) = (Return 0, Some text)).
Proof.
  intros Hopenai Hanthropic Hforce. split; intros new_pricing text Hload Hvalid.
  - destruct (valid_document_fields _ Hvalid) as (Htrue & _ & _).
    destruct (sort_keys_fields new_pricing) as [Ht _].
    assert (Hexisting : load_existing_pricing w' (Some text) = Some (sort_keys new_pricing))
      by exact Hload.
    destruct (script_no_data w' (Some text)) eqn:Hdata.
    + rewrite (proj1 (main_without_data w' (Some text)) Hdata).
      unfold has_existing, truthy, if_true. rewrite Hexisting, Ht, Htrue. reflexivity.
    + apply (proj1 (@main_without_changes w' (Some text) Hforce) Hdata).
      rewrite Hexisting.
      rewrite (@compare_pricing_reloaded new_pricing (script_new_pricing w' (Some text))
                 (accepted "OpenAI" (fetch_openai_pricing w))
                 (accepted "Anthropic" (fetch_anthropic_pricing w))
                 (load_existing_pricing w file) Hvalid); [reflexivity | |].
      * unfold new_pricing, script_new_pricing. rewrite new_document_models.
        unfold Script.usable. cbv zeta. simpl fst. simpl snd.
        rewrite !merged_validated. reflexivity.
      * unfold script_new_pricing. rewrite new_document_models, Hexisting.
        unfold Script.usable. cbv zeta. simpl fst. simpl snd.
        rewrite !merged_validated, Hopenai, Hanthropic. reflexivity.
  - destruct (valid_document_fields _ Hvalid) as (Htrue & _ & _).
    destruct (sort_keys_fields new_pricing) as [Ht _].
    assert (Hexisting : load_existing_pricing w' (Some text) = Some (sort_keys new_pricing))
      by exact Hload.
    destruct (scripts_no_data w') eqn:Hdata.
    + rewrite (proj2 (main_without_data w' (Some text)) Hdata).
      unfold has_existing, truthy, if_true. rewrite Hexisting, Ht, Htrue. reflexivity.
    + apply (proj2 (@main_without_changes w' (Some text) Hforce) Hdata).
      rewrite Hexisting.
      rewrite (@compare_pricing_reloaded new_pricing (scripts_new_pricing w' (Some text))
                 (fetch_openai_pricing w) (fetch_anthropic_pricing w)
                 (load_existing_pricing w file) Hvalid); [reflexivity | |].
      * unfold new_pricing, scripts_new_pricing. rewrite new_document_models. reflexivity.
      * unfold scripts_new_pricing. rewrite new_document_models, Hexisting.
        rewrite Hopenai, Hanthropic. reflexivity.
Qed.

(** X16 on a forced first run that creates the file from both pages, and a
    later run over the same pages that reads the file back: the providers
    and the fields of the records come back in another order, and the run
    leaves the file alone. *)
Lemma main_second_run_idle_witness :
  Script.main Runs.first_run None = (Return 0, Some Runs.first_text)
  /\ option_map (@Dict.keys _) (models Runs.first_document) = Some ["openai"; "anthropic"]
  /\ option_map (@Dict.keys _) (models (sort_keys Runs.first_document))
     = Some ["anthropic"; "openai"]
  /\ Script.main Runs.later_run (Some Runs.first_text) = (Return 0, Some Runs.first_text).
Proof.
  split; [vm_compute; reflexivity|].
  split; [vm_compute; reflexivity|].
  split; [vm_compute; reflexivity|].
  apply (proj1 (@main_second_run_idle Runs.first_run Runs.later_run None
                  eq_refl eq_refl eq_refl));
    vm_compute; reflexivity.
Defined.


(* ------------------------------------------------------------------ *)
(** ** The Anthropic extractor of scripts/fetch_pricing.py on small inputs *)

Example anthropic_title : Anthropic.title "claude 3.5 sonnet" = "Claude 3.5 Sonnet".
Proof. reflexivity. Qed.

Example anthropic_sub_spaces : Anthropic.sub_spaces "claude  3 	opus" = "claude-3-opus".
Proof. reflexivity. Qed.

Example anthropic_header_table :
  Anthropic.parse_anthropic_pricing
    [[["Model"; "Input"; "Output"];
      ["Claude 3.5 Sonnet"; "$3 / MTok"; "$15 / MTok"];
      ["Notes"; "n/a"; "n/a"]]]
  = Some [("claude-3.5-sonnet",
           [("input", VFloat (FNum 3 0)); ("output", VFloat (FNum 15 0));
            ("description", VStr "Claude 3.5 Sonnet")])].
Proof. vm_compute. reflexivity. Qed.

Example anthropic_input_in_first_column :
  Anthropic.parse_anthropic_pricing
    [[["Input"; "Model"; "Output"];
      ["$3"; "Claude 3 Opus"; "$15"]]]
  = Some [("claude-3-opus",
           [("input", VFloat (FNum 3 0)); ("output", VFloat (FNum 3 0));
            ("description", VStr "Claude 3 Opus")])].
Proof. vm_compute. reflexivity. Qed.

(** A price column that the header names is not range-checked: a number
    beyond binary64 is stored as infinity, and one that rounds to 0.0 is
    false and drops the row. *)
Example anthropic_named_column_overflow :
  Anthropic.parse_anthropic_pricing
    [[["Model"; "Input"; "Output"];
      ["Claude X"; "1" ++ Text.zeros 309; "$5"]]]
  = Some [("claude-x",
           [("input", VFloat (FInf false)); ("output", VFloat (FNum 5 0));
            ("description", VStr "Claude X")])].
Proof. vm_compute. reflexivity. Qed.

Example anthropic_named_column_underflow :
  Anthropic.parse_anthropic_pricing
    [[["Model"; "Input"; "Output"];
      ["Claude X"; "0." ++ Text.zeros 400 ++ "1"; "$5"]]]
  = None.
Proof. vm_compute. reflexivity. Qed.

(** A no-break space in the model cell is white space for [\s]. *)
Example anthropic_no_break_space :
  Anthropic.sub_spaces ("claude" ++ String (ascii_of_nat 160) "3") = "claude-3".
Proof. reflexivity. Qed.

(* ------------------------------------------------------------------ *)
(** ** What [float] and the Anthropic extractor of scripts/ return *)

Section Binary64Facts.
Import Binary64.

Lemma round_half_even_nonneg (n d : Z) :
  0 <= n -> 0 < d -> 0 <= round_half_even n d.
Proof.
  intros Hn Hd. unfold round_half_even.
  pose proof (Z.div_pos n d Hn Hd) as Hq.
  destruct (2 * (n mod d) ?= d); [destruct (Z.even (n / d))| |]; lia.
Qed.

Lemma scaled_nonneg (base n d x : Z) :
  0 < base -> 0 <= n -> 0 < d ->
  0 <= fst (scaled base n d x) /\ 0 < snd (scaled base n d x).
Proof.
  intros Hbase Hn Hd. unfold scaled. destruct (0 <=? x) eqn:E; simpl.
  - apply Z.leb_le in E. pose proof (Z.pow_pos_nonneg base x Hbase E). nia.
  - apply Z.leb_gt in E. assert (0 < base ^ (- x)) by (apply Z.pow_pos_nonneg; lia). nia.
Qed.

Lemma scaled_den_pos (base n d x : Z) :
  0 < base -> 0 < d -> 0 < snd (scaled base n d x).
Proof.
  intros Hbase Hd. unfold scaled. destruct (0 <=? x) eqn:E; simpl; [|exact Hd].
  apply Z.leb_le in E. pose proof (Z.pow_pos_nonneg base x Hbase E). nia.
Qed.

Lemma search_nonneg (fuel : nat) (f : t) (n d x mant x' : Z) :
  0 <= n -> 0 < d -> search fuel f n d x = Some (mant, x') -> 0 <= mant.
Proof.
  intros Hn Hd. revert x. induction fuel as [|fuel IH]; intros x; simpl; [discriminate|].
  destruct (@scaled_nonneg 10 n d x) as [Hn' Hd']; [lia | exact Hn | exact Hd |].
  destruct (scaled 10 n d x) as [n' d']. simpl in Hn', Hd'.
  pose proof (Z.div_pos n' d' Hn' Hd') as Hlo.
  pose proof (round_half_even_nonneg Hn' Hd') as Hmid.
  destruct (eqb (of_decimal (n' / d') x) f);
    destruct (eqb (of_decimal (if n' mod d' =? 0 then n' / d' else n' / d' + 1) x) f);
    simpl; try (intros H; inversion H; subst; try assumption;
                destruct (n' mod d' =? 0); lia).
  apply IH.
Qed.

Lemma shortest_nonneg (m e : Z) : 0 <= m -> 0 <= fst (shortest m e).
Proof.
  intros Hm. unfold shortest.
  destruct (@scaled_nonneg 2 m 1 (- e)) as [Hn Hd]; [lia | exact Hm | lia |].
  destruct (scaled 2 m 1 (- e)) as [n d]. simpl in Hn, Hd.
  destruct (search 17 (Finite m e) n d _) as [[mant x]|] eqn:E.
  - simpl. exact (@search_nonneg _ _ _ _ _ _ _ Hn Hd E).
  - destruct (0 <=? e) eqn:Ee; simpl; [exact Hn|].
    apply Z.leb_gt in Ee. assert (0 < 5 ^ (- e)) by (apply Z.pow_pos_nonneg; lia). nia.
Qed.

Lemma strip_zeros_nonneg (fuel : nat) (m x : Z) :
  0 <= m -> 0 <= fst (strip_zeros fuel m x).
Proof.
  revert m x. induction fuel as [|fuel IH]; intros m x Hm; simpl; [exact Hm|].
  destruct ((x <? 0) && (m mod 10 =? 0)); simpl; [|exact Hm].
  apply IH. apply Z.div_pos; lia.
Qed.

Lemma of_ratio_finite (n d m e : Z) :
  0 < d -> of_ratio n d = Finite m e -> 0 < m.
Proof.
  intros Hd. unfold of_ratio. destruct (n <=? 0) eqn:En; [discriminate|].
  apply Z.leb_gt in En.
  set (e0 := Z.max _ _).
  destruct (@scaled_nonneg 2 n d e0) as [Hn' Hd']; [lia | lia | exact Hd |].
  destruct (scaled 2 n d e0) as [n' d']. simpl in Hn', Hd'.
  pose proof (round_half_even_nonneg Hn' Hd') as Hround.
  destruct (round_half_even n' d' =? 2 ^ 53).
  - destruct (2 ^ 52 =? 0) eqn:E0; [discriminate|].
    destruct (971 <? e0 + 1); [discriminate|].
    intros H. inversion H; subst. reflexivity.
  - destruct (round_half_even n' d' =? 0) eqn:E0; [discriminate|].
    apply Z.eqb_neq in E0.
    destruct (971 <? e0); [discriminate|].
    intros H. inversion H; subst. lia.
Qed.

(** [float] of a decimal is never negative and never NaN. *)
Lemma float_of_decimal_nonneg (m x : Z) :
  float_of_decimal m x = FInf false
  \/ exists mant e, float_of_decimal m x = FNum mant e /\ 0 <= mant.
Proof.
  unfold float_of_decimal, of_decimal.
  destruct (scaled 10 m 1 (- x)) as [n d] eqn:Escaled.
  assert (Hd : 0 < d).
  { pose proof (@scaled_den_pos 10 m 1 (- x) ltac:(lia) ltac:(lia)) as H.
    rewrite Escaled in H. exact H. }
  destruct (of_ratio n d) as [|m2 e2|] eqn:Eratio; simpl.
  - right. exists 0, 0. split; [reflexivity | lia].
  - right. pose proof (@of_ratio_finite _ _ _ _ Hd Eratio) as Hm2.
    pose proof (@shortest_nonneg m2 e2 ltac:(lia)) as Hshort.
    destruct (shortest m2 e2) as [mant x2]. simpl in Hshort.
    destruct (0 <=? x2) eqn:Ex.
    + eexists _, _. split; [reflexivity|].
      apply Z.leb_le in Ex. pose proof (Z.pow_pos_nonneg 10 x2 ltac:(lia) Ex). nia.
    + pose proof (@strip_zeros_nonneg (Z.to_nat (- x2)) mant x2 Hshort) as Hstrip.
      destruct (strip_zeros (Z.to_nat (- x2)) mant x2) as [mant' x']. simpl in Hstrip.
      eexists _, _. split; [reflexivity | exact Hstrip].
  - left. reflexivity.
Qed.
End Binary64Facts.

(** [float] of a run of digits and dots is a number that is not negative:
    finite, or infinity when the run is too large for binary64. *)
Lemma py_float_nonneg (group : list ascii) (f : pyfloat) :
  Extract.py_float group = Some f ->
  f = FInf false \/ exists m e, f = FNum m e /\ 0 <= m.
Proof.
  unfold Extract.py_float.
  destruct (Text.drop_while Text.is_digit group) as [|dot frac].
  - destruct (Text.take_while Text.is_digit group) as [|c r]; [discriminate|].
    intros H. inversion H; subst. apply float_of_decimal_nonneg.
  - destruct (Ascii.eqb dot "." && forallb Text.is_digit frac
              && negb (Nat.eqb (List.length (Text.take_while Text.is_digit group)
                                + List.length frac) 0)); [|discriminate].
    intros H. inversion H; subst. apply float_of_decimal_nonneg.
Qed.

Lemma sub_spaces_from_no_space (in_run : bool) (l : list ascii) :
  forallb (fun c => negb (Text.is_space c)) (Anthropic.sub_spaces_from in_run l) = true.
Proof.
  revert in_run. induction l as [|c r IH]; intros in_run; simpl; [reflexivity|].
  destruct (Text.is_space c) eqn:E.
  - destruct in_run; simpl; apply IH.
  - simpl. rewrite E. simpl. apply IH.
Qed.


Lemma anthropic_parse_row_entry (model_col : nat) (input_col output_col : option nat)
    (cells : list string) (d : ProviderSnapshot) :
  Anthropic.parse_row model_col input_col output_col cells d
  = match anthropic_row_entry model_col input_col output_col cells with
    | Some (model_name, r) => Dict.set d model_name r
    | None => d
    end.
Proof.
  unfold Anthropic.parse_row, anthropic_row_entry.
  destruct (nth_error cells model_col) as [cell_text|]; [|reflexivity].
  destruct (Anthropic.contains "claude" (Text.lower cell_text)); [|reflexivity].
  destruct (Anthropic.row_prices input_col output_col cells) as [[[i|] [o|]]|];
    try reflexivity.
  destruct (Anthropic.float_truthy i && Anthropic.float_truthy o); reflexivity.
Qed.

Lemma fallback_prices_floats (cells : list string) :
  Forall (fun price => exists group, Extract.py_float group = Some price)
    (Anthropic.fallback_prices cells).
Proof.
  unfold Anthropic.fallback_prices. apply for_each_invariant; [|constructor].
  intros cell_text prices _ Hprices.
  destruct (Extract.search_price (Text.chars cell_text)) as [group|]; [|exact Hprices].
  destruct (negb (Anthropic.is_dot group)); [|exact Hprices].
  destruct (Extract.py_float group) as [price|] eqn:E; [|exact Hprices].
  destruct (in_price_range (number_of_float price)); [|exact Hprices].
  apply Forall_app. split; [exact Hprices | constructor; [exists group; exact E | constructor]].
Qed.

Lemma column_price_float (col : option nat) (cells : list string) (price : pyfloat) :
  Anthropic.column_price col cells = Some (Some price) ->
  exists group, Extract.py_float group = Some price.
Proof.
  unfold Anthropic.column_price. destruct col as [[|n]|]; try discriminate.
  destruct (nth_error cells (S n)) as [cell_text|]; [|discriminate].
  destruct (Extract.search_price (Text.chars cell_text)) as [group|]; [|discriminate].
  destruct (negb (Anthropic.is_dot group)); [|discriminate].
  destruct (Extract.py_float group) as [f|] eqn:E; [|discriminate].
  intros H. inversion H; subst. exists group. exact E.
Qed.

Lemma row_prices_floats (input_col output_col : option nat) (cells : list string)
    (input_price output_price : pyfloat) :
  Anthropic.row_prices input_col output_col cells = Some (Some input_price, Some output_price) ->
  (exists group, Extract.py_float group = Some input_price)
  /\ (exists group, Extract.py_float group = Some output_price).
Proof.
  unfold Anthropic.row_prices.
  destruct (Anthropic.column_price input_col cells) as [i|] eqn:Ei; [|discriminate].
  destruct (Anthropic.column_price output_col cells) as [o|] eqn:Eo; [|discriminate].
  pose proof (fallback_prices_floats cells) as Hfall.
  assert (Hfb : match Anthropic.fallback_prices cells with
                | price0 :: price1 :: _ => Some (Some price0, Some price1)
                | _ => Some (i, o)
                end = Some (Some input_price, Some output_price) ->
                i = None \/ o = None ->
                (exists group, Extract.py_float group = Some input_price)
                /\ (exists group, Extract.py_float group = Some output_price)).
  { destruct (Anthropic.fallback_prices cells) as [|p0 [|p1 rest]].
    - intros H [-> | ->]; inversion H.
    - intros H [-> | ->]; inversion H.
    - intros H _. inversion H; subst.
      inversion Hfall as [|? ? H0 Hrest]; subst. inversion Hrest; subst. auto. }
  destruct i as [i|], o as [o|]; try (intros H; apply Hfb; auto; fail).
  intros H. inversion H; subst.
  split; eapply column_price_float; eassumption.
Qed.

Lemma float_truthy_positive (group : list ascii) (price : pyfloat) :
  Extract.py_float group = Some price -> Anthropic.float_truthy price = true ->
  price_positive (VFloat price).
Proof.
  intros Hfloat Htrue.
  destruct (py_float_nonneg _ Hfloat) as [-> | (m & e & -> & Hm)]; [left; reflexivity|].
  right. exists m, e. split; [reflexivity|]. simpl in Htrue.
  apply negb_true_iff, Z.eqb_neq in Htrue. lia.
Qed.

Lemma anthropic_row_entry_is_entry (model_col : nat) (input_col output_col : option nat)
    (cells : list string) (k : string) (r : PriceRecord) :
  anthropic_row_entry model_col input_col output_col cells = Some (k, r) ->
  is_anthropic_entry k r.
Proof.
  unfold anthropic_row_entry.
  destruct (nth_error cells model_col) as [cell_text|]; [|discriminate].
  destruct (Anthropic.contains "claude" (Text.lower cell_text)) eqn:Eclaude; [|discriminate].
  destruct (Anthropic.row_prices input_col output_col cells) as [[[i|] [o|]]|] eqn:Eprices;
    try discriminate.
  destruct (Anthropic.float_truthy i && Anthropic.float_truthy o) eqn:Etrue; [|discriminate].
  intros H. inversion H; subst. apply andb_true_iff in Etrue as [Hi Ho].
  destruct (row_prices_floats _ _ _ Eprices) as [[gi Hgi] [go Hgo]].
  exists cell_text, i, o. repeat split; try assumption.
  - exact (float_truthy_positive _ Hgi Hi).
  - exact (float_truthy_positive _ Hgo Ho).
Qed.

Lemma anthropic_tables_extracted (tables : list Extract.Table) :
  anthropic_extracted (for_each tables Anthropic.parse_table []).
Proof.
  apply for_each_invariant; [|split; [constructor | intros k r []]].
  intros rows d _ Hd. unfold Anthropic.parse_table.
  destruct rows as [|header_row body]; [exact Hd|].
  apply for_each_invariant; [|exact Hd].
  intros cells d' _ [Hu Hall]. rewrite anthropic_parse_row_entry.
  destruct (anthropic_row_entry _ _ _ cells) as [[model_name r]|] eqn:E; [|split; assumption].
  split; [apply unique_set, Hu|].
  intros k r' Hin. apply in_set in Hin as [Heq|Hin]; [|apply Hall, Hin].
  inversion Heq; subst. exact (anthropic_row_entry_is_entry _ _ _ _ E).
Qed.

(** X17.  Whatever the page, a snapshot that the Anthropic extractor of
    scripts/fetch_pricing.py returns is not empty and has no key twice.
    Every key is the lower-cased text of a cell that contains claude, with
    each run of white space turned into one dash, so it holds no white
    space; both prices are floats above zero, finite or, for a number
    beyond binary64 in a column that the header names, infinite; the
    description is that text title-cased with spaces for its dashes. *)
Theorem parse_anthropic_pricing_result (tables : list Extract.Table)
    (pricing_dict : ProviderSnapshot) :
  Anthropic.parse_anthropic_pricing tables = Some pricing_dict ->
  pricing_dict <> []
  /\ Dict.unique pricing_dict
  /\ forall model_name r, In (model_name, r) pricing_dict ->
       is_anthropic_entry model_name r
       /\ forallb (fun c => negb (Text.is_space c)) (Text.chars model_name) = true
       /\ price_positive (field r "input")
       /\ price_positive (field r "output").
Proof.
  unfold Anthropic.parse_anthropic_pricing.
  pose proof (anthropic_tables_extracted tables) as [Hu Hall]. revert Hu Hall.
  generalize (for_each tables Anthropic.parse_table ([] : ProviderSnapshot)).
  intros [|item d] Hu Hall; simpl; [discriminate|].
  intros H. inversion H; subst. split; [discriminate|]. split; [exact Hu|].
  intros k r Hin. pose proof (Hall k r Hin) as Hentry. split; [exact Hentry|].
  destruct Hentry as (cell_text & i & o & _ & -> & -> & Hi & Ho).
  split; [|split; assumption].
  unfold Anthropic.sub_spaces. rewrite chars_text. apply sub_spaces_from_no_space.
Qed.

(** X17 on a page with one table of two models. *)
Lemma parse_anthropic_pricing_result_witness :
  let pricing_dict : ProviderSnapshot :=
    [("claude-3.5-sonnet",
      [("input", VFloat (FNum 3 0)); ("output", VFloat (FNum 15 0));
       ("description", VStr "Claude 3.5 Sonnet")])] in
  Dict.unique pricing_dict /\ price_positive (VFloat (FNum 3 0)).
Proof.
  intros pricing_dict.
  assert (Hparse : Anthropic.parse_anthropic_pricing
                     [[["Model"; "Input"; "Output"];
                       ["Claude 3.5 Sonnet"; "$3 / MTok"; "$15 / MTok"]]]
                   = Some pricing_dict) by (vm_compute; reflexivity).
  destruct (parse_anthropic_pricing_result _ Hparse) as (_ & Hu & Hall).
  split; [exact Hu|].
  apply (Hall "claude-3.5-sonnet"
           [("input", VFloat (FNum 3 0)); ("output", VFloat (FNum 15 0));
            ("description", VStr "Claude 3.5 Sonnet")]).
  left. reflexivity.
Defined.

Lemma anthropic_rows_empty (model_col : nat) (input_col output_col : option nat)
    (body : list (list string)) (d : ProviderSnapshot) :
  for_each body (Anthropic.parse_row model_col input_col output_col) d = []
  <-> d = [] /\ forall cells, In cells body ->
                 anthropic_row_entry model_col input_col output_col cells = None.
Proof.
  revert d. induction body as [|cells body IH]; intros d.
  - simpl. split; [intros ->; split; [reflexivity | intros ? []] | tauto].
  - rewrite for_each_cons, IH, anthropic_parse_row_entry. split.
    + intros [Hd Hrows].
      destruct (anthropic_row_entry model_col input_col output_col cells)
        as [[model_name r]|] eqn:E.
      * exfalso. exact (set_not_empty _ _ _ Hd).
      * split; [exact Hd|]. intros cells' [<-|Hin]; [exact E | apply Hrows, Hin].
    + intros [-> Hrows]. rewrite (Hrows cells) by (left; reflexivity).
      split; [reflexivity|]. intros cells' Hin. apply Hrows. right. exact Hin.
Qed.

Lemma anthropic_tables_empty (tables : list Extract.Table) (d : ProviderSnapshot) :
  for_each tables Anthropic.parse_table d = []
  <-> d = []
      /\ forall header_row body cells,
           In (header_row :: body) tables -> In cells body ->
           anthropic_row_entry
             (Anthropic.model_column (map Text.lower header_row))
             (Anthropic.input_column (map Text.lower header_row))
             (Anthropic.output_column (map Text.lower header_row)) cells = None.
Proof.
  revert d. induction tables as [|rows tables IH]; intros d.
  - simpl. split; [intros ->; split; [reflexivity | intros ? ? ? []] | tauto].
  - rewrite for_each_cons, IH. destruct rows as [|header_row body]; simpl Anthropic.parse_table.
    + split; intros [Hd Hall]; (split; [exact Hd|]).
      * intros h b cells [Heq|Hin]; [discriminate | apply Hall, Hin].
      * intros h b cells Hin. apply Hall. right. exact Hin.
    + rewrite anthropic_rows_empty. split.
      * intros [[-> Hbody] Hall]. split; [reflexivity|].
        intros h b cells [Heq|Hin] Hcells.
        -- inversion Heq; subst. apply Hbody, Hcells.
        -- exact (Hall h b cells Hin Hcells).
      * intros [-> Hall]. split; [split; [reflexivity|]|].
        -- intros cells Hcells. apply (Hall header_row body cells); [left; reflexivity | exact Hcells].
        -- intros h b cells Hin Hcells. apply (Hall h b cells); [right|]; assumption.
Qed.

(** X18.  The Anthropic extractor of scripts/fetch_pricing.py reports no
    data exactly when no row below the header of any table yields an
    entry: no page without tables, no table of a header only, and no header
    row ever gives a model. *)
Theorem parse_anthropic_pricing_no_data (tables : list Extract.Table) :
  Anthropic.parse_anthropic_pricing tables = None
  <-> forall header_row body cells,
        In (header_row :: body) tables -> In cells body ->
        anthropic_row_entry
          (Anthropic.model_column (map Text.lower header_row))
          (Anthropic.input_column (map Text.lower header_row))
          (Anthropic.output_column (map Text.lower header_row)) cells = None.
Proof.
  unfold Anthropic.parse_anthropic_pricing.
  pose proof (anthropic_tables_empty tables []) as Hempty. revert Hempty.
  generalize (for_each tables Anthropic.parse_table ([] : ProviderSnapshot)).
  intros [|item d] Hempty; simpl.
  - split; [intros _; apply Hempty; reflexivity | reflexivity].
  - split; [discriminate|]. intros Hall.
    assert (H : item :: d = []) by (apply Hempty; split; [reflexivity | exact Hall]).
    discriminate.
Qed.

Lemma is_dot_not_float (group : list ascii) :
  Anthropic.is_dot group = true -> Extract.py_float group = None.
Proof.
  destruct group as [|c [|c' r]]; simpl; try discriminate.
  intros H. apply Ascii.eqb_eq in H. subst c. reflexivity.
Qed.

(** X19.  The fallback of the Anthropic extractor of scripts/ collects
    the prices that the OpenAI extractor collects from the same cells: its
    test that the token is not a lone dot changes nothing, [float] rejects
    that token anyway. *)
Theorem fallback_prices_collect_prices (cells : list string) :
  Anthropic.fallback_prices cells = Extract.collect_prices cells.
Proof.
  unfold Anthropic.fallback_prices, Extract.collect_prices.
  assert (Hsame : forall (f g : string -> list pyfloat -> list pyfloat),
             (forall x s, f x s = g x s) ->
             forall xs s, for_each xs f s = for_each xs g s).
  { intros f g Hfg xs. induction xs as [|x xs IH]; intros s; [reflexivity|].
    rewrite !for_each_cons, Hfg. apply IH. }
  apply Hsame. intros cell_text prices.
  destruct (Extract.search_price (Text.chars cell_text)) as [group|]; [|reflexivity].
  destruct (Anthropic.is_dot group) eqn:E; simpl; [|reflexivity].
  rewrite (is_dot_not_float _ E). reflexivity.
Qed.


(* ------------------------------------------------------------------ *)
(** ** The Anthropic extractor of script/fetch_pricing.py on small inputs *)

Example findall_prices_cell :
  AnthropicModels.findall_prices "$3 / input MTok$15 / output MTok"
  = [Text.chars "3"; Text.chars "15"].
Proof. reflexivity. Qed.

Example findall_prices_no_unit :
  AnthropicModels.findall_prices "200K tokens, $0.80 /input  MTok, 5 / OUTPUT MTok"
  = [Text.chars "0.80"].
Proof. reflexivity. Qed.

Example sub_copied_id :
  Text.strip (AnthropicModels.sub_copied "claude-sonnet-4-20250514Copied!")
  = "claude-sonnet-4-20250514".
Proof. reflexivity. Qed.

Example sub_date_id : AnthropicModels.sub_date "claude-sonnet-4-20250514" = "claude-sonnet-4".
Proof. reflexivity. Qed.

Example sub_date_short : AnthropicModels.sub_date "claude-3-2024" = "claude-3-2024".
Proof. reflexivity. Qed.

Example anthropic_models_page :
  AnthropicModels.parse_anthropic_pricing
    [[];
     [["Feature"; "Claude Sonnet 4"; "Claude Haiku 3"];
      ["Claude API"; "claude-sonnet-4-20250514Copied!"];
      ["AWS"; "a"; "b"]; ["GCP"; "a"; "b"]; ["Description"; "a"; "b"];
      ["Pricing"; "$3 / input MTok$15 / output MTok"; "$0.25 / input MTok$1.25 / output MTok"]]]
  = Some [("claude-sonnet-4-20250514",
           AnthropicModels.record (FNum 3 0) (FNum 15 0) "Claude Sonnet 4");
          ("claude-sonnet-4",
           AnthropicModels.record (FNum 3 0) (FNum 15 0) "Claude Sonnet 4 (latest)");
          ("claude-haiku-3",
           AnthropicModels.record (FNum 25 (-2)) (FNum 125 (-2)) "Claude Haiku 3")].
Proof. vm_compute. reflexivity. Qed.

(** The prices of the models table are stored as [float] gives them, with
    no range check: infinity and zero included. *)
Example anthropic_models_unchecked_prices :
  AnthropicModels.parse_anthropic_pricing
    [[];
     [["Feature"; "Claude X"]; ["Claude API"; "claude-x"]; []; []; [];
      ["Pricing"; "$" ++ "1" ++ Text.zeros 309 ++ " / input MTok$0 / output MTok"]]]
  = Some [("claude-x", AnthropicModels.record (FInf false) (FNum 0 0) "Claude X")].
Proof. vm_compute. reflexivity. Qed.

(* ------------------------------------------------------------------ *)
(** ** What the Anthropic extractor of script/ returns *)

Lemma parse_column_entries (header_cells api_id_cells pricing_cells : list string)
    (i : nat) (d : ProviderSnapshot) :
  AnthropicModels.parse_column header_cells api_id_cells pricing_cells i d
  = set_all (column_entries header_cells api_id_cells pricing_cells i) d.
Proof.
  unfold AnthropicModels.parse_column, column_entries, column_api_id, set_all.
  destruct (nth_error header_cells i) as [model_name|]; [|reflexivity].
  destruct (nth_error pricing_cells i) as [pricing_text|];
    destruct (AnthropicModels.nonempty model_name),
      (Anthropic.contains "claude" (Text.lower model_name)); simpl; try reflexivity.
  destruct (AnthropicModels.findall_prices pricing_text) as [|match0 [|match1 rest]];
    try reflexivity.
  destruct (Extract.py_float match0) as [input_price|]; [|reflexivity].
  destruct (Extract.py_float match1) as [output_price|]; [|reflexivity].
  destruct (nth_error api_id_cells i) as [api_id_text|]; [|reflexivity].
  destruct (AnthropicModels.nonempty
              (Text.strip (AnthropicModels.sub_copied api_id_text))); simpl;
    [|reflexivity].
  destruct (Anthropic.contains "-20" (Text.strip (AnthropicModels.sub_copied api_id_text)));
    simpl; [|reflexivity].
  destruct (String.eqb _ _); reflexivity.
Qed.

(** X20.  The Anthropic extractor of script/fetch_pricing.py reports no
    data for a page with fewer than two tables and for a second table of
    fewer than six rows; otherwise its result is decided by the rows 0, 1
    and 5 of the second table alone: the first table, any further table
    and every other row are never read. *)
Theorem anthropic_models_rows_read :
  (forall tables, (List.length tables < 2)%nat ->
      AnthropicModels.parse_anthropic_pricing tables = None)
  /\ (forall first pricing_table rest, (List.length pricing_table < 6)%nat ->
        AnthropicModels.parse_anthropic_pricing (first :: pricing_table :: rest) = None)
  /\ (forall first pricing_table rest, (6 <= List.length pricing_table)%nat ->
        AnthropicModels.parse_anthropic_pricing (first :: pricing_table :: rest)
        = AnthropicModels.parse_anthropic_pricing
            [[]; [nth 0 pricing_table []; nth 1 pricing_table []; []; []; [];
                  nth 5 pricing_table []]]).
Proof.
  split; [|split].
  - intros [|first [|second rest]]; simpl; intros H; try reflexivity. lia.
  - intros first pricing_table rest H. unfold AnthropicModels.parse_anthropic_pricing.
    apply Nat.ltb_lt in H. rewrite H. reflexivity.
  - intros first pricing_table rest H. unfold AnthropicModels.parse_anthropic_pricing.
    apply Nat.ltb_ge in H. rewrite H. reflexivity.
Qed.

(** X20 on a page of one table. *)
Lemma anthropic_models_rows_read_witness :
  AnthropicModels.parse_anthropic_pricing [[["Model"; "Claude"]]] = None.
Proof.
  apply (proj1 anthropic_models_rows_read). simpl. lia.
Defined.

Lemma column_entries_models (header_cells api_id_cells pricing_cells : list string)
    (i : nat) (k : string) (r : PriceRecord) :
  In (k, r) (column_entries header_cells api_id_cells pricing_cells i) ->
  is_models_entry r.
Proof.
  unfold column_entries.
  destruct (nth_error header_cells i) as [model_name|]; [|intros []].
  destruct (nth_error pricing_cells i) as [pricing_text|]; [|intros []].
  destruct (AnthropicModels.nonempty model_name); simpl; [|intros []].
  destruct (Anthropic.contains "claude" (Text.lower model_name)) eqn:Eclaude; [|intros []].
  destruct (AnthropicModels.findall_prices pricing_text) as [|match0 [|match1 rest]];
    try (intros []).
  destruct (Extract.py_float match0) as [input_price|] eqn:E0; [|intros []].
  destruct (Extract.py_float match1) as [output_price|] eqn:E1; [|intros []].
  assert (Hentry : forall description,
             description = model_name \/ description = (model_name ++ " (latest)")%string ->
             is_models_entry (AnthropicModels.record input_price output_price description)).
  { intros description Hd. exists model_name, input_price, output_price.
    split; [exact Eclaude|]. split; [destruct Hd as [-> | ->]; auto|].
    split; unfold price_nonneg.
    - destruct (py_float_nonneg _ E0) as [-> | (m & e & -> & Hm)]; eauto.
    - destruct (py_float_nonneg _ E1) as [-> | (m & e & -> & Hm)]; eauto. }
  destruct (column_api_id api_id_cells i) as [id|].
  - intros [H|H]; [inversion H; subst; apply Hentry; auto|].
    destruct (Anthropic.contains "-20" id && negb (String.eqb (AnthropicModels.sub_date id) id));
      [|destruct H].
    destruct H as [H|[]]. inversion H; subst. apply Hentry; auto.
  - intros [H|[]]. inversion H; subst. apply Hentry; auto.
Qed.

Lemma set_all_invariant (P : PriceRecord -> Prop) (entries : list (string * PriceRecord))
    (d : ProviderSnapshot) :
  (forall k r, In (k, r) entries -> P r) ->
  Dict.unique d /\ (forall k r, In (k, r) d -> P r) ->
  Dict.unique (set_all entries d) /\ (forall k r, In (k, r) (set_all entries d) -> P r).
Proof.
  intros Hentries. unfold set_all.
  apply (for_each_invariant
           (fun d0 : ProviderSnapshot =>
              Dict.unique d0 /\ (forall k r, In (k, r) d0 -> P r))).
  intros [k0 r0] d' Hin [Hu Hall]. simpl. split; [apply unique_set, Hu|].
  intros k r H. apply in_set in H as [Heq|H]; [|exact (Hall k r H)].
  inversion Heq; subst. exact (Hentries _ _ Hin).
Qed.

(** X21.  Whatever the page, a snapshot that the Anthropic extractor of
    script/fetch_pricing.py returns is not empty and has no key twice;
    every record has two floats as prices that are not negative and not
    NaN (nothing else is checked: zero, 1000 and more, and infinity for a
    number beyond binary64 are let through) and, as description, the text
    of a header cell that contains claude in any case, alone or followed
    by " (latest)". *)
Theorem anthropic_models_result (tables : list Extract.Table)
    (pricing_dict : ProviderSnapshot) :
  AnthropicModels.parse_anthropic_pricing tables = Some pricing_dict ->
  pricing_dict <> []
  /\ Dict.unique pricing_dict
  /\ forall k r, In (k, r) pricing_dict ->
       is_models_entry r
       /\ price_nonneg (field r "input") /\ price_nonneg (field r "output").
Proof.
  unfold AnthropicModels.parse_anthropic_pricing.
  destruct tables as [|first [|pricing_table rest]]; try discriminate.
  destruct (List.length pricing_table <? 6)%nat; [discriminate|].
  set (header_cells := nth 0 pricing_table []).
  set (api_id_cells := nth 1 pricing_table []).
  set (pricing_cells := nth 5 pricing_table []).
  assert (Hinv : Dict.unique
                   (for_each (seq 1 (List.length header_cells - 1))
                      (AnthropicModels.parse_column header_cells api_id_cells pricing_cells) [])
                 /\ forall k r,
                      In (k, r)
                        (for_each (seq 1 (List.length header_cells - 1))
                           (AnthropicModels.parse_column header_cells api_id_cells
                              pricing_cells) []) ->
                      is_models_entry r).
  { apply (for_each_invariant
             (fun d => Dict.unique d /\ forall k r, In (k, r) d -> is_models_entry r)).
    - intros i d _ Hd. rewrite parse_column_entries.
      apply set_all_invariant; [|exact Hd].
      intros k r. apply column_entries_models.
    - split; [constructor | intros k r []]. }
  revert Hinv.
  generalize (for_each (seq 1 (List.length header_cells - 1))
                (AnthropicModels.parse_column header_cells api_id_cells pricing_cells)
                ([] : ProviderSnapshot)).
  intros [|item d] [Hu Hall]; simpl; [discriminate|].
  intros H. inversion H; subst. split; [discriminate|]. split; [exact Hu|].
  intros k r Hin. pose proof (Hall k r Hin) as Hentry. split; [exact Hentry|].
  destruct Hentry as (model_name & i & o & _ & [-> | ->] & Hi & Ho); split; assumption.
Qed.

(** X21 on a page with the models table. *)
Lemma anthropic_models_result_witness :
  let tables :=
    [[]; [["Feature"; "Claude Haiku 3"]; ["Claude API"]; []; []; [];
          ["Pricing"; "$0.25 / input MTok$1.25 / output MTok"]]] in
  let pricing_dict : ProviderSnapshot :=
    [("claude-haiku-3",
      AnthropicModels.record (FNum 25 (-2)) (FNum 125 (-2)) "Claude Haiku 3")] in
  AnthropicModels.parse_anthropic_pricing tables = Some pricing_dict
  /\ Dict.unique pricing_dict.
Proof.
  intros tables pricing_dict.
  assert (Hparse : AnthropicModels.parse_anthropic_pricing tables = Some pricing_dict)
    by (vm_compute; reflexivity).
  split; [exact Hparse|].
  apply (proj1 (proj2 (anthropic_models_result tables Hparse))).
Defined.

Lemma keys_set_all (entries : list (string * PriceRecord)) (d : ProviderSnapshot)
    (k : string) :
  In k (Dict.keys (set_all entries d)) <-> In k (Dict.keys d) \/ In k (map fst entries).
Proof.
  unfold set_all. revert d. induction entries as [|[k0 r0] entries IH]; intros d.
  - simpl. tauto.
  - rewrite for_each_cons, IH. simpl. rewrite keys_set.
    destruct (Dict.mem k0 d) eqn:E.
    + split; [tauto|]. intros [H|[H|H]]; auto. subst k0.
      left. apply mem_true_key. exact E.
    + rewrite in_app_iff. simpl. tauto.
Qed.

Lemma keys_columns (header_cells api_id_cells pricing_cells : list string)
    (columns : list nat) (d : ProviderSnapshot) (k : string) :
  In k (Dict.keys
          (for_each columns
             (AnthropicModels.parse_column header_cells api_id_cells pricing_cells) d))
  <-> In k (Dict.keys d)
      \/ exists i, In i columns
           /\ In k (map fst (column_entries header_cells api_id_cells pricing_cells i)).
Proof.
  revert d. induction columns as [|i columns IH]; intros d.
  - simpl. split; [tauto|]. intros [H|(i & [] & _)]. exact H.
  - rewrite for_each_cons, IH, parse_column_entries, keys_set_all. split.
    + intros [[H|H]|(j & Hj & H)]; [tauto | right; exists i | right; exists j];
        simpl; tauto.
    + intros [H|(j & [Hj|Hj] & H)]; [tauto | subst j; tauto | right; exists j; tauto].
Qed.

(** X22.  A column of the Anthropic models table (script/fetch_pricing.py)
    whose identifier is dated, that is contains -20 and loses an eight-digit
    suffix, and that yields a price pair, leaves two records behind it:
    under the identifier the prices with the header text as description,
    and under the identifier without its date the same prices with
    " (latest)" appended to the description. *)
Theorem anthropic_models_alias (header_cells api_id_cells pricing_cells : list string)
    (i : nat) (d : ProviderSnapshot) (id : string) :
  column_api_id api_id_cells i = Some id ->
  column_entries header_cells api_id_cells pricing_cells i <> [] ->
  Anthropic.contains "-20" id = true ->
  AnthropicModels.sub_date id <> id ->
  let d' := AnthropicModels.parse_column header_cells api_id_cells pricing_cells i d in
  exists input_price output_price model_name,
    nth_error header_cells i = Some model_name
    /\ Dict.get d' id
       = Some (AnthropicModels.record input_price output_price model_name)
    /\ Dict.get d' (AnthropicModels.sub_date id)
       = Some (AnthropicModels.record input_price output_price
                 (model_name ++ " (latest)")).
Proof.
  intros Hid Hentries Hdated Hdate d'. subst d'. rewrite parse_column_entries.
  revert Hentries. unfold column_entries. rewrite Hid, Hdated.
  assert (Hne : String.eqb (AnthropicModels.sub_date id) id = false)
    by (apply String.eqb_neq; exact Hdate).
  rewrite Hne.
  destruct (nth_error header_cells i) as [model_name|]; [|intros H; now destruct H].
  destruct (nth_error pricing_cells i) as [pricing_text|]; [|intros H; now destruct H].
  destruct (AnthropicModels.nonempty model_name
            && Anthropic.contains "claude" (Text.lower model_name));
    [|intros H; now destruct H].
  destruct (AnthropicModels.findall_prices pricing_text) as [|match0 [|match1 rest]];
    try (intros H; now destruct H).
  destruct (Extract.py_float match0) as [input_price|]; [|intros H; now destruct H].
  destruct (Extract.py_float match1) as [output_price|]; [|intros H; now destruct H].
  intros _. exists input_price, output_price, model_name.
  split; [reflexivity|]. unfold set_all. simpl andb. cbv iota.
  rewrite !for_each_cons. unfold for_each. simpl fold_left. simpl fst. simpl snd.
  rewrite !get_set, !String.eqb_refl.
  rewrite String.eqb_sym, Hne. split; reflexivity.
Qed.

(** X22 on the column of a dated identifier. *)
Lemma anthropic_models_alias_witness :
  exists input_price output_price model_name,
    nth_error ["Feature"; "Claude Sonnet 4"] 1 = Some model_name
    /\ Dict.get
         (AnthropicModels.parse_column ["Feature"; "Claude Sonnet 4"]
            ["Claude API"; "claude-sonnet-4-20250514Copied!"]
            ["Pricing"; "$3 / input MTok$15 / output MTok"] 1 [])
         "claude-sonnet-4-20250514"
       = Some (AnthropicModels.record input_price output_price model_name)
    /\ Dict.get
         (AnthropicModels.parse_column ["Feature"; "Claude Sonnet 4"]
            ["Claude API"; "claude-sonnet-4-20250514Copied!"]
            ["Pricing"; "$3 / input MTok$15 / output MTok"] 1 [])
         (AnthropicModels.sub_date "claude-sonnet-4-20250514")
       = Some (AnthropicModels.record input_price output_price
                 (model_name ++ " (latest)")).
Proof.
  apply (@anthropic_models_alias ["Feature"; "Claude Sonnet 4"]
           ["Claude API"; "claude-sonnet-4-20250514Copied!"]
           ["Pricing"; "$3 / input MTok$15 / output MTok"] 1 []
           "claude-sonnet-4-20250514").
  - vm_compute. reflexivity.
  - vm_compute. discriminate.
  - vm_compute. reflexivity.
  - vm_compute. discriminate.
Defined.

(** X23.  The keys of the snapshot that the Anthropic extractor of
    script/fetch_pricing.py returns are exactly the keys written by the
    columns 1 .. len(header) - 1 of the second table: a later column may
    replace the record of an earlier one but never removes its key, and
    column 0, the row label, gives no key. *)
Theorem anthropic_models_keys (first pricing_table : Extract.Table)
    (rest : list Extract.Table) (pricing_dict : ProviderSnapshot) (k : string) :
  AnthropicModels.parse_anthropic_pricing (first :: pricing_table :: rest)
  = Some pricing_dict ->
  In k (Dict.keys pricing_dict)
  <-> exists i, (1 <= i < List.length (nth 0 pricing_table []))%nat
        /\ In k (map fst (column_entries (nth 0 pricing_table [])
                            (nth 1 pricing_table []) (nth 5 pricing_table []) i)).
Proof.
  unfold AnthropicModels.parse_anthropic_pricing.
  destruct (List.length pricing_table <? 6)%nat; [discriminate|].
  set (header_cells := nth 0 pricing_table []).
  set (api_id_cells := nth 1 pricing_table []).
  set (pricing_cells := nth 5 pricing_table []).
  pose proof (keys_columns header_cells api_id_cells pricing_cells
                (seq 1 (List.length header_cells - 1)) [] k) as Hkeys.
  revert Hkeys.
  generalize (for_each (seq 1 (List.length header_cells - 1))
                (AnthropicModels.parse_column header_cells api_id_cells pricing_cells)
                ([] : ProviderSnapshot)).
  intros [|item d] Hkeys; simpl; [discriminate|].
  intros H. inversion H; subst. rewrite Hkeys. split.
  - intros [[]|(i & Hi & Hk)]. exists i. split; [|exact Hk].
    apply in_seq in Hi. lia.
  - intros (i & Hi & Hk). right. exists i. split; [|exact Hk].
    apply in_seq. lia.
Qed.

(** X23 on a page with the models table. *)
Lemma anthropic_models_keys_witness :
  In "claude-haiku-3"
     (Dict.keys
        [("claude-haiku-3",
          AnthropicModels.record (FNum 25 (-2)) (FNum 125 (-2)) "Claude Haiku 3")]).
Proof.
  apply (@anthropic_models_keys []
           [["Feature"; "Claude Haiku 3"]; ["Claude API"]; []; []; [];
            ["Pricing"; "$0.25 / input MTok$1.25 / output MTok"]] []
           [("claude-haiku-3",
             AnthropicModels.record (FNum 25 (-2)) (FNum 125 (-2)) "Claude Haiku 3")]
           "claude-haiku-3").
  - vm_compute. reflexivity.
  - exists 1%nat. split; [simpl; lia|]. vm_compute. left. reflexivity.
Defined.
